(** * The synthetic structural-causal-model generator and its trial runner

    A shallow embedding of [syn-entner.py] and [synthetic_high_dimension.py]:
    the latent and coefficient samplers ([get_u], [get_theta]), the simulator
    ([get_data]), the dataset builder ([get_train_test_data]) and the two
    trial runners ([main]).

    The scripts compute with NumPy arrays of binary64 numbers and draw from
    NumPy's global random stream.  The embedding is generic in the scalar
    type (class [Scalar]): it is run on exact rationals ([Qc]) for the
    algebraic properties and on binary64 ([PrimFloat]) to see what the
    scripts' own arithmetic does.  The random stream is an explicit state
    (class [RandomState]) threaded through a state-and-exception monad. *)

From Stdlib Require Import String DecimalString.
From Stdlib Require Import List Bool Arith ZArith Lia.
From Stdlib Require Import QArith Qcanon Qcabs Qround Floats Permutation.
From Stdlib Require Import DecimalNat Lqa.
Import ListNotations.
Close Scope Qc_scope.
Close Scope Q_scope.
Close Scope Z_scope.
Open Scope nat_scope.
Open Scope list_scope.

(* ================================================================== *)
(** ** Exceptions, and the state-and-exception monad *)

(** What the scripts can raise.  None of them is caught anywhere. *)
Inductive exn : Type :=
| ShapeError (op : string)        (* ValueError: np.concatenate, np.dot, broadcasting, reshape *)
| IndexError                      (* an index outside the array *)
| BinomialArguments               (* np.random.binomial: n < 0, p < 0, p > 1 or p is NaN *)
| ChoiceEmpty                     (* np.random.choice: 'a' cannot be empty *)
| ChoiceSize                      (* np.random.choice: 'a' and 'p' must have same size *)
| ChoiceProbabilities             (* np.random.choice: NaN, negative, or not summing to 1 *)
| SplitError                      (* train_test_split: inconsistent lengths or an empty train set *)
| LengthMismatch                  (* pandas: new column labels of the wrong length *)
| CollaboratorError (who : string).

Definition result (X : Type) : Type := (exn + X)%type.

Definition SE (S X : Type) : Type := S -> result X * S.

Definition ret {S X : Type} (x : X) : SE S X := fun s => (inr x, s).

Definition raise {S X : Type} (e : exn) : SE S X := fun s => (inl e, s).

Definition bind {S X Y : Type} (m : SE S X) (k : X -> SE S Y) : SE S Y :=
  fun s => match m s with
           | (inr x, s') => k x s'
           | (inl e, s') => (inl e, s')
           end.

Definition lift_result {S X : Type} (r : result X) : SE S X := fun s => (r, s).

Declare Scope se_scope.
Delimit Scope se_scope with se.
Notation "x <- m ;; k" := (bind m (fun x => k))
  (at level 61, m at next level, right associativity) : se_scope.
Notation "' p <- m ;; k" := (bind m (fun x => match x with p => k end))
  (at level 61, p pattern, m at next level, right associativity) : se_scope.
Notation "m ;;; k" := (bind m (fun _ => k))
  (at level 61, right associativity) : se_scope.
Open Scope se_scope.

(** A [for] loop over a list that threads the loop's local variables [acc]. *)
Fixpoint for_each {S A L : Type} (l : list A) (body : A -> L -> SE S L) (acc : L) : SE S L :=
  match l with
  | [] => ret acc
  | x :: l' => acc' <- body x acc ;; for_each l' body acc'
  end.

(** Python's [enumerate]. *)
Definition enumerate {A : Type} (l : list A) : list (nat * A) := combine (seq 0 (length l)) l.

(* ================================================================== *)
(** ** Scalars *)

(** The arithmetic of the array entries.  [of_int] is the conversion of a
    Python int to a float, [frint] is [np.rint] (nearest integer, ties to
    even) and [fceil] is [math.ceil]. *)
Class Scalar (F : Type) : Type := {
  fadd : F -> F -> F;
  fsub : F -> F -> F;
  fmul : F -> F -> F;
  fdiv : F -> F -> F;
  fabs : F -> F;
  fleb : F -> F -> bool;
  frint : F -> F;
  fceil : F -> Z;
  of_int : Z -> F
}.

(** [scipy.special.expit] and one row of [scipy.special.softmax]. *)
Class Special (F : Type) : Type := {
  expit : F -> F;
  softmax : list F -> list F
}.

(** [np.sqrt] on one number. *)
Class Sqrt (F : Type) : Type := fsqrt : F -> F.

(** The value an out-of-range read of the model falls back on; the scripts
    never read out of range where it matters. *)
Class Default (A : Type) : Type := default : A.

#[export] Instance Default_Z : Default Z := 0%Z.
#[export] Instance Default_unit : Default unit := tt.
#[export] Instance Default_Scalar {F : Type} `{Scalar F} : Default F := @of_int F _ 0%Z.

Section ScalarOps.
Context {F : Type} `{Scalar F}.

(** A decimal literal [p/q] of the source, e.g. [0.1] as [lit 1 10]:
    correctly rounded in binary64 since division is. *)
Definition lit (p q : Z) : F := fdiv (of_int p) (of_int q).

(** Sum in index order, from zero. NumPy and BLAS may associate
    differently; every order agrees in exact arithmetic. *)
Definition fsum (l : list F) : F := fold_left fadd l (of_int 0%Z).

Definition fle (x y : F) : Prop := fleb x y = true.

(** [v] lies in the interval spanned by the bounds, whichever is larger. *)
Definition betweenb (lo hi v : F) : bool :=
  (fleb lo v && fleb v hi) || (fleb hi v && fleb v lo).

Definition between (lo hi v : F) : Prop := betweenb lo hi v = true.

(** [0 <= p <= 1]: false of a NaN, which compares with nothing. *)
Definition is_probability (p : F) : bool := fleb (of_int 0%Z) p && fleb p (of_int 1%Z).

(** [x - x <= 0]: true of every finite number; false of a NaN and of the
    infinities of binary64, whose difference with themselves is a NaN. *)
Definition is_finite (x : F) : bool := fleb (fsub x x) (of_int 0%Z).

(** [np.round(x, decimals)]: multiply by [10**decimals], [rint], divide. *)
Definition np_round (x : F) (decimals : nat) : F :=
  fdiv (frint (fmul x (of_int (10 ^ Z.of_nat decimals)%Z))) (of_int (10 ^ Z.of_nat decimals)%Z).
End ScalarOps.

(* ================================================================== *)
(** ** Two-dimensional arrays *)

(** An ndarray of rank 2: its column count and its rows.  The row count is
    the number of rows, so a [(0,d)] array keeps its [d]. *)
Record ndarray (A : Type) : Type := mk_ndarray { ncols : nat; rows : list (list A) }.
Arguments mk_ndarray {A} ncols rows.
Arguments ncols {A} _.
Arguments rows {A} _.

Definition nrows {A : Type} (a : ndarray A) : nat := length (rows a).

Definition shape {A : Type} (a : ndarray A) : nat * nat := (nrows a, ncols a).

Definition entry {A : Type} `{Default A} (a : ndarray A) (i j : nat) : A :=
  nth j (nth i (rows a) []) default.

(** The array of shape [(r,c)] whose entry [(i,j)] is [f i j]. *)
Definition tabulate {A : Type} (r c : nat) (f : nat -> nat -> A) : ndarray A :=
  mk_ndarray c (map (fun i => map (fun j => f i j) (seq 0 c)) (seq 0 r)).

Definition row {A : Type} `{Default A} (a : ndarray A) (i : nat) : list A :=
  map (fun j => entry a i j) (seq 0 (ncols a)).

(** [a[:, j]] as a one-dimensional array. *)
Definition column {A : Type} `{Default A} (a : ndarray A) (j : nat) : list A :=
  map (fun i => entry a i j) (seq 0 (nrows a)).

(** Row-major list of the entries. *)
Definition flatten {A : Type} `{Default A} (a : ndarray A) : list A :=
  concat (map (row a) (seq 0 (nrows a))).

Definition map_array {A B : Type} `{Default A} (f : A -> B) (a : ndarray A) : ndarray B :=
  tabulate (nrows a) (ncols a) (fun i j => f (entry a i j)).

(** [a[idx]] for a list of row indices (fancy indexing on axis 0). *)
Definition take {A : Type} `{Default A} (a : ndarray A) (idx : list nat) : ndarray A :=
  tabulate (length idx) (ncols a) (fun i j => entry a (nth i idx 0) j).

(** [a[r, i] = v]. *)
Definition setitem {A : Type} `{Default A} (a : ndarray A) (r i : nat) (v : A) : result (ndarray A) :=
  if (r <? nrows a) && (i <? ncols a)
  then inr (tabulate (nrows a) (ncols a)
              (fun r' i' => if (r' =? r) && (i' =? i) then v else entry a r' i'))
  else inl IndexError.

(** [a[i, :] = v]: the scalar [v] is broadcast over row [i]. *)
Definition setrow {A : Type} `{Default A} (a : ndarray A) (i : nat) (v : A) : result (ndarray A) :=
  if i <? nrows a
  then inr (tabulate (nrows a) (ncols a) (fun i' j => if i' =? i then v else entry a i' j))
  else inl IndexError.

(** [np.concatenate((a, b), axis=1)]. *)
Definition hstack2 {A : Type} `{Default A} (a b : ndarray A) : result (ndarray A) :=
  if nrows a =? nrows b
  then inr (tabulate (nrows a) (ncols a + ncols b)
              (fun i j => if j <? ncols a then entry a i j else entry b i (j - ncols a)))
  else inl (ShapeError "concatenate").

(** [np.concatenate(arrs, axis=1)]. *)
Fixpoint concatenate1 {A : Type} `{Default A} (arrs : list (ndarray A)) : result (ndarray A) :=
  match arrs with
  | [] => inl (ShapeError "concatenate")
  | [a] => inr a
  | a :: rest =>
      match concatenate1 rest with
      | inr b => hstack2 a b
      | inl e => inl e
      end
  end.

(** [np.concatenate((a, b), axis=0)]. *)
Definition vstack2 {A : Type} `{Default A} (a b : ndarray A) : result (ndarray A) :=
  if ncols a =? ncols b
  then inr (tabulate (nrows a + nrows b) (ncols a)
              (fun i j => if i <? nrows a then entry a i j else entry b (i - nrows a) j))
  else inl (ShapeError "concatenate").

Fixpoint concatenate0 {A : Type} `{Default A} (arrs : list (ndarray A)) : result (ndarray A) :=
  match arrs with
  | [] => inl (ShapeError "concatenate")
  | [a] => inr a
  | a :: rest =>
      match concatenate0 rest with
      | inr b => vstack2 a b
      | inl e => inl e
      end
  end.

(** Broadcasting of one dimension: equal, or one of the two is 1. *)
Definition bdim (m n : nat) : option nat :=
  if m =? n then Some m else if m =? 1 then Some n else if n =? 1 then Some m else None.

Definition bidx (m i : nat) : nat := if m =? 1 then 0 else i.

(** An elementwise binary operation on two arrays, with broadcasting. *)
Definition broadcast2 {A B C : Type} `{Default A} `{Default B}
    (op : A -> B -> C) (a : ndarray A) (b : ndarray B) : result (ndarray C) :=
  match bdim (nrows a) (nrows b), bdim (ncols a) (ncols b) with
  | Some r, Some c =>
      inr (tabulate r c (fun i j =>
             op (entry a (bidx (nrows a) i) (bidx (ncols a) j))
                (entry b (bidx (nrows b) i) (bidx (ncols b) j))))
  | _, _ => inl (ShapeError "broadcast")
  end.

(** A one-dimensional array of length [c] broadcasts as shape [(1,c)]. *)
Definition as_row {A : Type} (v : list A) : ndarray A := mk_ndarray (length v) [v].

(** [v.reshape(1, c)] for a one-dimensional [v]. *)
Definition reshape_row {A : Type} (v : list A) (c : nat) : result (ndarray A) :=
  if length v =? c then inr (mk_ndarray c [v]) else inl (ShapeError "reshape").

Section ArrayArithmetic.
Context {F : Type} `{Scalar F}.

Definition np_zeros (r c : nat) : ndarray F := tabulate r c (fun _ _ => of_int 0%Z).
Definition np_ones (r c : nat) : ndarray F := tabulate r c (fun _ _ => of_int 1%Z).

(** An int array used among floats is converted entry by entry. *)
Definition astype_float (a : ndarray Z) : ndarray F := map_array of_int a.

Definition np_add (a b : ndarray F) : result (ndarray F) := broadcast2 fadd a b.
Definition np_sub (a b : ndarray F) : result (ndarray F) := broadcast2 fsub a b.

(** [s * a], [a - s] and [a / s] for a number [s]. *)
Definition scale (s : F) (a : ndarray F) : ndarray F := map_array (fmul s) a.
Definition sub_scalar (a : ndarray F) (s : F) : ndarray F := map_array (fun x => fsub x s) a.
Definition div_scalar (a : ndarray F) (s : F) : ndarray F := map_array (fun x => fdiv x s) a.

Definition np_abs (a : ndarray F) : ndarray F := map_array fabs a.

(** [np.dot(a, b)]. *)
Definition np_dot (a b : ndarray F) : result (ndarray F) :=
  if ncols a =? nrows b
  then inr (tabulate (nrows a) (ncols b)
              (fun i j => fsum (map (fun k => fmul (entry a i k) (entry b k j)) (seq 0 (ncols a)))))
  else inl (ShapeError "dot").

Definition mean_list (l : list F) : F := fdiv (fsum l) (of_int (Z.of_nat (length l))).

(** [np.mean(a)]: over all entries. *)
Definition np_mean (a : ndarray F) : F := mean_list (flatten a).

(** [np.mean(a, axis=0)]: one mean per column. *)
Definition np_mean_axis0 (a : ndarray F) : list F :=
  map (fun j => mean_list (column a j)) (seq 0 (ncols a)).

(** [np.var] of a float vector: the mean of the squared deviations,
    divided by [N - ddof]. *)
Definition var_list (ddof : nat) (l : list F) : F :=
  let mu := mean_list l in
  fdiv (fsum (map (fun x => fmul (fsub x mu) (fsub x mu)) l))
       (of_int (Z.of_nat (length l - ddof))).

(** [np.std(a, axis=0, ddof=ddof)]; the scripts leave [ddof] at its default 0. *)
Definition np_std_axis0 `{Sqrt F} (ddof : nat) (a : ndarray F) : list F :=
  map (fun j => fsqrt (var_list ddof (column a j))) (seq 0 (ncols a)).

(** [scipy.special.softmax(a, axis=1)]. *)
Definition softmax_axis1 `{Special F} (a : ndarray F) : ndarray F :=
  tabulate (nrows a) (ncols a) (fun i j => nth j (softmax (row a i)) default).

(** [np.arange(k)]. *)
Definition np_arange (k : Z) : list Z := map Z.of_nat (seq 0 (Z.to_nat k)).
End ArrayArithmetic.

(* ================================================================== *)
(** ** NumPy's global random stream *)

(** The scalar samplers behind [np.random]: each draws one value and
    advances the stream [G].  An array is filled entry by entry, row-major,
    which is how NumPy fills it. *)
Class RandomState (F G : Type) : Type := {
  draw_uniform : F -> F -> G -> F * G;              (* low, high *)
  draw_normal : F -> F -> G -> F * G;               (* loc, scale *)
  draw_binomial : Z -> F -> G -> Z * G;             (* n, p *)
  draw_choice : list Z -> list F -> G -> Z * G;     (* a, p: after the arguments are validated *)
  draw_permutation : nat -> G -> list nat * G       (* a shuffled range(n) *)
}.

Fixpoint draw_list {G X Y : Type} (f : X -> G -> Y * G) (xs : list X) (g : G) : list Y * G :=
  match xs with
  | [] => ([], g)
  | x :: xs' =>
      let (y, g1) := f x g in
      let (ys, g2) := draw_list f xs' g1 in
      (y :: ys, g2)
  end.

Definition draw_array {G X Y : Type} (f : X -> G -> Y * G) (a : ndarray X) (g : G) : ndarray Y * G :=
  let (rs, g') := draw_list (draw_list f) (rows a) g in (mk_ndarray (ncols a) rs, g').

Section RandomArrays.
Context {F G : Type} `{Scalar F} `{RandomState F G}.

(** [np.random.uniform(low, high, (r, c))]. *)
Definition np_random_uniform (low high : F) (r c : nat) : SE G (ndarray F) :=
  fun g => let (a, g') := draw_array (fun _ : unit => draw_uniform low high) (tabulate r c (fun _ _ => tt)) g in
           (inr a, g').

(** [np.random.normal(loc, scale, (r, c))]. *)
Definition np_random_normal (loc scale : F) (r c : nat) : SE G (ndarray F) :=
  fun g => let (a, g') := draw_array (fun _ : unit => draw_normal loc scale) (tabulate r c (fun _ _ => tt)) g in
           (inr a, g').

(** The checks of [np.random.binomial] on its arguments, made before
    anything is drawn: [n] is not negative and no entry of [p] is below 0,
    above 1 or a NaN. *)
Definition binomial_accepts (n : Z) (p : ndarray F) : bool :=
  (0 <=? n)%Z && forallb (forallb is_probability) (rows p).

(** [np.random.binomial(n, p)] for an array [p] of probabilities. *)
Definition np_random_binomial (n : Z) (p : ndarray F) : SE G (ndarray Z) :=
  fun g =>
    if binomial_accepts n p
    then let (a, g') := draw_array (draw_binomial n) p g in (inr a, g')
    else (inl BinomialArguments, g).

(** The tolerance of [np.random.choice] on the sum of [p]: the square
    root of the binary64 machine epsilon, [2**-26]. *)
Definition choice_atol : F := lit 1 67108864.

(** The checks of [np.random.choice] on the values of [p]: no NaN, no
    negative entry, and a sum within [choice_atol] of 1. *)
Definition choice_accepts (p : list F) : bool :=
  forallb (fleb (of_int 0%Z)) p && fleb (fabs (fsub (fsum p) (of_int 1%Z))) choice_atol.

(** [np.random.choice(a, p=p)] for one-dimensional [a] and [p]. *)
Definition np_random_choice (a : list Z) (p : list F) : SE G Z :=
  fun g =>
    match a with
    | [] => (inl ChoiceEmpty, g)
    | _ :: _ =>
        if negb (length p =? length a) then (inl ChoiceSize, g)
        else if negb (choice_accepts p) then (inl ChoiceProbabilities, g)
        else let (v, g') := draw_choice a p g in (inr v, g')
    end.

Definition np_random_permutation (n : nat) : SE G (list nat) :=
  fun g => let (l, g') := draw_permutation n g in (inr l, g').
End RandomArrays.

(* ================================================================== *)
(** ** scikit-learn's [train_test_split] and pandas' tables *)

Section Split.
Context {F G : Type} `{Scalar F} `{RandomState F G}.

(** The sizes scikit-learn derives from a float [test_size] when
    [train_size] is left out: [n_test = ceil(test_size * n_samples)],
    [n_train = n_samples - n_test], and an empty train set is an error. *)
Definition split_sizes (n_samples : nat) (test_size : F) : result (nat * nat) :=
  let n_test := Z.to_nat (fceil (fmul test_size (of_int (Z.of_nat n_samples)))) in
  let n_train := n_samples - n_test in
  if n_train =? 0 then inl SplitError else inr (n_train, n_test).

(** One shuffle: the test rows are the first [n_test] entries of a
    random permutation drawn from the global stream, the train rows the
    [n_train] entries after them. *)
Definition split_indices (n_samples : nat) (test_size : F) : SE G (list nat * list nat) :=
  ' (n_train, n_test) <- lift_result (split_sizes n_samples test_size) ;;
  permutation <- np_random_permutation n_samples ;;
  ret (firstn n_train (skipn n_test permutation), firstn n_test permutation).

(** [train_test_split(features, t, y, e, y_0, y_1, test_size=...)]. *)
Definition train_test_split (features : ndarray F) (t : ndarray Z) (y : ndarray F)
    (e : ndarray Z) (y_0 y_1 : ndarray F) (test_size : F)
  : SE G (ndarray F * ndarray F * ndarray Z * ndarray Z * ndarray F * ndarray F *
          ndarray Z * ndarray Z * ndarray F * ndarray F * ndarray F * ndarray F) :=
  let n_samples := nrows features in
  if forallb (Nat.eqb n_samples) [nrows t; nrows y; nrows e; nrows y_0; nrows y_1]
  then
    ' (train, test) <- split_indices n_samples test_size ;;
    ret (take features train, take features test, take t train, take t test,
         take y train, take y test, take e train, take e test,
         take y_0 train, take y_0 test, take y_1 train, take y_1 test)
  else raise SplitError.
End Split.

(** A [pd.Series] is its list of values. *)
Definition Series (A : Type) : Type := list A.

(** A [pd.DataFrame]: the labels of its columns (one string per level of
    the column index) and its values. *)
Record DataFrame (F : Type) : Type := mk_DataFrame {
  columns : list (list string);
  values : ndarray F
}.
Arguments mk_DataFrame {F} columns values.
Arguments columns {F} _.
Arguments values {F} _.

(** Python's [str] on a natural number. *)
Definition str (n : nat) : string := NilEmpty.string_of_uint (Nat.to_uint n).

(** [pd.Series(a[:, 0])]. *)
Definition Series_of_column0 {A : Type} `{Default A} (a : ndarray A) : result (Series A) :=
  if 0 <? ncols a then inr (column a 0) else inl IndexError.

(** [np.array(s).reshape(-1, 1)]. *)
Definition reshape_column {A : Type} `{Default A} (s : Series A) : ndarray A :=
  tabulate (length s) 1 (fun i _ => nth i s default).

(** [df.columns = labels]: the count must match. *)
Definition set_columns {F : Type} (df : DataFrame F) (labels : list (list string)) : result (DataFrame F) :=
  if length labels =? ncols (values df)
  then inr (mk_DataFrame labels (values df))
  else inl LengthMismatch.

(** [pd.MultiIndex.from_arrays([top, bottom])]. *)
Definition from_arrays (top bottom : list string) : list (list string) :=
  map (fun p => [fst p; snd p]) (combine top bottom).

(** [index.droplevel()]: drop the first level of every label. *)
Definition droplevel (labels : list (list string)) : list (list string) := map (@tl string) labels.

(** The positions of the columns whose first-level label is [key]. *)
Definition positions (labels : list (list string)) (key : string) : list nat :=
  map fst (filter (fun p => String.eqb (hd EmptyString (snd p)) key) (enumerate labels)).

(** [df[keys]] for a list of first-level labels. *)
Definition select {F : Type} `{Default F} (df : DataFrame F) (keys : list string) : DataFrame F :=
  let idx := flat_map (positions (columns df)) keys in
  mk_DataFrame (map (fun j => nth j (columns df) []) idx)
               (tabulate (nrows (values df)) (length idx)
                  (fun i j => entry (values df) i (nth j idx 0))).

(* ================================================================== *)
(** ** The world of a trial runner *)

(** What a script prints: the progress counters, the elapsed time (its
    value is not modelled), arrays, and labelled tables. *)
Inductive output (F : Type) : Type :=
| OutInt (n : Z)
| OutElapsed
| OutArray (a : ndarray F)
| OutFrame (index : list string) (header : list Z) (a : ndarray F).
Arguments OutInt {F} n.
Arguments OutElapsed {F}.
Arguments OutArray {F} a.
Arguments OutFrame {F} index header a.

(** A file written by [np.savetxt(fname, X, delimiter=...)]: its header is
    NumPy's default, the empty string. *)
Record saved_file (F : Type) : Type := mk_saved_file {
  fname : string;
  delimiter : string;
  header : string;
  content : ndarray F
}.
Arguments mk_saved_file {F} fname delimiter header content.
Arguments fname {F} _.
Arguments delimiter {F} _.
Arguments header {F} _.
Arguments content {F} _.

(** The random stream, the console and the files written, in order. *)
Record world (G F : Type) : Type := mk_world {
  rng : G;
  stdout : list (output F);
  files : list (saved_file F)
}.
Arguments mk_world {G F} rng stdout files.
Arguments rng {G F} _.
Arguments stdout {G F} _.
Arguments files {G F} _.

(** A computation on the random stream, run inside the world. *)
Definition liftR {G F X : Type} (m : SE G X) : SE (world G F) X :=
  fun w => let (r, g') := m (rng w) in (r, mk_world g' (stdout w) (files w)).

Definition print {G F : Type} (o : output F) : SE (world G F) unit :=
  fun w => (inr tt, mk_world (rng w) (stdout w ++ [o]) (files w)).

Definition np_savetxt {G F : Type} (name : string) (X : ndarray F) (delim : string)
  : SE (world G F) unit :=
  fun w => (inr tt, mk_world (rng w) (stdout w)
                      (files w ++ [mk_saved_file name delim EmptyString X])).

(** The conditional-independence test [RCoT] of the R package RCIT (its
    first result, the p-value) and scikit-learn's
    [StandardScaler().fit_transform]: black boxes that may fail and may
    use randomness of their own, folded into the stream [G]. *)
Class IndependenceTest (F G : Type) : Type := {
  StandardScaler_fit_transform : ndarray F -> SE G (ndarray F);
  RCoT : ndarray Z -> ndarray F -> ndarray F -> SE G F
}.

(** causallib's [Standardization] estimator: fitting, the population
    outcomes under control and treatment ([pop_outcome[0]],
    [pop_outcome[1]]) and the effect estimate. *)
Class Causallib (F G : Type) : Type := {
  fitted : Type;
  Standardization_fit : list F -> DataFrame F -> Series Z -> Series F -> SE G fitted;
  estimate_population_outcome : fitted -> DataFrame F -> Series Z -> SE G (F * F);
  estimate_effect : fitted -> F -> F -> SE G F
}.

(** The invariant-feature selector of the repository's [irm] module, taken
    through its contract: the names of the selected columns and
    diagnostics that the scripts drop. *)
Class IRM (F G A : Type) : Type :=
  get_irm_features : DataFrame F -> Series Z -> Series F -> Series Z -> Z -> Z ->
                     list string -> A -> SE G (list string * unit).

(* ================================================================== *)
(** ** What [get_train_test_data] returns *)

(** The thirteen values of the returned tuple, under the names the scripts
    give them. *)
Record dataset (F : Type) : Type := mk_dataset {
  x_train : DataFrame F;
  t_train : Series Z;
  y_train : Series F;
  e_train : Series Z;
  y_0_train : Series F;
  y_1_train : Series F;
  x_test : DataFrame F;
  t_test : Series Z;
  y_test : Series F;
  e_test : Series Z;
  y_0_test : Series F;
  y_1_test : Series F;
  true_ate : F
}.
Arguments mk_dataset {F} _ _ _ _ _ _ _ _ _ _ _ _ _.
Arguments x_train {F} _.
Arguments t_train {F} _.
Arguments y_train {F} _.
Arguments e_train {F} _.
Arguments y_0_train {F} _.
Arguments y_1_train {F} _.
Arguments x_test {F} _.
Arguments t_test {F} _.
Arguments y_test {F} _.
Arguments e_test {F} _.
Arguments y_0_test {F} _.
Arguments y_1_test {F} _.
Arguments true_ate {F} _.

(* ================================================================== *)
(** ** Notions the properties are stated with *)

(** The shapes [get_u] gives the latents. *)
Definition latent_shapes {F : Type} (n d : nat) (u1 u2 u3 u4 : ndarray F) : Prop :=
  shape u1 = (n, 1) /\ shape u2 = (n, d) /\ shape u3 = (n, d) /\ shape u4 = (n, d).

(** The shapes [get_theta] gives the coefficients. *)
Definition coefficient_shapes {F : Type} (d : nat) (use_t_in_e : Z)
    (theta1 theta2 theta3 theta4 theta5 theta6 : ndarray F) : Prop :=
  shape theta1 = (d + 1, 1) /\ shape theta2 = (d * 2 + 1, d) /\ shape theta3 = (d * 2, d) /\
  shape theta4 = (d * 2 + 1, 1) /\ shape theta5 = (2, 1) /\
  shape theta6 = (if (use_t_in_e =? 0)%Z then 1 else 2, 3).

(** Every entry of an array satisfies [P]. *)
Definition all_entries {A : Type} `{Default A} (P : A -> Prop) (a : ndarray A) : Prop :=
  forall i j, i < nrows a -> j < ncols a -> P (entry a i j).


(** The rows [idx] of the population, as one side of the split holds them:
    the same population row behind position [j] of all six sequences. *)
Definition rows_taken {F : Type} `{Scalar F}
    (features : ndarray F) (t : ndarray Z) (y : ndarray F) (e : ndarray Z) (y_0 y_1 : ndarray F)
    (idx : list nat)
    (x : DataFrame F) (ts : Series Z) (ys : Series F) (es : Series Z) (y_0s y_1s : Series F)
  : Prop :=
  values x = take features idx /\
  ts = map (fun r => entry t r 0) idx /\
  ys = map (fun r => entry y r 0) idx /\
  es = map (fun r => entry e r 0) idx /\
  y_0s = map (fun r => entry y_0 r 0) idx /\
  y_1s = map (fun r => entry y_1 r 0) idx.

(** The cells of the trial grid in the order a runner visits them (all
    dimensions of repetition 0, then of repetition 1, ...), each run on the
    stream the previous one left; the values are collected in that order. *)
Definition run_cells {G V : Type} (cell : nat -> SE G V)
    (number_repetitions : nat) (dims : list nat) : SE G (list V) :=
  for_each (flat_map (fun _ => dims) (seq 0 number_repetitions))
    (fun d acc => v <- cell d ;; ret (acc ++ [v])) [].

(** A result matrix of shape [(R, L)] holds, at [(r, i)], the quantity
    [proj] of the value of cell number [r * L + i], and zero where no cell
    has run yet. *)
Definition filled {F V : Type} `{Scalar F} (R L : nat) (proj : V -> F)
    (vals : list V) (m : ndarray F) : Prop :=
  shape m = (R, L) /\
  forall r i, r < R -> i < L ->
    entry m r i = match nth_error vals (r * L + i) with
                  | Some v => proj v
                  | None => of_int 0%Z
                  end.

(** The population standard deviation of a sample: the square root of the
    mean squared deviation from the mean. *)
Definition population_std {F : Type} `{Scalar F} `{Sqrt F} (l : list F) : F :=
  fsqrt (mean_list (map (fun x => fmul (fsub x (mean_list l)) (fsub x (mean_list l))) l)).

(** The standard errors a runner reports for the matrix [m]: one row, the
    population standard deviation of each column over the square root of
    the number of repetitions. *)
Definition reports_standard_error {F : Type} `{Scalar F} `{Sqrt F}
    (number_repetitions : nat) (m reported : ndarray F) : Prop :=
  shape reported = (1, ncols m) /\
  forall j, j < ncols m ->
    entry reported 0 j
    = fdiv (population_std (column m j)) (fsqrt (of_int (Z.of_nat number_repetitions))).

(** What holds of the outcome of running [m] from the state [s]. *)
Definition wp {S X : Type} (m : SE S X) (s : S) (Q : result X -> S -> Prop) : Prop :=
  Q (fst (m s)) (snd (m s)).

(* ================================================================== *)
(** ** [syn-entner.py] *)

Module SynEntner.

Section Generator.
Context {F G : Type} `{Scalar F} `{Special F} `{RandomState F G}.

Definition get_u (number_observations number_dimensions : nat)
  : SE G (ndarray F * ndarray F * ndarray F * ndarray F) :=
  u1 <- np_random_uniform (of_int 1%Z) (of_int 2%Z) number_observations 1 ;;
  u2 <- np_random_uniform (of_int 1%Z) (of_int 2%Z) number_observations number_dimensions ;;
  u3 <- np_random_uniform (of_int 1%Z) (of_int 2%Z) number_observations number_dimensions ;;
  u4 <- np_random_uniform (of_int 1%Z) (of_int 2%Z) number_observations number_dimensions ;;
  ret (u1, u2, u3, u4).

Definition get_theta (number_dimensions : nat) (use_t_in_e number_environments : Z)
  : SE G (ndarray F * ndarray F * ndarray F * ndarray F * ndarray F * ndarray F) :=
  theta1 <- np_random_uniform (of_int 1%Z) (of_int 2%Z) (number_dimensions + 1) 1 ;;
  theta2 <- np_random_uniform (of_int 1%Z) (of_int 2%Z) (number_dimensions * 2 + 1) number_dimensions ;;
  theta3 <- np_random_uniform (of_int 1%Z) (of_int 2%Z) (number_dimensions * 2) number_dimensions ;;
  theta4 <- np_random_uniform (of_int 1%Z) (of_int 2%Z) (number_dimensions * 2 + 1) 1 ;;
  theta5 <- np_random_uniform (of_int 1%Z) (of_int 2%Z) 2 1 ;;
  theta6 <-
    (if (use_t_in_e =? 0)%Z
     then
       a <- np_random_uniform (of_int 1%Z) (of_int 2%Z) 1 1 ;;
       b <- np_random_uniform (of_int (-1)%Z) (of_int (-2)%Z) 1 1 ;;
       lift_result (concatenate1 [a; np_zeros 1 1; b])
     else
       a <- np_random_uniform (of_int 1%Z) (of_int 2%Z) 2 1 ;;
       b <- np_random_uniform (of_int (-1)%Z) (of_int (-2)%Z) 2 1 ;;
       lift_result (concatenate1 [a; np_zeros 2 1; b])) ;;
  ret (theta1, theta2, theta3, theta4, theta5, theta6).

Definition get_data (u1 u2 u3 u4 theta1 theta2 theta3 theta4 theta5 theta6 : ndarray F)
    (number_observations number_dimensions : nat) (use_t_in_e number_environments : Z)
  : SE G (ndarray F * ndarray F * ndarray F * ndarray Z * ndarray Z *
          ndarray F * ndarray F * ndarray F) :=
  (* x1 *)
  c <- lift_result (concatenate1 [u1; u2]) ;;
  p <- lift_result (np_dot c theta1) ;;
  z <- np_random_normal (of_int 0%Z) (of_int 1%Z) number_observations 1 ;;
  x1 <- lift_result (np_add p (scale (lit 1 10) z)) ;;
  (* x2 *)
  c <- lift_result (concatenate1 [x1; u2; u3]) ;;
  p <- lift_result (np_dot c theta2) ;;
  z <- np_random_normal (of_int 0%Z) (of_int 1%Z) number_observations number_dimensions ;;
  x2 <- lift_result (np_add p (scale (lit 1 10) z)) ;;
  (* x3 *)
  c <- lift_result (concatenate1 [u3; u4]) ;;
  p <- lift_result (np_dot c theta3) ;;
  z <- np_random_normal (of_int 0%Z) (of_int 1%Z) number_observations number_dimensions ;;
  x3 <- lift_result (np_add p (scale (lit 1 10) z)) ;;
  (* t *)
  c <- lift_result (concatenate1 [u1; x1]) ;;
  s <- lift_result (np_dot c theta5) ;;
  c' <- lift_result (concatenate1 [u1; x1]) ;;
  s' <- lift_result (np_dot c' theta5) ;;
  t <- np_random_binomial 1%Z (map_array expit (sub_scalar s (np_mean s'))) ;;
  (* the rows of probabilities *)
  probabilites <-
    (if (use_t_in_e =? 0)%Z
     then
       s <- lift_result (np_dot x1 theta6) ;;
       s' <- lift_result (np_dot x1 theta6) ;;
       l <- lift_result (np_sub s (as_row (np_mean_axis0 s'))) ;;
       ret (softmax_axis1 l)
     else
       c <- lift_result (concatenate1 [x1; astype_float t]) ;;
       s <- lift_result (np_dot c theta6) ;;
       c' <- lift_result (concatenate1 [x1; astype_float t]) ;;
       s' <- lift_result (np_dot c' theta6) ;;
       l <- lift_result (np_sub s (as_row (np_mean_axis0 s'))) ;;
       ret (softmax_axis1 l)) ;;
  (* e *)
  e <- for_each (enumerate (map (row probabilites) (seq 0 (nrows probabilites))))
         (fun ip e =>
            v <- np_random_choice (np_arange number_environments) (snd ip) ;;
            lift_result (setrow e (fst ip) v))
         (tabulate number_observations 1 (fun _ _ => 0%Z)) ;;
  (* y, y_0, y_1 *)
  let zeros := np_zeros number_observations 1 in
  let ones := np_ones number_observations 1 in
  z <- np_random_normal (of_int 0%Z) (of_int 1%Z) number_observations 1 ;;
  let noise := scale (lit 1 10) z in
  c <- lift_result (concatenate1 [x2; u4; astype_float t]) ;;
  p <- lift_result (np_dot c theta4) ;;
  y <- lift_result (np_add p noise) ;;
  c <- lift_result (concatenate1 [x2; u4; zeros]) ;;
  p <- lift_result (np_dot c theta4) ;;
  y_0 <- lift_result (np_add p noise) ;;
  c <- lift_result (concatenate1 [x2; u4; ones]) ;;
  p <- lift_result (np_dot c theta4) ;;
  y_1 <- lift_result (np_add p noise) ;;
  ret (x1, x2, x3, t, e, y, y_0, y_1).

(** The column labels of the feature table: group [x1] (one column),
    [x2] and [x3] ([number_dimensions] columns each), over the column
    numbers as strings. *)
Definition label_features (features : ndarray F) (number_dimensions : nat)
  : result (DataFrame F) :=
  match set_columns (mk_DataFrame [] features)
          (map (fun i => [str i]) (seq 0 (2 * number_dimensions + 1))) with
  | inr x =>
      set_columns x
        (from_arrays (repeat "x1"%string 1 ++ repeat "x2"%string number_dimensions
                      ++ repeat "x3"%string number_dimensions)
                     (map (hd EmptyString) (columns x)))
  | inl e => inl e
  end.

Definition get_train_test_data (number_observations number_dimensions : nat)
    (use_t_in_e number_environments : Z) : SE G (dataset F) :=
  ' (u1, u2, u3, u4) <- get_u number_observations number_dimensions ;;
  ' (theta1, theta2, theta3, theta4, theta5, theta6) <-
      get_theta number_dimensions use_t_in_e number_environments ;;
  ' (x1, x2, x3, t, e, y, y_0, y_1) <-
      get_data u1 u2 u3 u4 theta1 theta2 theta3 theta4 theta5 theta6
               number_observations number_dimensions use_t_in_e number_environments ;;
  d <- lift_result (np_sub y_1 y_0) ;;
  let true_ate := np_round (np_mean d) 6 in
  features <- lift_result (concatenate1 [x1; x2; x3]) ;;
  ' (features_train, features_test, t_train, t_test, y_train, y_test, e_train, e_test,
     y_0_train, y_0_test, y_1_train, y_1_test) <-
      train_test_split features t y e y_0 y_1 (lit 2 10) ;;
  x_train <- lift_result (label_features features_train number_dimensions) ;;
  t_train <- lift_result (Series_of_column0 t_train) ;;
  y_train <- lift_result (Series_of_column0 y_train) ;;
  e_train <- lift_result (Series_of_column0 e_train) ;;
  y_0_train <- lift_result (Series_of_column0 y_0_train) ;;
  y_1_train <- lift_result (Series_of_column0 y_1_train) ;;
  x_test <- lift_result (label_features features_test number_dimensions) ;;
  t_test <- lift_result (Series_of_column0 t_test) ;;
  y_test <- lift_result (Series_of_column0 y_test) ;;
  e_test <- lift_result (Series_of_column0 e_test) ;;
  y_0_test <- lift_result (Series_of_column0 y_0_test) ;;
  y_1_test <- lift_result (Series_of_column0 y_1_test) ;;
  ret (mk_dataset x_train t_train y_train e_train y_0_train y_1_train
                  x_test t_test y_test e_test y_0_test y_1_test true_ate).
End Generator.

(** The command line: [--nr], [--no], [--use_t_in_e], [--ne]. *)
Record Args : Type := mk_Args { nr : nat; no : nat; use_t_in_e : Z; ne : Z }.

Definition number_dimensions_list : list nat := [2; 7; 12].

Section Runner.
Context {F G : Type} `{Scalar F} `{Special F} `{Sqrt F} `{RandomState F G}
        `{IndependenceTest F G}.

Definition main (args : Args) : SE (world G F) unit :=
  let number_repetitions := nr args in
  let number_observations := no args in
  let number_environments := ne args in
  let L := length number_dimensions_list in
  ' (pvalue_empty, pvalue_x3, pvalue_x2x3) <-
    for_each (seq 0 number_repetitions)
      (fun r acc =>
         print (OutInt (Z.of_nat (r + 1))) ;;;
         acc <- for_each (enumerate number_dimensions_list)
           (fun id acc =>
              let i := fst id in
              let number_dimensions := snd id in
              let '(pvalue_empty, pvalue_x3, pvalue_x2x3) := acc in
              print (OutInt (Z.of_nat (2 * number_dimensions + 1))) ;;;
              data <- liftR (get_train_test_data number_observations number_dimensions
                               (use_t_in_e args) number_environments) ;;
              x2_n <- liftR (StandardScaler_fit_transform
                               (values (select (x_train data) ["x2"%string]))) ;;
              x3_n <- liftR (StandardScaler_fit_transform
                               (values (select (x_train data) ["x3"%string]))) ;;
              y_n <- liftR (StandardScaler_fit_transform (reshape_column (y_train data))) ;;
              let t := reshape_column (t_train data) in
              let e := reshape_column (e_train data) in
              v <- liftR (RCoT e y_n (astype_float t)) ;;
              pvalue_empty <- lift_result (setitem pvalue_empty r i v) ;;
              c <- lift_result (concatenate1 [x3_n; astype_float t]) ;;
              v <- liftR (RCoT e y_n c) ;;
              pvalue_x3 <- lift_result (setitem pvalue_x3 r i v) ;;
              c <- lift_result (concatenate1 [x2_n; x3_n; astype_float t]) ;;
              v <- liftR (RCoT e y_n c) ;;
              pvalue_x2x3 <- lift_result (setitem pvalue_x2x3 r i v) ;;
              ret (pvalue_empty, pvalue_x3, pvalue_x2x3))
           acc ;;
         print OutElapsed ;;;
         ret acc)
      (np_zeros number_repetitions L, np_zeros number_repetitions L,
       np_zeros number_repetitions L) ;;
  np_savetxt "syn-entner/pvalue_empty.csv" pvalue_empty "," ;;;
  np_savetxt "syn-entner/pvalue_x3.csv" pvalue_x3 "," ;;;
  np_savetxt "syn-entner/pvalue_x2x3.csv" pvalue_x2x3 "," ;;;
  avg_pvalue_empty <- lift_result (reshape_row (np_mean_axis0 pvalue_empty) L) ;;
  avg_pvalue_x3 <- lift_result (reshape_row (np_mean_axis0 pvalue_x3) L) ;;
  avg_pvalue_x2x3 <- lift_result (reshape_row (np_mean_axis0 pvalue_x2x3) L) ;;
  s <- lift_result (reshape_row (np_std_axis0 0 pvalue_empty) L) ;;
  let std_pvalue_empty := div_scalar s (fsqrt (of_int (Z.of_nat number_repetitions))) in
  s <- lift_result (reshape_row (np_std_axis0 0 pvalue_x3) L) ;;
  let std_pvalue_x3 := div_scalar s (fsqrt (of_int (Z.of_nat number_repetitions))) in
  s <- lift_result (reshape_row (np_std_axis0 0 pvalue_x2x3) L) ;;
  let std_pvalue_x2x3 := div_scalar s (fsqrt (of_int (Z.of_nat number_repetitions))) in
  print (OutArray avg_pvalue_empty) ;;;
  print (OutArray avg_pvalue_x3) ;;;
  print (OutArray avg_pvalue_x2x3) ;;;
  print (OutArray std_pvalue_empty) ;;;
  print (OutArray std_pvalue_x3) ;;;
  print (OutArray std_pvalue_x2x3) ;;;
  ret tt.

(** One cell of the trial grid as the specification describes it: build
a fresh dataset, hand the column subsets to the independence test and
return its three p-values.  [main] is compared with it. *)
Definition cell (args : Args) (number_dimensions : nat) : SE G (F * F * F) :=
  data <- get_train_test_data (no args) number_dimensions (use_t_in_e args) (ne args) ;;
  x2_n <- StandardScaler_fit_transform (values (select (x_train data) ["x2"%string])) ;;
  x3_n <- StandardScaler_fit_transform (values (select (x_train data) ["x3"%string])) ;;
  y_n <- StandardScaler_fit_transform (reshape_column (y_train data)) ;;
  let t := reshape_column (t_train data) in
  let e := reshape_column (e_train data) in
  v1 <- RCoT e y_n (astype_float t) ;;
  c <- lift_result (concatenate1 [x3_n; astype_float t]) ;;
  v2 <- RCoT e y_n c ;;
  c <- lift_result (concatenate1 [x2_n; x3_n; astype_float t]) ;;
  v3 <- RCoT e y_n c ;;
  ret (v1, v2, v3).
End Runner.

End SynEntner.

(* ================================================================== *)
(** ** [synthetic_high_dimension.py] *)

Module SyntheticHighDimension.

Section Generator.
Context {F G : Type} `{Scalar F} `{Special F} `{RandomState F G}.

Definition get_u (number_observations number_dimensions : nat)
  : SE G (ndarray F * ndarray F * ndarray F * ndarray F) :=
  u1 <- np_random_uniform (of_int 1%Z) (of_int 2%Z) number_observations 1 ;;
  u2 <- np_random_uniform (of_int 1%Z) (of_int 2%Z) number_observations number_dimensions ;;
  u3 <- np_random_uniform (of_int 1%Z) (of_int 2%Z) number_observations number_dimensions ;;
  u4 <- np_random_uniform (of_int 1%Z) (of_int 2%Z) number_observations number_dimensions ;;
  ret (u1, u2, u3, u4).

Definition get_theta (number_dimensions : nat) (use_t_in_e number_environments : Z)
  : SE G (ndarray F * ndarray F * ndarray F * ndarray F * ndarray F * ndarray F) :=
  theta1 <- np_random_uniform (of_int 1%Z) (of_int 2%Z) (number_dimensions + 1) 1 ;;
  theta2 <- np_random_uniform (of_int 1%Z) (of_int 2%Z) (number_dimensions * 2 + 1) number_dimensions ;;
  theta3 <- np_random_uniform (of_int 1%Z) (of_int 2%Z) (number_dimensions * 2) number_dimensions ;;
  theta4 <- np_random_uniform (of_int 1%Z) (of_int 2%Z) (number_dimensions * 2 + 1) 1 ;;
  theta5 <- np_random_uniform (of_int 1%Z) (of_int 2%Z) 2 1 ;;
  theta6 <-
    (if (use_t_in_e =? 0)%Z
     then
       a <- np_random_uniform (of_int 1%Z) (of_int 2%Z) 1 1 ;;
       b <- np_random_uniform (of_int (-1)%Z) (of_int (-2)%Z) 1 1 ;;
       lift_result (concatenate1 [a; np_zeros 1 1; b])
     else
       a <- np_random_uniform (of_int 1%Z) (of_int 2%Z) 2 1 ;;
       b <- np_random_uniform (of_int (-1)%Z) (of_int (-2)%Z) 2 1 ;;
       lift_result (concatenate1 [a; np_zeros 2 1; b])) ;;
  ret (theta1, theta2, theta3, theta4, theta5, theta6).

Definition get_data (u1 u2 u3 u4 theta1 theta2 theta3 theta4 theta5 theta6 : ndarray F)
    (number_observations number_dimensions : nat) (use_t_in_e number_environments : Z)
  : SE G (ndarray F * ndarray F * ndarray F * ndarray Z * ndarray Z *
          ndarray F * ndarray F * ndarray F) :=
  (* x1 *)
  c <- lift_result (concatenate1 [u1; u2]) ;;
  p <- lift_result (np_dot c theta1) ;;
  z <- np_random_normal (of_int 0%Z) (of_int 1%Z) number_observations 1 ;;
  x1 <- lift_result (np_add p (scale (lit 1 10) z)) ;;
  (* x2 *)
  c <- lift_result (concatenate1 [x1; u2; u3]) ;;
  p <- lift_result (np_dot c theta2) ;;
  z <- np_random_normal (of_int 0%Z) (of_int 1%Z) number_observations number_dimensions ;;
  x2 <- lift_result (np_add p (scale (lit 1 10) z)) ;;
  (* x3 *)
  c <- lift_result (concatenate1 [u3; u4]) ;;
  p <- lift_result (np_dot c theta3) ;;
  z <- np_random_normal (of_int 0%Z) (of_int 1%Z) number_observations number_dimensions ;;
  x3 <- lift_result (np_add p (scale (lit 1 10) z)) ;;
  (* t *)
  c <- lift_result (concatenate1 [u1; x1]) ;;
  s <- lift_result (np_dot c theta5) ;;
  c' <- lift_result (concatenate1 [u1; x1]) ;;
  s' <- lift_result (np_dot c' theta5) ;;
  t <- np_random_binomial 1%Z (map_array expit (sub_scalar s (np_mean s'))) ;;
  (* the rows of probabilities *)
  probabilites <-
    (if (use_t_in_e =? 0)%Z
     then
       s <- lift_result (np_dot x1 theta6) ;;
       s' <- lift_result (np_dot x1 theta6) ;;
       l <- lift_result (np_sub s (as_row (np_mean_axis0 s'))) ;;
       ret (softmax_axis1 l)
     else
       c <- lift_result (concatenate1 [x1; astype_float t]) ;;
       s <- lift_result (np_dot c theta6) ;;
       c' <- lift_result (concatenate1 [x1; astype_float t]) ;;
       s' <- lift_result (np_dot c' theta6) ;;
       l <- lift_result (np_sub s (as_row (np_mean_axis0 s'))) ;;
       ret (softmax_axis1 l)) ;;
  (* e *)
  e <- for_each (enumerate (map (row probabilites) (seq 0 (nrows probabilites))))
         (fun ip e =>
            v <- np_random_choice (np_arange number_environments) (snd ip) ;;
            lift_result (setrow e (fst ip) v))
         (tabulate number_observations 1 (fun _ _ => 0%Z)) ;;
  (* y, y_0, y_1 *)
  let zeros := np_zeros number_observations 1 in
  let ones := np_ones number_observations 1 in
  z <- np_random_normal (of_int 0%Z) (of_int 1%Z) number_observations 1 ;;
  let noise := scale (lit 1 10) z in
  c <- lift_result (concatenate1 [x2; u4; astype_float t]) ;;
  p <- lift_result (np_dot c theta4) ;;
  y <- lift_result (np_add p noise) ;;
  c <- lift_result (concatenate1 [x2; u4; zeros]) ;;
  p <- lift_result (np_dot c theta4) ;;
  y_0 <- lift_result (np_add p noise) ;;
  c <- lift_result (concatenate1 [x2; u4; ones]) ;;
  p <- lift_result (np_dot c theta4) ;;
  y_1 <- lift_result (np_add p noise) ;;
  ret (x1, x2, x3, t, e, y, y_0, y_1).

(** The column labels of the feature table: group [x1] (one column),
    [x2] and [x3] ([number_dimensions] columns each), over the column
    numbers as strings. *)
Definition label_features (features : ndarray F) (number_dimensions : nat)
  : result (DataFrame F) :=
  match set_columns (mk_DataFrame [] features)
          (map (fun i => [str i]) (seq 0 (2 * number_dimensions + 1))) with
  | inr x =>
      set_columns x
        (from_arrays (repeat "x1"%string 1 ++ repeat "x2"%string number_dimensions
                      ++ repeat "x3"%string number_dimensions)
                     (map (hd EmptyString) (columns x)))
  | inl e => inl e
  end.

Definition get_train_test_data (number_observations number_dimensions : nat)
    (use_t_in_e number_environments : Z) : SE G (dataset F) :=
  ' (u1, u2, u3, u4) <- get_u number_observations number_dimensions ;;
  ' (theta1, theta2, theta3, theta4, theta5, theta6) <-
      get_theta number_dimensions use_t_in_e number_environments ;;
  ' (x1, x2, x3, t, e, y, y_0, y_1) <-
      get_data u1 u2 u3 u4 theta1 theta2 theta3 theta4 theta5 theta6
               number_observations number_dimensions use_t_in_e number_environments ;;
  d <- lift_result (np_sub y_1 y_0) ;;
  let true_ate := np_round (np_mean d) 6 in
  features <- lift_result (concatenate1 [x1; x2; x3]) ;;
  ' (features_train, features_test, t_train, t_test, y_train, y_test, e_train, e_test,
     y_0_train, y_0_test, y_1_train, y_1_test) <-
      train_test_split features t y e y_0 y_1 (lit 2 10) ;;
  x_train <- lift_result (label_features features_train number_dimensions) ;;
  t_train <- lift_result (Series_of_column0 t_train) ;;
  y_train <- lift_result (Series_of_column0 y_train) ;;
  e_train <- lift_result (Series_of_column0 e_train) ;;
  y_0_train <- lift_result (Series_of_column0 y_0_train) ;;
  y_1_train <- lift_result (Series_of_column0 y_1_train) ;;
  x_test <- lift_result (label_features features_test number_dimensions) ;;
  t_test <- lift_result (Series_of_column0 t_test) ;;
  y_test <- lift_result (Series_of_column0 y_test) ;;
  e_test <- lift_result (Series_of_column0 e_test) ;;
  y_0_test <- lift_result (Series_of_column0 y_0_test) ;;
  y_1_test <- lift_result (Series_of_column0 y_1_test) ;;
  ret (mk_dataset x_train t_train y_train e_train y_0_train y_1_train
                  x_test t_test y_test e_test y_0_test y_1_test true_ate).
End Generator.

(** The command line: [--nr], [--no], [--use_t_in_e], [--ne],
    [--number_IRM_iterations]. *)
Record Args : Type := mk_Args {
  nr : nat; no : nat; use_t_in_e : Z; ne : Z; number_IRM_iterations : Z
}.

Definition number_dimensions_list : list nat := [12; 22; 32].

Section Runner.
Context {F G : Type} `{Scalar F} `{Special F} `{Sqrt F} `{RandomState F G}
        `{Causallib F G} `{IRM F G Args}.

Definition get_effect (x_train : DataFrame F) (t_train : Series Z) (y_train : Series F)
    (x_test : DataFrame F) (t_test : Series Z) : SE G F :=
  std <- Standardization_fit [lit 1 1000; lit 1 100; lit 1 10; of_int 1%Z]
           x_train t_train y_train ;;
  pop_outcome <- estimate_population_outcome std x_test t_test ;;
  estimate_effect std (snd pop_outcome) (fst pop_outcome).

(** [np.mean(np.abs(a - b), axis=0).reshape(1, L)]. *)
Definition avg_ate_error (a b : ndarray F) (L : nat) : result (ndarray F) :=
  match np_sub a b with
  | inr d => reshape_row (np_mean_axis0 (np_abs d)) L
  | inl e => inl e
  end.

(** [np.std(np.abs(a - b), axis=0).reshape(1, L) / np.sqrt(number_repetitions)]. *)
Definition std_ate_error (a b : ndarray F) (L number_repetitions : nat) : result (ndarray F) :=
  match np_sub a b with
  | inr d =>
      match reshape_row (np_std_axis0 0 (np_abs d)) L with
      | inr s => inr (div_scalar s (fsqrt (of_int (Z.of_nat number_repetitions))))
      | inl e => inl e
      end
  | inl e => inl e
  end.

Definition error_index : list string :=
  ["$\{x_1,x_2,x_3\}$"%string; "$\{x_2\}$"%string; "IRM-c"%string; "IRM-t"%string].

Definition main (args : Args) : SE (world G F) unit :=
  let number_repetitions := nr args in
  let number_observations := no args in
  let number_environments := ne args in
  let L := length number_dimensions_list in
  ' (effect_true, effect_oracle, effect_baseline, effect_irm_control, effect_irm_treatment) <-
    for_each (seq 0 number_repetitions)
      (fun r acc =>
         print (OutInt (Z.of_nat (r + 1))) ;;;
         acc <- for_each (enumerate number_dimensions_list)
           (fun id acc =>
              let i := fst id in
              let number_dimensions := snd id in
              let '(effect_true, effect_oracle, effect_baseline,
                    effect_irm_control, effect_irm_treatment) := acc in
              print (OutInt (Z.of_nat (2 * number_dimensions + 1))) ;;;
              data <- liftR (get_train_test_data number_observations number_dimensions
                               (use_t_in_e args) number_environments) ;;
              let x_train := x_train data in
              let x_test := x_test data in
              effect_true <- lift_result (setitem effect_true r i (true_ate data)) ;;
              v <- liftR (get_effect (select x_train ["x2"%string]) (t_train data)
                            (y_train data) (select x_test ["x2"%string]) (t_test data)) ;;
              effect_oracle <- lift_result (setitem effect_oracle r i v) ;;
              v <- liftR (get_effect (select x_train ["x1"%string; "x2"%string; "x3"%string])
                            (t_train data) (y_train data)
                            (select x_test ["x1"%string; "x2"%string; "x3"%string])
                            (t_test data)) ;;
              effect_baseline <- lift_result (setitem effect_baseline r i v) ;;
              ' (irm_features_control, _) <-
                  liftR (get_irm_features (select x_train ["x2"%string; "x3"%string])
                           (t_train data) (y_train data) (e_train data)
                           number_environments 0%Z
                           (map (hd EmptyString) (tl (droplevel (columns x_train)))) args) ;;
              ' (irm_features_treatment, _) <-
                  liftR (get_irm_features (select x_train ["x2"%string; "x3"%string])
                           (t_train data) (y_train data) (e_train data)
                           number_environments 1%Z
                           (map (hd EmptyString) (tl (droplevel (columns x_train)))) args) ;;
              let x_train := mk_DataFrame (droplevel (columns x_train)) (values x_train) in
              let x_test := mk_DataFrame (droplevel (columns x_test)) (values x_test) in
              v <- liftR (get_effect (select x_train irm_features_control) (t_train data)
                            (y_train data) (select x_test irm_features_control)
                            (t_test data)) ;;
              effect_irm_control <- lift_result (setitem effect_irm_control r i v) ;;
              v <- liftR (get_effect (select x_train irm_features_treatment) (t_train data)
                            (y_train data) (select x_test irm_features_treatment)
                            (t_test data)) ;;
              effect_irm_treatment <- lift_result (setitem effect_irm_treatment r i v) ;;
              ret (effect_true, effect_oracle, effect_baseline,
                   effect_irm_control, effect_irm_treatment))
           acc ;;
         print OutElapsed ;;;
         ret acc)
      (np_zeros number_repetitions L, np_zeros number_repetitions L,
       np_zeros number_repetitions L, np_zeros number_repetitions L,
       np_zeros number_repetitions L) ;;
  np_savetxt "synthetic_high_dimension/effect_true.csv" effect_true "," ;;;
  np_savetxt "synthetic_high_dimension/effect_baseline.csv" effect_baseline "," ;;;
  np_savetxt "synthetic_high_dimension/effect_irm_control.csv" effect_irm_control "," ;;;
  np_savetxt "synthetic_high_dimension/effect_irm_treatment.csv" effect_irm_treatment "," ;;;
  avg_ate_error_baseline <- lift_result (avg_ate_error effect_baseline effect_true L) ;;
  avg_ate_error_irm_c <- lift_result (avg_ate_error effect_irm_control effect_true L) ;;
  avg_ate_error_irm_t <- lift_result (avg_ate_error effect_irm_treatment effect_true L) ;;
  avg_ate_error_oracle <- lift_result (avg_ate_error effect_oracle effect_true L) ;;
  std_ate_error_baseline <-
    lift_result (std_ate_error effect_baseline effect_true L number_repetitions) ;;
  std_ate_error_irm_c <-
    lift_result (std_ate_error effect_irm_control effect_true L number_repetitions) ;;
  std_ate_error_irm_t <-
    lift_result (std_ate_error effect_irm_treatment effect_true L number_repetitions) ;;
  std_ate_error_oracle <-
    lift_result (std_ate_error effect_oracle effect_true L number_repetitions) ;;
  avg_ate_errors <-
    lift_result (concatenate0 [avg_ate_error_baseline; avg_ate_error_oracle;
                               avg_ate_error_irm_c; avg_ate_error_irm_t]) ;;
  std_ate_errors <-
    lift_result (concatenate0 [std_ate_error_baseline; std_ate_error_oracle;
                               std_ate_error_irm_c; std_ate_error_irm_t]) ;;
  let header := map (fun dim => Z.of_nat (2 * dim + 1)) number_dimensions_list in
  print (OutFrame error_index header avg_ate_errors) ;;;
  print (OutFrame error_index header std_ate_errors) ;;;
  ret tt.

(** One cell of the trial grid as the specification describes it: build
a fresh dataset, hand the column subsets to the estimators and return
the true effect and the four estimates (oracle, baseline, and the two
invariant-feature estimates).  [main] is compared with it. *)
Definition cell (args : Args) (number_dimensions : nat) : SE G (F * F * F * F * F) :=
  data <- get_train_test_data (no args) number_dimensions (use_t_in_e args) (ne args) ;;
  let x_train := x_train data in
  let x_test := x_test data in
  v_oracle <- get_effect (select x_train ["x2"%string]) (t_train data)
                (y_train data) (select x_test ["x2"%string]) (t_test data) ;;
  v_baseline <- get_effect (select x_train ["x1"%string; "x2"%string; "x3"%string])
                  (t_train data) (y_train data)
                  (select x_test ["x1"%string; "x2"%string; "x3"%string]) (t_test data) ;;
  ' (irm_features_control, _) <-
      get_irm_features (select x_train ["x2"%string; "x3"%string])
        (t_train data) (y_train data) (e_train data) (ne args) 0%Z
        (map (hd EmptyString) (tl (droplevel (columns x_train)))) args ;;
  ' (irm_features_treatment, _) <-
      get_irm_features (select x_train ["x2"%string; "x3"%string])
        (t_train data) (y_train data) (e_train data) (ne args) 1%Z
        (map (hd EmptyString) (tl (droplevel (columns x_train)))) args ;;
  let x_train := mk_DataFrame (droplevel (columns x_train)) (values x_train) in
  let x_test := mk_DataFrame (droplevel (columns x_test)) (values x_test) in
  v_control <- get_effect (select x_train irm_features_control) (t_train data)
                 (y_train data) (select x_test irm_features_control) (t_test data) ;;
  v_treatment <- get_effect (select x_train irm_features_treatment) (t_train data)
                   (y_train data) (select x_test irm_features_treatment) (t_test data) ;;
  ret (true_ate data, v_oracle, v_baseline, v_control, v_treatment).
End Runner.

End SyntheticHighDimension.

(* ================================================================== *)
(** ** Exact arithmetic: the rationals *)

Module Exact.
(** [np.rint] on a rational: the nearest integer, a tie going to the
    even one. *)
Definition rint (x : Qc) : Qc :=
  let f := Qfloor x in
  let r := (x - Q2Qc (inject_Z f))%Qc in
  match (r ?= Q2Qc (1 # 2))%Qc with
  | Lt => Q2Qc (inject_Z f)
  | Gt => Q2Qc (inject_Z (f + 1))
  | Eq => if Z.even f then Q2Qc (inject_Z f) else Q2Qc (inject_Z (f + 1))
  end.

#[export] Instance Scalar_Qc : Scalar Qc := {
  fadd := Qcplus;
  fsub := Qcminus;
  fmul := Qcmult;
  fdiv := Qcdiv;
  fabs := Qcabs;
  fleb := fun x y => Qle_bool x y;
  frint := rint;
  fceil := fun x => Qceiling x;
  of_int := fun z => Q2Qc (inject_Z z)
}.
End Exact.

(* ================================================================== *)
(** ** The scripts' arithmetic: binary64 *)

Module Binary64.
(** The integer a finite float with an integral value denotes. *)
Definition to_Z (x : float) : Z :=
  match Prim2SF x with
  | S754_finite s m e => (if s then -1 else 1) * Z.shiftl (Z.pos m) e
  | _ => 0
  end%Z.

Definition two52 : float := 4503599627370496%float.

(** [np.rint]: below [2**52] in magnitude, adding and subtracting
    [2**52] rounds to the nearest integer, ties to even; from there on
    every float is an integer. *)
Definition rint (x : float) : float :=
  if PrimFloat.ltb (PrimFloat.abs x) two52
  then if PrimFloat.leb 0%float x
       then PrimFloat.sub (PrimFloat.add x two52) two52
       else PrimFloat.add (PrimFloat.sub x two52) two52
  else x.

(** [math.ceil]. *)
Definition ceil (x : float) : Z :=
  let r := rint x in
  to_Z (if PrimFloat.ltb r x then PrimFloat.add r 1%float else r).

(** An int as a float (exact below [2**53] in magnitude). *)
Definition of_Z (z : Z) : float :=
  if (0 <=? z)%Z then PrimFloat.of_uint63 (Uint63.of_Z z)
  else PrimFloat.opp (PrimFloat.of_uint63 (Uint63.of_Z (- z))).

#[export] Instance Scalar_float : Scalar float := {
  fadd := PrimFloat.add;
  fsub := PrimFloat.sub;
  fmul := PrimFloat.mul;
  fdiv := PrimFloat.div;
  fabs := PrimFloat.abs;
  fleb := PrimFloat.leb;
  frint := rint;
  fceil := ceil;
  of_int := of_Z
}.

#[export] Instance Sqrt_float : Sqrt float := PrimFloat.sqrt.
End Binary64.

(* ================================================================== *)
(** ** Stand-ins for running the model *)

(** An equal-odds stand-in for [scipy.special]: [expit] answers one half
    and [softmax] the uniform distribution.  The model hands their values
    to the random draws and uses them nowhere else. *)
Definition equal_odds {F : Type} `{Scalar F} : Special F := {|
  expit := fun _ => lit 1 2;
  softmax := fun l => map (fun _ => fdiv (of_int 1%Z) (of_int (Z.of_nat (length l)))) l
|}.

(** The same odds on finite numbers, and a NaN for a NaN or an infinity,
    which [scipy.special] hands on: [x - x] is zero for a finite [x] and a
    NaN otherwise. *)
Definition careful_odds {F : Type} `{Scalar F} : Special F := {|
  expit := fun x => fadd (lit 1 2) (fsub x x);
  softmax := fun l =>
    map (fun x => fadd (fdiv (of_int 1%Z) (of_int (Z.of_nat (length l)))) (fsub x x)) l
|}.

(** A recorded random stream: the raw draws still to be replayed.  A raw
    uniform draw [u] of [[0,1)] becomes [low + (high - low) * u] and a raw
    standard normal draw [z] becomes [loc + scale * z], as NumPy computes
    them; binomial outcomes, choice positions and permutations are
    replayed as recorded.  A recorded value the sampler could not have
    produced is replaced by one it could. *)
Record tape (F : Type) : Type := mk_tape {
  uniforms : list F;
  normals : list F;
  binomials : list Z;
  choices : list nat;
  permutations : list (list nat)
}.
Arguments mk_tape {F} uniforms normals binomials choices permutations.
Arguments uniforms {F} _.
Arguments normals {F} _.
Arguments binomials {F} _.
Arguments choices {F} _.
Arguments permutations {F} _.

Definition is_shuffle (n : nat) (l : list nat) : bool :=
  (length l =? n) && forallb (fun i => existsb (Nat.eqb i) l) (seq 0 n).

Section Tape.
Context {F : Type} `{Scalar F}.

Definition tape_uniform (low high : F) (g : tape F) : F * tape F :=
  match uniforms g with
  | [] => (low, g)
  | u :: rest =>
      let v := fadd low (fmul (fsub high low) u) in
      (if betweenb low high v then v else low,
       mk_tape rest (normals g) (binomials g) (choices g) (permutations g))
  end.

Definition tape_normal (loc scale : F) (g : tape F) : F * tape F :=
  match normals g with
  | [] => (loc, g)
  | z :: rest =>
      (fadd loc (fmul scale z),
       mk_tape (uniforms g) rest (binomials g) (choices g) (permutations g))
  end.

Definition tape_binomial (n : Z) (p : F) (g : tape F) : Z * tape F :=
  match binomials g with
  | [] => (0%Z, g)
  | b :: rest =>
      (Z.max 0 (Z.min n b),
       mk_tape (uniforms g) (normals g) rest (choices g) (permutations g))
  end.

Definition tape_choice (a : list Z) (p : list F) (g : tape F) : Z * tape F :=
  match choices g with
  | [] => (hd 0%Z a, g)
  | i :: rest =>
      (nth (i mod length a) a 0%Z,
       mk_tape (uniforms g) (normals g) (binomials g) rest (permutations g))
  end.

Definition tape_permutation (n : nat) (g : tape F) : list nat * tape F :=
  match permutations g with
  | [] => (seq 0 n, g)
  | l :: rest =>
      (if is_shuffle n l then l else seq 0 n,
       mk_tape (uniforms g) (normals g) (binomials g) (choices g) rest)
  end.

#[export] Instance RandomState_tape : RandomState F (tape F) := {
  draw_uniform := tape_uniform;
  draw_normal := tape_normal;
  draw_binomial := tape_binomial;
  draw_choice := tape_choice;
  draw_permutation := tape_permutation
}.
End Tape.

(** What the random stream must satisfy for the properties of the drawn
    values. *)
Section Laws.
Context (F G : Type) `{Scalar F} `{RandomState F G}.

(** A uniform draw lies between its two bounds, for the bounds the
    scripts pass: [(1.0, 2.0)] and [(-1.0, -2.0)]. *)
Definition uniform_law : Prop :=
  forall g : G,
    between (of_int 1%Z) (of_int 2%Z)
      (fst (draw_uniform (of_int 1%Z) (of_int 2%Z) g)) /\
    between (of_int (-1)%Z) (of_int (-2)%Z)
      (fst (draw_uniform (of_int (-1)%Z) (of_int (-2)%Z) g)).

(** A binomial draw counts successes among [n] trials. *)
Definition binomial_law : Prop :=
  forall (n : Z) (p : F) (g : G),
    (0 <= n)%Z -> (0 <= fst (draw_binomial n p g) <= n)%Z.

(** A choice is one of the candidates. *)
Definition choice_law : Prop :=
  forall (a : list Z) (p : list F) (g : G), a <> [] -> In (fst (draw_choice a p g)) a.

(** A permutation of [range(n)] is one. *)
Definition permutation_law : Prop :=
  forall (n : nat) (g : G), Permutation (fst (draw_permutation n g)) (seq 0 n).
End Laws.

(** What [scipy.special] must satisfy, on finite numbers only: the
    functions hand a NaN on, and [softmax] turns an infinity into one.
    [expit] of a finite number is a probability; [softmax] of a row of
    three numbers, the width of the scripts' rows, has three entries, and
    when the three are finite [np.random.choice] accepts them. *)
Definition expit_law (F : Type) `{Scalar F} `{Special F} : Prop :=
  forall x : F, is_finite x = true -> is_probability (expit x) = true.

Definition softmax_law (F : Type) `{Scalar F} `{Special F} : Prop :=
  forall l : list F, length l = 3 ->
    length (softmax l) = 3 /\
    (Forall (fun x => is_finite x = true) l -> choice_accepts (softmax l) = true).

(** An arithmetic in which every number is finite: the exact one.
    Binary64 is not, it has NaNs and two infinities. *)
Definition exact_arithmetic (F : Type) `{Scalar F} : Prop :=
  forall x : F, is_finite x = true.

(* ================================================================== *)
(** ** Either script *)

Inductive script : Type := syn_entner | synthetic_high_dimension.

Section EitherScript.
Context {F G : Type} {SF : Scalar F} {SP : Special F} {RS : RandomState F G}.

Definition get_u_of (s : script) (number_observations number_dimensions : nat)
: SE G (ndarray F * ndarray F * ndarray F * ndarray F) :=
match s with
| syn_entner => SynEntner.get_u number_observations number_dimensions
| synthetic_high_dimension =>
    SyntheticHighDimension.get_u number_observations number_dimensions
end.

Definition get_theta_of (s : script) (number_dimensions : nat)
  (use_t_in_e number_environments : Z)
: SE G (ndarray F * ndarray F * ndarray F * ndarray F * ndarray F * ndarray F) :=
match s with
| syn_entner => SynEntner.get_theta number_dimensions use_t_in_e number_environments
| synthetic_high_dimension =>
    SyntheticHighDimension.get_theta number_dimensions use_t_in_e number_environments
end.

Definition get_data_of (s : script)
  (u1 u2 u3 u4 theta1 theta2 theta3 theta4 theta5 theta6 : ndarray F)
  (number_observations number_dimensions : nat) (use_t_in_e number_environments : Z)
: SE G (ndarray F * ndarray F * ndarray F * ndarray Z * ndarray Z *
        ndarray F * ndarray F * ndarray F) :=
match s with
| syn_entner =>
    SynEntner.get_data u1 u2 u3 u4 theta1 theta2 theta3 theta4 theta5 theta6
      number_observations number_dimensions use_t_in_e number_environments
| synthetic_high_dimension =>
    SyntheticHighDimension.get_data u1 u2 u3 u4 theta1 theta2 theta3 theta4 theta5 theta6
      number_observations number_dimensions use_t_in_e number_environments
end.

Definition get_train_test_data_of (s : script) (number_observations number_dimensions : nat)
  (use_t_in_e number_environments : Z) : SE G (dataset F) :=
match s with
| syn_entner =>
    SynEntner.get_train_test_data number_observations number_dimensions
      use_t_in_e number_environments
| synthetic_high_dimension =>
    SyntheticHighDimension.get_train_test_data number_observations number_dimensions
      use_t_in_e number_environments
end.
End EitherScript.

(* ================================================================== *)
(** ** What the runners leave behind *)

Section Reports.
Context {F G : Type} {SF : Scalar F} {SP : Special F} {SQ : Sqrt F} {RS : RandomState F G}.

(** The loop invariant of [syn-entner.py]: the three matrices hold the
    values of the cells run so far. *)
Definition entner_inv (R : nat) (vals : list (F * F * F))
    (acc : ndarray F * ndarray F * ndarray F) : Prop :=
  filled R 3 (fun v => fst (fst v)) vals (fst (fst acc)) /\
  filled R 3 (fun v => snd (fst v)) vals (snd (fst acc)) /\
  filled R 3 (fun v => snd v) vals (snd acc).

(** The loop invariant of [synthetic_high_dimension.py], on its five
    matrices. *)
Definition high_dimension_inv (R : nat) (vals : list (F * F * F * F * F))
    (acc : ndarray F * ndarray F * ndarray F * ndarray F * ndarray F) : Prop :=
  filled R 3 (fun v => fst (fst (fst (fst v)))) vals (fst (fst (fst (fst acc)))) /\
  filled R 3 (fun v => snd (fst (fst (fst v)))) vals (snd (fst (fst (fst acc)))) /\
  filled R 3 (fun v => snd (fst (fst v))) vals (snd (fst (fst acc))) /\
  filled R 3 (fun v => snd (fst v)) vals (snd (fst acc)) /\
  filled R 3 (fun v => snd v) vals (snd acc).

(** The three matrices of [syn-entner.py] hold the p-values of the cells in
    visiting order; each is saved under its name, and the last three
    arrays printed are their standard errors. *)
Definition entner_report {IT : IndependenceTest F G} (args : SynEntner.Args)
    (w w' : world G F) : Prop :=
  exists (vals : list (F * F * F)) (pvalue_empty pvalue_x3 pvalue_x2x3 : ndarray F)
         (avg1 avg2 avg3 std1 std2 std3 : ndarray F) (pre : list (output F)),
    run_cells (SynEntner.cell args) (SynEntner.nr args) SynEntner.number_dimensions_list
      (rng w) = (inr vals, rng w') /\
    filled (SynEntner.nr args) 3 (fun v => fst (fst v)) vals pvalue_empty /\
    filled (SynEntner.nr args) 3 (fun v => snd (fst v)) vals pvalue_x3 /\
    filled (SynEntner.nr args) 3 (fun v => snd v) vals pvalue_x2x3 /\
    files w' = files w ++
      [mk_saved_file "syn-entner/pvalue_empty.csv" "," EmptyString pvalue_empty;
       mk_saved_file "syn-entner/pvalue_x3.csv" "," EmptyString pvalue_x3;
       mk_saved_file "syn-entner/pvalue_x2x3.csv" "," EmptyString pvalue_x2x3] /\
    stdout w' = pre ++ [OutArray avg1; OutArray avg2; OutArray avg3;
                        OutArray std1; OutArray std2; OutArray std3] /\
    reports_standard_error (SynEntner.nr args) pvalue_empty std1 /\
    reports_standard_error (SynEntner.nr args) pvalue_x3 std2 /\
    reports_standard_error (SynEntner.nr args) pvalue_x2x3 std3.

(** The five matrices of [synthetic_high_dimension.py] hold the true
    effect and the four estimates of the cells in visiting order; four of
    them are saved, and the second table printed holds the standard errors
    of the four absolute errors, one row each. *)
Definition high_dimension_report {CL : Causallib F G}
    {IR : IRM F G SyntheticHighDimension.Args}
    (args : SyntheticHighDimension.Args) (w w' : world G F) : Prop :=
  exists (vals : list (F * F * F * F * F))
         (effect_true effect_oracle effect_baseline effect_irm_control
          effect_irm_treatment : ndarray F)
         (d_baseline d_oracle d_irm_c d_irm_t : ndarray F)
         (std_baseline std_oracle std_irm_c std_irm_t avg std : ndarray F)
         (pre : list (output F)),
    run_cells (SyntheticHighDimension.cell args) (SyntheticHighDimension.nr args)
      SyntheticHighDimension.number_dimensions_list (rng w) = (inr vals, rng w') /\
    (filled (SyntheticHighDimension.nr args) 3 (fun v => fst (fst (fst (fst v))))
       vals effect_true /\
     filled (SyntheticHighDimension.nr args) 3 (fun v => snd (fst (fst (fst v))))
       vals effect_oracle /\
     filled (SyntheticHighDimension.nr args) 3 (fun v => snd (fst (fst v)))
       vals effect_baseline /\
     filled (SyntheticHighDimension.nr args) 3 (fun v => snd (fst v))
       vals effect_irm_control /\
     filled (SyntheticHighDimension.nr args) 3 (fun v => snd v)
       vals effect_irm_treatment) /\
    files w' = files w ++
      [mk_saved_file "synthetic_high_dimension/effect_true.csv" "," EmptyString
         effect_true;
       mk_saved_file "synthetic_high_dimension/effect_baseline.csv" "," EmptyString
         effect_baseline;
       mk_saved_file "synthetic_high_dimension/effect_irm_control.csv" "," EmptyString
         effect_irm_control;
       mk_saved_file "synthetic_high_dimension/effect_irm_treatment.csv" "," EmptyString
         effect_irm_treatment] /\
    stdout w' = pre ++
      [OutFrame SyntheticHighDimension.error_index [25%Z; 45%Z; 65%Z] avg;
       OutFrame SyntheticHighDimension.error_index [25%Z; 45%Z; 65%Z] std] /\
    (np_sub effect_baseline effect_true = inr d_baseline /\
     np_sub effect_oracle effect_true = inr d_oracle /\
     np_sub effect_irm_control effect_true = inr d_irm_c /\
     np_sub effect_irm_treatment effect_true = inr d_irm_t) /\
    (reports_standard_error (SyntheticHighDimension.nr args) (np_abs d_baseline)
       std_baseline /\
     reports_standard_error (SyntheticHighDimension.nr args) (np_abs d_oracle)
       std_oracle /\
     reports_standard_error (SyntheticHighDimension.nr args) (np_abs d_irm_c)
       std_irm_c /\
     reports_standard_error (SyntheticHighDimension.nr args) (np_abs d_irm_t)
       std_irm_t) /\
    concatenate0 [std_baseline; std_oracle; std_irm_c; std_irm_t] = inr std.
End Reports.

(* ================================================================== *)
(** ** Recorded runs *)

(** Stand-ins for the packages the runners call, for running the model:
    the scaler returns its input, the test answers from the width of the
    conditioning set, the estimator from the width of the table, and the
    selector keeps the first candidate. *)
Definition stub_independence_test {F G : Type} `{Scalar F} : IndependenceTest F G := {|
  StandardScaler_fit_transform := fun a => ret a;
  RCoT := fun e y z => ret (fdiv (of_int 1%Z) (of_int (Z.of_nat (ncols z + 1))))
|}.

Definition stub_causallib {F G : Type} `{Scalar F} : Causallib F G := {|
  fitted := F;
  Standardization_fit := fun _ X t y => ret (mean_list y);
  estimate_population_outcome :=
    fun m X t => ret (m, fadd m (of_int (Z.of_nat (ncols (values X)))));
  estimate_effect := fun _ a b => ret (fsub a b)
|}.

Definition stub_irm {F G A : Type} : IRM F G A :=
  fun X t y e ne treatment names args => ret (firstn 1 names, tt).

Definition column_vector {F : Type} (l : list F) : ndarray F :=
  mk_ndarray 1 (map (fun x => [x]) l).

(** Runs in exact arithmetic. *)
Module ExactRun.
Import Exact.
#[local] Existing Instance equal_odds.

Definition q (a : Z) (b : positive) : Qc := Q2Qc (a # b).

Definition stream : tape Qc :=
  mk_tape (map (fun i => q (Z.of_nat (i mod 8)) 8) (seq 0 40))
          (map (fun i => q (Z.of_nat (i mod 5) - 2) 2) (seq 0 20))
          [1%Z; 0%Z; 1%Z; 1%Z; 0%Z] [0; 1; 2; 1; 0] [[3; 0; 4; 1; 2]].

Definition theta4 : ndarray Qc := column_vector [q 5 4; q 3 2; q 7 4].

Definition theta6 : ndarray Qc :=
  mk_ndarray 3 [[q 1 1; q 0 1; q (-1) 1]; [q 3 2; q 0 1; q (-2) 1]].

End ExactRun.

(** Runs in binary64. *)
Module FloatRun.
Import Binary64.
#[local] Existing Instance equal_odds.
#[local] Existing Instance stub_independence_test.
#[local] Existing Instance stub_causallib.
#[local] Existing Instance stub_irm.

Definition silent_stream : tape float := mk_tape [] [] [] [] [].

Definition noisy_stream : tape float :=
  mk_tape [] [0; 0; 0; 0; 0; 0; 2; 2]%float [1%Z; 0%Z] [0; 2] [].

Definition rounding_stream : tape float :=
  mk_tape (repeat 0%float 17 ++ [0x1.92a73711p-20%float]) [] [] [] [].

Definition theta4 : ndarray float := column_vector [0x1.8p+0; 0x1.8p+0; 1]%float.

Definition theta6 : ndarray float := mk_ndarray 3 [[1; 0; -1]; [1; 0; -1]]%float.

Definition get_data_run (n : nat) (number_environments : Z) (g : tape float) :=
  SynEntner.get_data (np_ones n 1) (np_ones n 1) (np_ones n 1) (np_ones n 1)
    (np_ones 2 1) (np_ones 3 1) (np_ones 2 1) theta4 (np_ones 2 1) theta6
    n 1 1%Z number_environments g.

Definition get_theta_run := SynEntner.get_theta (F := float) 1 1%Z 3%Z silent_stream.

(** The simulator on the coefficients [theta1 = [1e308, 1e308]], with a
    stand-in for [scipy.special] that hands a NaN on. *)
Definition huge : float := 0x1.1ccf385ebc8ap+1023%float.

Definition overflow_run (number_environments : Z) :=
  get_data_of syn_entner (SP := careful_odds)
    (np_ones 10 1) (np_ones 10 1) (np_ones 10 1) (np_ones 10 1)
    (column_vector [huge; huge]) (np_ones 3 1) (np_ones 2 1) theta4 (np_ones 2 1) theta6
    10 1 1%Z number_environments silent_stream.

Definition start : world (tape float) float := mk_world silent_stream [] [].

Definition entner_args : SynEntner.Args := SynEntner.mk_Args 2 3 1%Z 3%Z.
Definition entner_run := SynEntner.main entner_args start.

Definition high_dimension_args : SyntheticHighDimension.Args :=
  SyntheticHighDimension.mk_Args 2 3 1%Z 3%Z 15000%Z.
Definition high_dimension_run := SyntheticHighDimension.main high_dimension_args start.



(** Two repetitions in which the first cell alone draws [1.5] for its
    latents and coefficients (743 uniform draws: three observations in
    twelve dimensions) and every later cell draws [1]. *)
Definition uneven_stream : tape float := mk_tape (repeat 0x1p-1%float 743) [] [] [] [].

Definition uneven_run :=
  SyntheticHighDimension.main high_dimension_args (mk_world uneven_stream [] []).
End FloatRun.

(** The simulator of [syn-entner.py] in exact arithmetic, on unit latents
    and the recorded stream. *)
Abbreviation exact_get_data n k :=
  (get_data_of syn_entner (SP := equal_odds)
     (np_ones n 1) (np_ones n 1) (np_ones n 1) (np_ones n 1)
     (np_ones 2 1) (np_ones 3 1) (np_ones 2 1) ExactRun.theta4 (np_ones 2 1)
     ExactRun.theta6 n 1 1%Z k ExactRun.stream) (only parsing).

(** The simulator of [syn-entner.py] in binary64, on unit latents. *)
Abbreviation float_get_data n k g :=
  (get_data_of syn_entner (SF := Binary64.Scalar_float) (SP := equal_odds)
     (np_ones n 1) (np_ones n 1) (np_ones n 1) (np_ones n 1)
     (np_ones 2 1) (np_ones 3 1) (np_ones 2 1) FloatRun.theta4 (np_ones 2 1)
     FloatRun.theta6 n 1 1%Z k g) (only parsing).

(** Two runs in binary64 with two environments instead of three. *)
Module OffDefaultRun.
Import Binary64.
#[local] Existing Instance equal_odds.
#[local] Existing Instance stub_independence_test.
#[local] Existing Instance stub_causallib.
#[local] Existing Instance stub_irm.

Definition entner_args : SynEntner.Args := SynEntner.mk_Args 2 3 1%Z 2%Z.
Definition entner_run := SynEntner.main entner_args FloatRun.start.

Definition high_dimension_args : SyntheticHighDimension.Args :=
  SyntheticHighDimension.mk_Args 2 3 1%Z 2%Z 15000%Z.
Definition high_dimension_run := SyntheticHighDimension.main high_dimension_args FloatRun.start.
End OffDefaultRun.

(* ================================================================== *)
(** ** Notions for the further properties *)

(** The means a runner reports for the matrix [m]: one row, the mean of
    each column. *)
Definition reports_mean {F : Type} `{Scalar F} (m reported : ndarray F) : Prop :=
  shape reported = (1, ncols m) /\
  forall j, j < ncols m -> entry reported 0 j = mean_list (column m j).

(** The progress lines of a runner: for every repetition its number from
    1, the width [2d + 1] of the feature table of every dimension of the
    grid, and the elapsed time. *)
Definition progress {F : Type} (number_repetitions : nat) (dims : list nat)
  : list (output F) :=
  flat_map (fun r => OutInt (Z.of_nat (r + 1))
                     :: map (fun d => OutInt (Z.of_nat (2 * d + 1))) dims
                     ++ [OutElapsed])
           (seq 0 number_repetitions).

(** A computation in the world that writes no file, and one that prints
    [l] when it returns. *)
Definition keeps_files {G F X : Type} (m : SE (world G F) X) : Prop :=
  forall w, files (snd (m w)) = files w.

Definition emits {G F X : Type} (m : SE (world G F) X) (l : list (output F)) : Prop :=
  forall w x w', m w = (inr x, w') -> stdout w' = stdout w ++ l.

(** [sel] holds the columns of [x] at the positions [js], in this order,
    each under its own number as name. *)
Definition picks_columns {F : Type} `{Default F} (x sel : DataFrame F) (js : list nat)
  : Prop :=
  columns sel = map (fun j => [str j]) js /\
  shape (values sel) = (nrows (values x), length js) /\
  forall i k, i < nrows (values x) -> k < length js ->
    entry (values sel) i k = entry (values x) i (nth k js 0).

(** The outcome [b] of a computation in the world follows the outcome [c]
    of a computation on the random stream: when [c] is a value, [b] is a
    value related to it by [Q]; when [c] is an error, [b] is this error;
    and both leave the stream in the same state. *)
Definition follows {G F V Acc : Type} (Q : V -> Acc -> Prop)
    (c : result V * G) (b : result Acc * world G F) : Prop :=
  match fst c with
  | inr v => exists acc, fst b = inr acc /\ Q v acc
  | inl e => fst b = inl e
  end /\ rng (snd b) = snd c.

Section Printed.
Context {F G : Type} {SF : Scalar F} {SP : Special F} {SQ : Sqrt F} {RS : RandomState F G}.

(** What [syn-entner.py] has printed when it returns: the progress lines,
    the column means of the three saved matrices, and three more arrays
    (their standard errors). *)
Definition entner_printed (args : SynEntner.Args) (w w' : world G F) : Prop :=
  exists (pvalue_empty pvalue_x3 pvalue_x2x3 avg1 avg2 avg3 std1 std2 std3 : ndarray F),
    files w' = files w ++
      [mk_saved_file "syn-entner/pvalue_empty.csv" "," EmptyString pvalue_empty;
       mk_saved_file "syn-entner/pvalue_x3.csv" "," EmptyString pvalue_x3;
       mk_saved_file "syn-entner/pvalue_x2x3.csv" "," EmptyString pvalue_x2x3] /\
    stdout w' = stdout w
      ++ progress (SynEntner.nr args) SynEntner.number_dimensions_list
      ++ [OutArray avg1; OutArray avg2; OutArray avg3;
          OutArray std1; OutArray std2; OutArray std3] /\
    reports_mean pvalue_empty avg1 /\
    reports_mean pvalue_x3 avg2 /\
    reports_mean pvalue_x2x3 avg3.

(** What [synthetic_high_dimension.py] has printed when it returns: the
    progress lines and two tables with the rows [$\{x_1,x_2,x_3\}$],
    [$\{x_2\}$], [IRM-c], [IRM-t] and the columns 25, 45, 65.  The rows of
    the first table are the column means of the absolute errors of the
    baseline (all of [x1], [x2], [x3]), of the oracle ([x2] alone) and of
    the two invariant-feature estimates, in this order. *)
Definition high_dimension_printed {CL : Causallib F G}
    {IR : IRM F G SyntheticHighDimension.Args}
    (args : SyntheticHighDimension.Args) (w w' : world G F) : Prop :=
  exists (vals : list (F * F * F * F * F))
         (effect_true effect_oracle effect_baseline effect_irm_control
          effect_irm_treatment : ndarray F)
         (d_baseline d_oracle d_irm_c d_irm_t : ndarray F)
         (avg_baseline avg_oracle avg_irm_c avg_irm_t avg std : ndarray F),
    run_cells (SyntheticHighDimension.cell args) (SyntheticHighDimension.nr args)
      SyntheticHighDimension.number_dimensions_list (rng w) = (inr vals, rng w') /\
    (filled (SyntheticHighDimension.nr args) 3 (fun v => fst (fst (fst (fst v))))
       vals effect_true /\
     filled (SyntheticHighDimension.nr args) 3 (fun v => snd (fst (fst (fst v))))
       vals effect_oracle /\
     filled (SyntheticHighDimension.nr args) 3 (fun v => snd (fst (fst v)))
       vals effect_baseline /\
     filled (SyntheticHighDimension.nr args) 3 (fun v => snd (fst v))
       vals effect_irm_control /\
     filled (SyntheticHighDimension.nr args) 3 (fun v => snd v)
       vals effect_irm_treatment) /\
    stdout w' = stdout w
      ++ progress (SyntheticHighDimension.nr args)
           SyntheticHighDimension.number_dimensions_list
      ++ [OutFrame ["$\{x_1,x_2,x_3\}$"; "$\{x_2\}$"; "IRM-c"; "IRM-t"]%string
            [25%Z; 45%Z; 65%Z] avg;
          OutFrame ["$\{x_1,x_2,x_3\}$"; "$\{x_2\}$"; "IRM-c"; "IRM-t"]%string
            [25%Z; 45%Z; 65%Z] std] /\
    (np_sub effect_baseline effect_true = inr d_baseline /\
     np_sub effect_oracle effect_true = inr d_oracle /\
     np_sub effect_irm_control effect_true = inr d_irm_c /\
     np_sub effect_irm_treatment effect_true = inr d_irm_t) /\
    (reports_mean (np_abs d_baseline) avg_baseline /\
     reports_mean (np_abs d_oracle) avg_oracle /\
     reports_mean (np_abs d_irm_c) avg_irm_c /\
     reports_mean (np_abs d_irm_t) avg_irm_t) /\
    concatenate0 [avg_baseline; avg_oracle; avg_irm_c; avg_irm_t] = inr avg.
End Printed.

(* ================================================================== *)
(** * Lemmas *)

Open Scope se_scope.

(** ** Arrays *)
Lemma nth_map_seq {A : Type} (f : nat -> A) (n i : nat) (d : A) :
  i < n -> nth i (map f (seq 0 n)) d = f i.
Proof.
  intros Hi. rewrite (nth_indep _ d (f 0)) by (rewrite length_map, length_seq; exact Hi).
  rewrite map_nth, seq_nth by exact Hi. reflexivity.
Qed.

Lemma nth_map_seq_out {A : Type} (f : nat -> A) (n i : nat) (d : A) :
  n <= i -> nth i (map f (seq 0 n)) d = d.
Proof. intros Hi. apply nth_overflow. rewrite length_map, length_seq. exact Hi. Qed.

Lemma nrows_tabulate {A : Type} (r c : nat) (f : nat -> nat -> A) : nrows (tabulate r c f) = r.
Proof. unfold nrows, tabulate. simpl. rewrite length_map, length_seq. reflexivity. Qed.

Lemma ncols_tabulate {A : Type} (r c : nat) (f : nat -> nat -> A) : ncols (tabulate r c f) = c.
Proof. reflexivity. Qed.

Lemma entry_tabulate {A : Type} `{Default A} (r c : nat) (f : nat -> nat -> A) (i j : nat) :
  i < r -> j < c -> entry (tabulate r c f) i j = f i j.
Proof.
  intros Hi Hj. unfold entry, tabulate. simpl.
  rewrite (nth_map_seq (fun i => map (fun j => f i j) (seq 0 c))) by exact Hi.
  apply nth_map_seq. exact Hj.
Qed.

Lemma entry_tabulate_out {A : Type} `{Default A} (r c : nat) (f : nat -> nat -> A) (i j : nat) :
  r <= i \/ c <= j -> entry (tabulate r c f) i j = default.
Proof.
  intros Hij. unfold entry, tabulate. simpl.
  destruct (Nat.lt_ge_cases i r) as [Hi | Hi].
  - rewrite (nth_map_seq (fun i => map (fun j => f i j) (seq 0 c))) by exact Hi.
    apply nth_map_seq_out. lia.
  - rewrite nth_map_seq_out by exact Hi. destruct j; reflexivity.
Qed.

Lemma map_nth_seq {A : Type} (l : list A) (d : A) :
  map (fun j => nth j l d) (seq 0 (length l)) = l.
Proof.
  apply nth_ext with (d := d) (d' := d).
  - rewrite length_map, length_seq. reflexivity.
  - intros n Hn. rewrite length_map, length_seq in Hn.
    exact (nth_map_seq (fun j => nth j l d) (length l) n d Hn).
Qed.

(** ** The monad *)
Lemma bind_inr {S X Y : Type} (m : SE S X) (k : X -> SE S Y) (s s' : S) (y : Y) :
  bind m k s = (inr y, s') -> exists x s1, m s = (inr x, s1) /\ k x s1 = (inr y, s').
Proof.
  unfold bind. destruct (m s) as [[e | x] s1]; intros Hk.
  - discriminate Hk.
  - exists x, s1. split; [reflexivity | exact Hk].
Qed.

Lemma lift_result_inr {S X : Type} (r : result X) (s s' : S) (x : X) :
  lift_result r s = (inr x, s') -> r = inr x /\ s' = s.
Proof. unfold lift_result. intros Hr. inversion Hr. split; reflexivity. Qed.

Lemma ret_inr {S X : Type} (x y : X) (s s' : S) :
  ret x s = (inr y, s') -> y = x /\ s' = s.
Proof. unfold ret. intros Hr. inversion Hr. split; reflexivity. Qed.

Lemma bind_lift_inr {S X Y : Type} (r : result X) (x : X) (k : X -> SE S Y) (s : S) :
  r = inr x -> bind (lift_result r) k s = k x s.
Proof. intros ->. reflexivity. Qed.

Lemma bind_run_inr {S X Y : Type} (m : SE S X) (x : X) (k : X -> SE S Y) (s s1 : S) :
  m s = (inr x, s1) -> bind m k s = k x s1.
Proof. unfold bind. intros ->. reflexivity. Qed.

Lemma bind_run_inl {S X Y : Type} (m : SE S X) (e : exn) (k : X -> SE S Y) (s s1 : S) :
  m s = (inl e, s1) -> bind m k s = (inl e, s1).
Proof. unfold bind. intros ->. reflexivity. Qed.

(** ** Shapes of the array operations *)
Lemma hstack2_inr {A : Type} `{Default A} (a b c : ndarray A) :
  hstack2 a b = inr c ->
  nrows a = nrows b /\
  c = tabulate (nrows a) (ncols a + ncols b)
        (fun i j => if j <? ncols a then entry a i j else entry b i (j - ncols a)).
Proof.
  unfold hstack2. destruct (nrows a =? nrows b) eqn:E; intros Hc; [| discriminate Hc].
  apply Nat.eqb_eq in E. inversion Hc. split; [exact E | reflexivity].
Qed.

Lemma concatenate1_2_inr {A : Type} `{Default A} (a b c : ndarray A) :
  concatenate1 [a; b] = inr c ->
  nrows a = nrows b /\
  c = tabulate (nrows a) (ncols a + ncols b)
        (fun i j => if j <? ncols a then entry a i j else entry b i (j - ncols a)).
Proof. simpl. apply hstack2_inr. Qed.

Lemma concatenate1_3_inr {A : Type} `{Default A} (a b c m : ndarray A) :
  concatenate1 [a; b; c] = inr m ->
  nrows a = nrows b /\ nrows b = nrows c /\
  m = tabulate (nrows a) (ncols a + (ncols b + ncols c))
        (fun i j => if j <? ncols a then entry a i j
                    else if j - ncols a <? ncols b then entry b i (j - ncols a)
                    else entry c i (j - ncols a - ncols b)).
Proof.
  simpl. destruct (hstack2 b c) as [e | bc] eqn:Ebc; [discriminate |].
  apply hstack2_inr in Ebc. destruct Ebc as [Hbc ->]. intros Hm.
  apply hstack2_inr in Hm. rewrite nrows_tabulate, ncols_tabulate in Hm.
  destruct Hm as [Hab ->]. split; [exact Hab | split; [exact Hbc |]].
  unfold tabulate at 1 3. simpl ncols. f_equal. apply map_ext_in. intros i Hi. apply in_seq in Hi.
  apply map_ext_in. intros j Hj. apply in_seq in Hj.
  destruct (j <? ncols a) eqn:Ej; [reflexivity |].
  apply Nat.ltb_ge in Ej.
  rewrite entry_tabulate; [reflexivity | lia | lia].
Qed.

Section ScalarLemmas.
Context {F : Type} `{Scalar F}.

Lemma np_dot_inr (a b p : ndarray F) :
  np_dot a b = inr p ->
  ncols a = nrows b /\
  p = tabulate (nrows a) (ncols b)
        (fun i j => fsum (map (fun k => fmul (entry a i k) (entry b k j)) (seq 0 (ncols a)))).
Proof.
  unfold np_dot. destruct (ncols a =? nrows b) eqn:E; intros Hp; [| discriminate Hp].
  apply Nat.eqb_eq in E. inversion Hp. split; [exact E | reflexivity].
Qed.

Lemma fsum_snoc (l : list F) (x : F) : fsum (l ++ [x]) = fadd (fsum l) x.
Proof. unfold fsum. rewrite fold_left_app. reflexivity. Qed.

Lemma fsum_seq_S (f : nat -> F) (n : nat) :
  fsum (map f (seq 0 (S n))) = fadd (fsum (map f (seq 0 n))) (f n).
Proof. rewrite seq_S, map_app. change (map f [0 + n]) with [f n]. apply fsum_snoc. Qed.
End ScalarLemmas.

Lemma bdim_same (n : nat) : bdim n n = Some n.
Proof. unfold bdim. rewrite Nat.eqb_refl. reflexivity. Qed.

Lemma bidx_lt (m i : nat) : i < m -> bidx m i = i.
Proof. unfold bidx. destruct (m =? 1) eqn:E; [apply Nat.eqb_eq in E; lia | reflexivity]. Qed.

Lemma broadcast2_same {A B C : Type} `{Default A} `{Default B}
    (op : A -> B -> C) (a : ndarray A) (b : ndarray B) :
  nrows a = nrows b -> ncols a = ncols b ->
  broadcast2 op a b = inr (tabulate (nrows a) (ncols a)
                             (fun i j => op (entry a (bidx (nrows a) i) (bidx (ncols a) j))
                                            (entry b (bidx (nrows b) i) (bidx (ncols b) j)))).
Proof. intros Hr Hc. unfold broadcast2. rewrite <- Hr, <- Hc, !bdim_same. reflexivity. Qed.

Lemma np_random_normal_inr {F G : Type} `{Scalar F} `{RandomState F G}
    (loc scale : F) (r c : nat) (g g' : G) (z : ndarray F) :
  np_random_normal loc scale r c g = (inr z, g') -> nrows z = r /\ ncols z = c.
Proof.
  unfold np_random_normal, draw_array.
  destruct (draw_list _ _ g) as [rs g1] eqn:E. intros Hz. inversion Hz. subst z g1.
  unfold nrows. simpl. split; [| reflexivity].
  assert (Hlen : forall (X Y : Type) (f : X -> G -> Y * G) (xs : list X) (g0 : G),
             length (fst (draw_list f xs g0)) = length xs).
  { intros X Y f xs. induction xs as [| x xs IH]; intros g0; simpl; [reflexivity |].
    destruct (f x g0) as [y g1]. specialize (IH g1).
    destruct (draw_list f xs g1) as [ys g2]. simpl in *. rewrite IH. reflexivity. }
  specialize (Hlen _ _ (draw_list (fun _ : unit => draw_normal loc scale))
                (rows (tabulate r c (fun _ _ => tt))) g).
  rewrite E in Hlen. simpl in Hlen. rewrite Hlen.
  apply (nrows_tabulate r c (fun _ _ => tt)).
Qed.

Ltac inv_bind H :=
  let x := fresh "x" in
  let s := fresh "s" in
  let H1 := fresh "Hstep" in
  apply bind_inr in H; destruct H as (x & s & H1 & H); cbv beta in H.

Ltac inv_lift H :=
  let E := fresh "E" in
  apply lift_result_inr in H; destruct H as [H E]; subst.

Ltac inv_run H :=
  repeat inv_bind H;
  apply ret_inr in H;
  let E := fresh "E" in
  destruct H as [H E]; subst;
  repeat match goal with
         | Hl : lift_result _ _ = (inr _, _) |- _ =>
             let E' := fresh "E" in
             apply lift_result_inr in Hl; destruct Hl as [Hl E']; subst
         end.

Section Tail.
Context {F G : Type} `{Scalar F} `{Special F} `{RandomState F G}.

Lemma get_data_outcomes
    (u1 u2 u3 u4 theta1 theta2 theta3 theta4 theta5 theta6 : ndarray F)
    (n d : nat) (use k : Z) (g g' : G)
    (x1 x2 x3 : ndarray F) (t e : ndarray Z) (y y_0 y_1 : ndarray F) :
  SynEntner.get_data u1 u2 u3 u4 theta1 theta2 theta3 theta4 theta5 theta6 n d use k g
    = (inr (x1, x2, x3, t, e, y, y_0, y_1), g') ->
  exists (z c c0 c1 p p0 p1 : ndarray F),
    (concatenate1 [x2; u4; astype_float t] = inr c /\ np_dot c theta4 = inr p /\
     np_add p (scale (lit 1 10) z) = inr y) /\
    (concatenate1 [x2; u4; np_zeros n 1] = inr c0 /\ np_dot c0 theta4 = inr p0 /\
     np_add p0 (scale (lit 1 10) z) = inr y_0) /\
    (concatenate1 [x2; u4; np_ones n 1] = inr c1 /\ np_dot c1 theta4 = inr p1 /\
     np_add p1 (scale (lit 1 10) z) = inr y_1) /\
    nrows z = n /\ ncols z = 1.
Proof.
  intros Hrun. unfold SynEntner.get_data in Hrun.
  inv_run Hrun. inversion Hrun; subst.
  repeat match goal with
         | Hn : np_random_normal _ _ _ _ _ = (inr _, _) |- _ =>
             apply np_random_normal_inr in Hn
         end.
  do 7 eexists.
  repeat (split; [repeat split; eassumption |]).
  eassumption.
Qed.
End Tail.

Section Outcome.
Context {F : Type} `{Scalar F}.

Lemma nrows_map_array {A B : Type} `{Default A} (f : A -> B) (a : ndarray A) :
  nrows (map_array f a) = nrows a.
Proof. apply nrows_tabulate. Qed.

Lemma outcome_entry (x2 u4 w theta4 noise c p y : ndarray F) (i : nat) :
  concatenate1 [x2; u4; w] = inr c ->
  np_dot c theta4 = inr p ->
  np_add p noise = inr y ->
  nrows noise = nrows w -> ncols noise = 1 -> ncols w = 1 -> ncols theta4 = 1 ->
  i < nrows w ->
  nrows theta4 = ncols x2 + ncols u4 + 1 /\ nrows y = nrows w /\ ncols y = 1 /\
  entry y i 0 =
    fadd (fadd (fsum (map (fun k => fmul (if k <? ncols x2 then entry x2 i k
                                          else entry u4 i (k - ncols x2))
                                         (entry theta4 k 0))
                          (seq 0 (ncols x2 + ncols u4))))
               (fmul (entry w i 0) (entry theta4 (ncols x2 + ncols u4) 0)))
         (entry noise i 0).
Proof.
  intros Hc Hp Hy Hnr Hnc Hwc Htc Hi.
  apply concatenate1_3_inr in Hc. destruct Hc as (Hxu & Huw & ->).
  apply np_dot_inr in Hp. rewrite nrows_tabulate, ncols_tabulate in Hp.
  destruct Hp as (Hk & ->).
  unfold np_add in Hy. rewrite broadcast2_same in Hy
    by (rewrite ?nrows_tabulate, ?ncols_tabulate; lia).
  inversion Hy; subst y; clear Hy.
  rewrite !nrows_tabulate, !ncols_tabulate.
  split; [lia | split; [lia | split; [exact Htc |]]].
  rewrite entry_tabulate by lia.
  rewrite !bidx_lt by lia.
  rewrite entry_tabulate by lia.
  f_equal.
  rewrite Hwc.
  replace (ncols x2 + (ncols u4 + 1)) with (S (ncols x2 + ncols u4)) by lia.
  rewrite fsum_seq_S.
  f_equal.
  - f_equal. apply map_ext_in. intros k Hkin. apply in_seq in Hkin.
    rewrite entry_tabulate by lia.
    destruct (k <? ncols x2) eqn:E1; [reflexivity |].
    apply Nat.ltb_ge in E1.
    destruct (k - ncols x2 <? ncols u4) eqn:E2; [reflexivity |].
    apply Nat.ltb_ge in E2. lia.
  - rewrite entry_tabulate by lia.
    destruct (ncols x2 + ncols u4 <? ncols x2) eqn:E1; [apply Nat.ltb_lt in E1; lia |].
    destruct (ncols x2 + ncols u4 - ncols x2 <? ncols u4) eqn:E2;
      [apply Nat.ltb_lt in E2; lia |].
    replace (ncols x2 + ncols u4 - ncols x2 - ncols u4) with 0 by lia.
    reflexivity.
Qed.
End Outcome.

(** ** Weakest preconditions of a run *)

Lemma wp_ret {S X : Type} (x : X) (s : S) (Q : result X -> S -> Prop) :
  Q (inr x) s -> wp (ret x) s Q.
Proof. intros HQ. exact HQ. Qed.

Lemma wp_bind_run {S X Y : Type} (m : SE S X) (k : X -> SE S Y) (s s1 : S) (x : X)
    (Q : result Y -> S -> Prop) :
  m s = (inr x, s1) -> wp (k x) s1 Q -> wp (bind m k) s Q.
Proof. unfold wp, bind. intros ->. intros HQ. exact HQ. Qed.

Lemma wp_bind_fail {S X Y : Type} (m : SE S X) (k : X -> SE S Y) (s s1 : S) (e : exn)
    (Q : result Y -> S -> Prop) :
  m s = (inl e, s1) -> Q (inl e) s1 -> wp (bind m k) s Q.
Proof. unfold wp, bind. intros ->. intros HQ. exact HQ. Qed.

Lemma wp_bind_lift {S X Y : Type} (r : result X) (k : X -> SE S Y) (s : S) (x : X)
    (Q : result Y -> S -> Prop) :
  r = inr x -> wp (k x) s Q -> wp (bind (lift_result r) k) s Q.
Proof. intros ->. apply wp_bind_run. reflexivity. Qed.

(** ** When the array operations succeed *)
Lemma concat2_ok {A : Type} `{Default A} (a b : ndarray A) :
  nrows a = nrows b ->
  exists c, concatenate1 [a; b] = inr c /\ nrows c = nrows a /\ ncols c = ncols a + ncols b.
Proof.
  intros Hr. cbn [concatenate1]. unfold hstack2. rewrite (proj2 (Nat.eqb_eq _ _) Hr).
  eexists. split; [reflexivity |]. rewrite nrows_tabulate. split; reflexivity.
Qed.

Lemma concat3_ok {A : Type} `{Default A} (a b c : ndarray A) :
  nrows a = nrows b -> nrows b = nrows c ->
  exists m, concatenate1 [a; b; c] = inr m /\ nrows m = nrows a /\
            ncols m = ncols a + (ncols b + ncols c).
Proof.
  intros Hab Hbc. cbn [concatenate1]. unfold hstack2.
  rewrite (proj2 (Nat.eqb_eq _ _) Hbc). cbv iota.
  rewrite nrows_tabulate, (proj2 (Nat.eqb_eq _ _) Hab).
  eexists. split; [reflexivity |]. rewrite nrows_tabulate. split; reflexivity.
Qed.

Section Ok.
Context {F : Type} `{Scalar F}.

Lemma dot_ok (a b : ndarray F) :
  ncols a = nrows b ->
  exists p, np_dot a b = inr p /\ nrows p = nrows a /\ ncols p = ncols b.
Proof.
  intros Hk. unfold np_dot. rewrite (proj2 (Nat.eqb_eq _ _) Hk).
  eexists. split; [reflexivity |]. rewrite nrows_tabulate. split; reflexivity.
Qed.

Lemma add_ok (a b : ndarray F) :
  nrows a = nrows b -> ncols a = ncols b ->
  exists c, np_add a b = inr c /\ nrows c = nrows a /\ ncols c = ncols a.
Proof.
  intros Hr Hc. unfold np_add. rewrite broadcast2_same by assumption.
  eexists. split; [reflexivity |]. rewrite nrows_tabulate. split; reflexivity.
Qed.

Lemma sub_ok (a b : ndarray F) :
  nrows a = nrows b -> ncols a = ncols b ->
  exists c, np_sub a b = inr c /\ nrows c = nrows a /\ ncols c = ncols a.
Proof.
  intros Hr Hc. unfold np_sub. rewrite broadcast2_same by assumption.
  eexists. split; [reflexivity |]. rewrite nrows_tabulate. split; reflexivity.
Qed.

(** Subtracting the column means: a row vector against every row. *)
Lemma sub_row_ok (a b : ndarray F) :
  ncols a = ncols b ->
  exists c, np_sub a (as_row (np_mean_axis0 b)) = inr c /\
            nrows c = nrows a /\ ncols c = ncols a.
Proof.
  intros Hc. unfold np_sub, broadcast2.
  assert (Hr1 : nrows (as_row (np_mean_axis0 b)) = 1) by reflexivity.
  assert (Hc1 : ncols (as_row (np_mean_axis0 b)) = ncols a).
  { unfold as_row, np_mean_axis0. simpl. rewrite length_map, length_seq. symmetry. exact Hc. }
  rewrite Hr1, Hc1, bdim_same.
  assert (Hb : bdim (nrows a) 1 = Some (nrows a)).
  { unfold bdim. destruct (nrows a =? 1) eqn:E; [apply Nat.eqb_eq in E; rewrite E |]; reflexivity. }
  rewrite Hb. eexists. split; [reflexivity |]. rewrite nrows_tabulate. split; reflexivity.
Qed.

Lemma shape_scale (s : F) (a : ndarray F) : nrows (scale s a) = nrows a /\ ncols (scale s a) = ncols a.
Proof. unfold scale, map_array. rewrite nrows_tabulate. split; reflexivity. Qed.
End Ok.

Lemma length_draw_list {G X Y : Type} (f : X -> G -> Y * G) (xs : list X) (g : G) :
  length (fst (draw_list f xs g)) = length xs.
Proof.
  revert g. induction xs as [| x xs IH]; intros g; simpl; [reflexivity |].
  destruct (f x g) as [y g1]. specialize (IH g1).
  destruct (draw_list f xs g1) as [ys g2]. simpl in *. rewrite IH. reflexivity.
Qed.

Lemma Forall_draw_list {G X Y : Type} (f : X -> G -> Y * G) (P : Y -> Prop) (xs : list X) (g : G) :
  (forall x g0, In x xs -> P (fst (f x g0))) -> Forall P (fst (draw_list f xs g)).
Proof.
  revert g. induction xs as [| x xs IH]; intros g Hf; simpl; [constructor |].
  specialize (Hf x g) as Hx. destruct (f x g) as [y g1].
  specialize (IH g1). destruct (draw_list f xs g1) as [ys g2]. simpl in *.
  constructor.
  - apply Hx. left. reflexivity.
  - apply IH. intros x0 g0 Hin. apply Hf. right. exact Hin.
Qed.

Lemma shape_draw_array {G X Y : Type} (f : X -> G -> Y * G) (a : ndarray X) (g : G) :
  nrows (fst (draw_array f a g)) = nrows a /\ ncols (fst (draw_array f a g)) = ncols a.
Proof.
  unfold draw_array. pose proof (length_draw_list (draw_list f) (rows a) g) as Hl.
  destruct (draw_list (draw_list f) (rows a) g) as [rs g1]. simpl in *.
  split; [exact Hl | reflexivity].
Qed.

Section RandomOk.
Context {F G : Type} `{Scalar F} `{RandomState F G}.

Lemma normal_ok (loc scale : F) (r c : nat) (g : G) :
  exists z g', np_random_normal loc scale r c g = (inr z, g') /\ nrows z = r /\ ncols z = c.
Proof.
  unfold np_random_normal.
  pose proof (shape_draw_array (fun _ : unit => draw_normal loc scale)
                (tabulate r c (fun _ _ => tt)) g) as Hs.
  destruct (draw_array _ _ g) as [a g1]. simpl in Hs. rewrite nrows_tabulate in Hs.
  exists a, g1. split; [reflexivity | exact Hs].
Qed.

Lemma uniform_ok (low high : F) (r c : nat) (g : G) :
  exists z g', np_random_uniform low high r c g = (inr z, g') /\ nrows z = r /\ ncols z = c.
Proof.
  unfold np_random_uniform.
  pose proof (shape_draw_array (fun _ : unit => draw_uniform low high)
                (tabulate r c (fun _ _ => tt)) g) as Hs.
  destruct (draw_array _ _ g) as [a g1]. simpl in Hs. rewrite nrows_tabulate in Hs.
  exists a, g1. split; [reflexivity | exact Hs].
Qed.

Lemma binomial_ok (n : Z) (p : ndarray F) (g : G) :
  binomial_accepts n p = true ->
  exists t g', np_random_binomial n p g = (inr t, g') /\ nrows t = nrows p /\ ncols t = ncols p.
Proof.
  intros Hacc. unfold np_random_binomial. rewrite Hacc.
  pose proof (shape_draw_array (draw_binomial n) p g) as Hs.
  destruct (draw_array _ _ g) as [a g1]. simpl in Hs.
  exists a, g1. split; [reflexivity | exact Hs].
Qed.

Lemma binomial_rejects (n : Z) (p : ndarray F) (g : G) :
  binomial_accepts n p = false -> np_random_binomial n p g = (inl BinomialArguments, g).
Proof. intros Hacc. unfold np_random_binomial. rewrite Hacc. reflexivity. Qed.

Lemma np_random_binomial_inr (n : Z) (p : ndarray F) (g g' : G) (t : ndarray Z) :
  np_random_binomial n p g = (inr t, g') ->
  binomial_accepts n p = true /\ draw_array (draw_binomial n) p g = (t, g') /\
  nrows t = nrows p /\ ncols t = ncols p.
Proof.
  unfold np_random_binomial. intros Ht.
  destruct (binomial_accepts n p); [| discriminate Ht].
  pose proof (shape_draw_array (draw_binomial n) p g) as Hs.
  destruct (draw_array _ _ g) as [a g1]. simpl in Hs.
  injection Ht as <- <-. split; [reflexivity | split; [reflexivity | exact Hs]].
Qed.
End RandomOk.

Section Environments.
Context {F G : Type} `{Scalar F} `{RandomState F G}.

Lemma length_np_arange (k : Z) : length (np_arange k) = Z.to_nat k.
Proof. unfold np_arange. rewrite length_map, length_seq. reflexivity. Qed.

Lemma choice_ok (k : Z) (p : list F) (g : G) :
  (0 < k)%Z -> length p = Z.to_nat k -> choice_accepts p = true ->
  np_random_choice (np_arange k) p g
    = (inr (fst (draw_choice (np_arange k) p g)), snd (draw_choice (np_arange k) p g)).
Proof.
  intros Hk Hp Hacc. unfold np_random_choice.
  pose proof (length_np_arange k) as Hl.
  destruct (np_arange k) as [| a0 a] eqn:Ea; [simpl in Hl; lia |].
  rewrite Hp, <- Hl, Nat.eqb_refl, Hacc. simpl.
  destruct (draw_choice (a0 :: a) p g). reflexivity.
Qed.

Lemma choice_fails (k : Z) (p : list F) (g : G) :
  length p <> Z.to_nat k \/ (k <= 0)%Z ->
  exists e, np_random_choice (np_arange k) p g = (inl e, g) /\
            (e = ChoiceEmpty \/ e = ChoiceSize).
Proof.
  intros Hk. unfold np_random_choice.
  pose proof (length_np_arange k) as Hl.
  destruct (np_arange k) as [| a0 a] eqn:Ea.
  - exists ChoiceEmpty. split; [reflexivity | left; reflexivity].
  - destruct Hk as [Hk | Hk]; [| simpl in Hl; lia].
    rewrite Hl. destruct (length p =? Z.to_nat k) eqn:E; [apply Nat.eqb_eq in E; contradiction |].
    exists ChoiceSize. split; [reflexivity | right; reflexivity].
Qed.

Lemma setrow_ok {A : Type} `{Default A} (a : ndarray A) (i : nat) (v : A) :
  i < nrows a ->
  exists a', setrow a i v = inr a' /\ nrows a' = nrows a /\ ncols a' = ncols a.
Proof.
  intros Hi. unfold setrow. rewrite (proj2 (Nat.ltb_lt _ _) Hi).
  eexists. split; [reflexivity |]. rewrite nrows_tabulate. split; reflexivity.
Qed.

(** The loop that draws the environment labels, when every row is a
    probability vector over the [k] environments. *)
Lemma environments_ok (k : Z) (ps : list (list F)) :
  (0 < k)%Z ->
  (forall p, In p ps -> length p = Z.to_nat k /\ choice_accepts p = true) ->
  forall (a : nat) (e0 : ndarray Z) (g : G),
    a + length ps <= nrows e0 ->
    exists e g',
      for_each (combine (seq a (length ps)) ps)
        (fun ip e => v <- np_random_choice (np_arange k) (snd ip) ;;
                     lift_result (setrow e (fst ip) v)) e0 g = (inr e, g') /\
      nrows e = nrows e0 /\ ncols e = ncols e0.
Proof.
  intros Hk. induction ps as [| p ps IH]; intros Hps a e0 g Ha.
  - exists e0, g. split; [reflexivity | split; reflexivity].
  - simpl in Ha. cbn [length seq combine for_each].
    destruct (Hps p (or_introl eq_refl)) as [Hp Hacc].
    destruct (setrow_ok e0 a (fst (draw_choice (np_arange k) p g))) as (e1 & He1 & Hr1 & Hc1);
      [lia |].
    destruct (IH (fun q Hq => Hps q (or_intror Hq)) (S a) e1
                (snd (draw_choice (np_arange k) p g))) as (e & g' & Hrun & Hr & Hc);
      [lia |].
    exists e, g'. split; [| split; congruence].
    unfold bind at 1. unfold bind at 1. cbn [fst snd].
    rewrite (choice_ok k p g Hk Hp Hacc). unfold lift_result. rewrite He1. exact Hrun.
Qed.

Lemma choice_rejects (k : Z) (p : list F) (g : G) :
  (0 < k)%Z -> length p = Z.to_nat k -> choice_accepts p = false ->
  np_random_choice (np_arange k) p g = (inl ChoiceProbabilities, g).
Proof.
  intros Hk Hp Hacc. unfold np_random_choice.
  pose proof (length_np_arange k) as Hl.
  destruct (np_arange k) as [| a0 a] eqn:Ea; [simpl in Hl; lia |].
  rewrite Hp, <- Hl, Nat.eqb_refl, Hacc. reflexivity.
Qed.

(** The loop on rows of the right length: it returns, or it stops at the
    first row whose values [np.random.choice] does not accept. *)
Lemma environments_total (k : Z) (ps : list (list F)) :
  (0 < k)%Z ->
  (forall p, In p ps -> length p = Z.to_nat k) ->
  forall (a : nat) (e0 : ndarray Z) (g : G),
    a + length ps <= nrows e0 ->
    (exists e g',
        for_each (combine (seq a (length ps)) ps)
          (fun ip e => v <- np_random_choice (np_arange k) (snd ip) ;;
                       lift_result (setrow e (fst ip) v)) e0 g = (inr e, g') /\
        nrows e = nrows e0 /\ ncols e = ncols e0) \/
    (exists g' p,
        for_each (combine (seq a (length ps)) ps)
          (fun ip e => v <- np_random_choice (np_arange k) (snd ip) ;;
                       lift_result (setrow e (fst ip) v)) e0 g
          = (inl ChoiceProbabilities, g') /\
        In p ps /\ choice_accepts p = false).
Proof.
  intros Hk. induction ps as [| p ps IH]; intros Hps a e0 g Ha.
  - left. exists e0, g. split; [reflexivity | split; reflexivity].
  - simpl in Ha. cbn [length seq combine for_each].
    pose proof (Hps p (or_introl eq_refl)) as Hp.
    destruct (choice_accepts p) eqn:Hacc.
    + destruct (setrow_ok e0 a (fst (draw_choice (np_arange k) p g)))
        as (e1 & He1 & Hr1 & Hc1); [lia |].
      assert (Hstep : (v <- np_random_choice (np_arange k) (snd (a, p)) ;;
                       lift_result (setrow e0 (fst (a, p)) v)) g
                      = (inr e1, snd (draw_choice (np_arange k) p g))).
      { unfold bind at 1. cbn [fst snd].
        rewrite (choice_ok k p g Hk Hp Hacc). unfold lift_result. rewrite He1.
        reflexivity. }
      rewrite (bind_run_inr _ _ _ _ _ Hstep).
      destruct (IH (fun q Hq => Hps q (or_intror Hq)) (S a) e1
                  (snd (draw_choice (np_arange k) p g)) ltac:(lia))
        as [(e & g' & Hrun & Hr & Hc) | (g' & q & Hrun & Hq & Hrej)].
      * left. exists e, g'. split; [exact Hrun | split; congruence].
      * right. exists g', q. split; [exact Hrun | split; [right; exact Hq | exact Hrej]].
    + right. exists g, p. split; [| split; [left; reflexivity | exact Hacc]].
      apply bind_run_inl. unfold bind at 1. cbn [fst snd].
      rewrite (choice_rejects k p g Hk Hp Hacc). reflexivity.
Qed.

(** The same loop fails at its first row when the row's length is not
    the number of environments. *)
Lemma environments_fail (k : Z) (p : list F) (ps : list (list F)) (e0 : ndarray Z) (g : G) :
  length p <> Z.to_nat k \/ (k <= 0)%Z ->
  exists e,
    for_each (enumerate (p :: ps))
      (fun ip e => v <- np_random_choice (np_arange k) (snd ip) ;;
                   lift_result (setrow e (fst ip) v)) e0 g = (inl e, g) /\
    (e = ChoiceEmpty \/ e = ChoiceSize).
Proof.
  intros Hk. destruct (choice_fails k p g Hk) as (e & He & Hkind).
  exists e. split; [| exact Hkind].
  unfold enumerate. cbn [length seq combine for_each].
  unfold bind at 1. unfold bind at 1. cbn [fst snd]. rewrite He. reflexivity.
Qed.
End Environments.

Lemma shape_inv {A : Type} (a : ndarray A) (r c : nat) :
  shape a = (r, c) -> nrows a = r /\ ncols a = c.
Proof. unfold shape. intros Hs. inversion Hs. split; reflexivity. Qed.

Lemma wp_bind_assoc {S X Y Z : Type} (m : SE S X) (k1 : X -> SE S Y) (k2 : Y -> SE S Z)
    (s : S) (Q : result Z -> S -> Prop) :
  wp (bind m (fun x => bind (k1 x) k2)) s Q -> wp (bind (bind m k1) k2) s Q.
Proof. unfold wp, bind. destruct (m s) as [[e | x] s1]; intros HQ; exact HQ. Qed.

Lemma wp_bind_ret {S X Y : Type} (x : X) (k : X -> SE S Y) (s : S) (Q : result Y -> S -> Prop) :
  wp (k x) s Q -> wp (bind (ret x) k) s Q.
Proof. intros HQ. exact HQ. Qed.

Section Shapes.
Context {F : Type} `{Scalar F}.
Lemma nrows_scale (s : F) (a : ndarray F) : nrows (scale s a) = nrows a.
Proof. apply nrows_tabulate. Qed.
Lemma ncols_scale (s : F) (a : ndarray F) : ncols (scale s a) = ncols a.
Proof. reflexivity. Qed.
Lemma nrows_sub_scalar (a : ndarray F) (s : F) : nrows (sub_scalar a s) = nrows a.
Proof. apply nrows_tabulate. Qed.
Lemma ncols_sub_scalar (a : ndarray F) (s : F) : ncols (sub_scalar a s) = ncols a.
Proof. reflexivity. Qed.
Lemma nrows_astype_float (a : ndarray Z) : nrows (astype_float (F:=F) a) = nrows a.
Proof. apply nrows_tabulate. Qed.
Lemma ncols_astype_float (a : ndarray Z) : ncols (astype_float (F:=F) a) = ncols a.
Proof. reflexivity. Qed.
Lemma nrows_np_zeros (r c : nat) : nrows (np_zeros (F:=F) r c) = r.
Proof. apply nrows_tabulate. Qed.
Lemma ncols_np_zeros (r c : nat) : ncols (np_zeros (F:=F) r c) = c.
Proof. reflexivity. Qed.
Lemma nrows_np_ones (r c : nat) : nrows (np_ones (F:=F) r c) = r.
Proof. apply nrows_tabulate. Qed.
Lemma ncols_np_ones (r c : nat) : ncols (np_ones (F:=F) r c) = c.
Proof. reflexivity. Qed.
Lemma nrows_softmax_axis1 `{Special F} (a : ndarray F) : nrows (softmax_axis1 a) = nrows a.
Proof. apply nrows_tabulate. Qed.
Lemma ncols_softmax_axis1 `{Special F} (a : ndarray F) : ncols (softmax_axis1 a) = ncols a.
Proof. reflexivity. Qed.
End Shapes.

Lemma ncols_map_array {A B : Type} `{Default A} (f : A -> B) (a : ndarray A) :
  ncols (map_array f a) = ncols a.
Proof. reflexivity. Qed.

Create Rewrite HintDb shapes.
#[export] Hint Rewrite @nrows_tabulate @ncols_tabulate @nrows_scale @ncols_scale
  @nrows_sub_scalar @ncols_sub_scalar @nrows_astype_float @ncols_astype_float
  @nrows_np_zeros @ncols_np_zeros @nrows_np_ones @ncols_np_ones
  @nrows_softmax_axis1 @ncols_softmax_axis1 @nrows_map_array @ncols_map_array : shapes.

Ltac by_shape := autorewrite with shapes; lia.

Ltac step :=
  lazymatch goal with
  | |- wp (bind (lift_result (concatenate1 [?a; ?b])) _) _ _ =>
      let c := fresh "c" in let Hc := fresh "Hc" in
      let Hr := fresh "Hr" in let Hk := fresh "Hk" in
      destruct (concat2_ok a b ltac:(by_shape)) as (c & Hc & Hr & Hk);
      apply (wp_bind_lift _ _ _ _ _ Hc); clear Hc;
      autorewrite with shapes in Hr, Hk
  | |- wp (bind (lift_result (concatenate1 [?a; ?b; ?c0])) _) _ _ =>
      let c := fresh "c" in let Hc := fresh "Hc" in
      let Hr := fresh "Hr" in let Hk := fresh "Hk" in
      destruct (concat3_ok a b c0 ltac:(by_shape) ltac:(by_shape)) as (c & Hc & Hr & Hk);
      apply (wp_bind_lift _ _ _ _ _ Hc); clear Hc;
      autorewrite with shapes in Hr, Hk
  | |- wp (bind (lift_result (np_dot ?a ?b)) _) _ _ =>
      let p := fresh "p" in let Hc := fresh "Hc" in
      let Hr := fresh "Hr" in let Hk := fresh "Hk" in
      destruct (dot_ok a b ltac:(by_shape)) as (p & Hc & Hr & Hk);
      apply (wp_bind_lift _ _ _ _ _ Hc); clear Hc;
      autorewrite with shapes in Hr, Hk
  | |- wp (bind (lift_result (np_add ?a ?b)) _) _ _ =>
      let p := fresh "x" in let Hc := fresh "Hc" in
      let Hr := fresh "Hr" in let Hk := fresh "Hk" in
      destruct (add_ok a b ltac:(by_shape) ltac:(by_shape)) as (p & Hc & Hr & Hk);
      apply (wp_bind_lift _ _ _ _ _ Hc); clear Hc;
      autorewrite with shapes in Hr, Hk
  | |- wp (bind (lift_result (np_sub ?a (as_row (np_mean_axis0 ?b)))) _) _ _ =>
      let p := fresh "l" in let Hc := fresh "Hc" in
      let Hr := fresh "Hr" in let Hk := fresh "Hk" in
      destruct (sub_row_ok a b ltac:(by_shape)) as (p & Hc & Hr & Hk);
      apply (wp_bind_lift _ _ _ _ _ Hc); clear Hc;
      autorewrite with shapes in Hr, Hk
  | |- wp (bind (np_random_normal ?l ?s ?r ?c) _) ?g _ =>
      let z := fresh "z" in let g' := fresh "g" in let Hc := fresh "Hc" in
      let Hr := fresh "Hr" in let Hk := fresh "Hk" in
      destruct (normal_ok l s r c g) as (z & g' & Hc & Hr & Hk);
      apply (wp_bind_run _ _ _ _ _ _ Hc); clear Hc;
      autorewrite with shapes in Hr, Hk
  | Hacc : binomial_accepts ?n ?p = true |- wp (bind (np_random_binomial ?n ?p) _) ?g _ =>
      let z := fresh "t" in let g' := fresh "g" in let Hc := fresh "Hc" in
      let Hr := fresh "Hr" in let Hk := fresh "Hk" in
      destruct (binomial_ok n p g Hacc) as (z & g' & Hc & Hr & Hk);
      apply (wp_bind_run _ _ _ _ _ _ Hc); clear Hc;
      autorewrite with shapes in Hr, Hk
  | |- wp (bind (bind _ _) _) _ _ => apply wp_bind_assoc
  | |- wp (bind (ret _) _) _ _ => apply wp_bind_ret
  end; cbv beta.

Section Forward.
Context {F G : Type} {SF : Scalar F} {SP : Special F} {RS : RandomState F G}.

Lemma row_softmax_axis1 (l : ndarray F) (i : nat) :
  softmax_law F -> ncols l = 3 -> i < nrows l ->
  row (softmax_axis1 l) i = softmax (row l i).
Proof.
  intros Hlaw Hc Hi.
  assert (Hrow : length (row l i) = 3).
  { unfold row. rewrite length_map, length_seq. exact Hc. }
  destruct (Hlaw (row l i) Hrow) as [Hlen _].
  unfold row at 1. rewrite ncols_softmax_axis1.
  transitivity (map (fun j => nth j (softmax (row l i)) default)
                    (seq 0 (length (softmax (row l i))))); [| apply map_nth_seq].
  rewrite Hlen, Hc. apply map_ext_in. intros j Hj. apply in_seq in Hj.
  unfold softmax_axis1. rewrite entry_tabulate by lia. reflexivity.
Qed.

(** In an exact arithmetic every row of the softmax of a three-column
    array is accepted as a probability vector. *)
Lemma rows_of_softmax (l : ndarray F) (p : list F) :
  exact_arithmetic F -> softmax_law F -> ncols l = 3 ->
  In p (map (row (softmax_axis1 l)) (seq 0 (nrows (softmax_axis1 l)))) ->
  choice_accepts p = true.
Proof.
  intros Hexact Hlaw Hc Hin. apply in_map_iff in Hin. destruct Hin as (i & <- & Hi).
  apply in_seq in Hi. rewrite nrows_softmax_axis1 in Hi.
  rewrite (row_softmax_axis1 l i Hlaw Hc) by lia.
  assert (Hrow : length (row l i) = 3).
  { unfold row. rewrite length_map, length_seq. exact Hc. }
  apply (Hlaw (row l i) Hrow). apply Forall_forall. intros x _. apply Hexact.
Qed.

(** In an exact arithmetic [np.random.binomial] accepts the values of
    [expit]. *)
Lemma expit_accepted (a : ndarray F) :
  exact_arithmetic F -> expit_law F -> binomial_accepts 1%Z (map_array expit a) = true.
Proof.
  intros Hexact Hlaw. unfold binomial_accepts, map_array, tabulate. cbn [rows Z.leb andb].
  apply forallb_forall. intros r Hr. apply in_map_iff in Hr. destruct Hr as (i & <- & _).
  apply forallb_forall. intros x Hx. apply in_map_iff in Hx. destruct Hx as (j & <- & _).
  apply Hlaw. apply Hexact.
Qed.

(** With three environments [get_data] returns its eight arrays, of the
    shapes of the specification, unless [np.random.binomial] or
    [np.random.choice] rejects its probabilities: that needs a number
    that is not finite.  It raises nothing else. *)
Lemma get_data_total
    (u1 u2 u3 u4 theta1 theta2 theta3 theta4 theta5 theta6 : ndarray F)
    (n d : nat) (use : Z) (g : G) :
  latent_shapes n d u1 u2 u3 u4 ->
  coefficient_shapes d use theta1 theta2 theta3 theta4 theta5 theta6 ->
  exists r g',
    SynEntner.get_data u1 u2 u3 u4 theta1 theta2 theta3 theta4 theta5 theta6 n d use 3%Z g
      = (r, g') /\
    ((exists x1 x2 x3 t e y y_0 y_1,
         r = inr (x1, x2, x3, t, e, y, y_0, y_1) /\
         shape x1 = (n, 1) /\ shape x2 = (n, d) /\ shape x3 = (n, d) /\
         shape t = (n, 1) /\ shape e = (n, 1) /\
         shape y = (n, 1) /\ shape y_0 = (n, 1) /\ shape y_1 = (n, 1)) \/
     (r = inl BinomialArguments /\ ~ (exact_arithmetic F /\ expit_law F)) \/
     (r = inl ChoiceProbabilities /\ ~ (exact_arithmetic F /\ softmax_law F))).
Proof.
  intros (Hu1 & Hu2 & Hu3 & Hu4) (Ht1 & Ht2 & Ht3 & Ht4 & Ht5 & Ht6).
  apply shape_inv in Hu1, Hu2, Hu3, Hu4, Ht1, Ht2, Ht3, Ht4, Ht5, Ht6.
  destruct Hu1 as [Hu1r Hu1c], Hu2 as [Hu2r Hu2c], Hu3 as [Hu3r Hu3c], Hu4 as [Hu4r Hu4c].
  destruct Ht1 as [Ht1r Ht1c], Ht2 as [Ht2r Ht2c], Ht3 as [Ht3r Ht3c], Ht4 as [Ht4r Ht4c].
  destruct Ht5 as [Ht5r Ht5c], Ht6 as [Ht6r Ht6c].
  set (Q := fun (r : result (ndarray F * ndarray F * ndarray F * ndarray Z * ndarray Z *
                             ndarray F * ndarray F * ndarray F)) (_ : G) =>
              (exists x1 x2 x3 t e y y_0 y_1,
                  r = inr (x1, x2, x3, t, e, y, y_0, y_1) /\
                  shape x1 = (n, 1) /\ shape x2 = (n, d) /\ shape x3 = (n, d) /\
                  shape t = (n, 1) /\ shape e = (n, 1) /\
                  shape y = (n, 1) /\ shape y_0 = (n, 1) /\ shape y_1 = (n, 1)) \/
              (r = inl BinomialArguments /\ ~ (exact_arithmetic F /\ expit_law F)) \/
              (r = inl ChoiceProbabilities /\ ~ (exact_arithmetic F /\ softmax_law F))).
  match goal with
  | |- exists r g', ?m ?s = _ /\ _ => enough (Hwp : wp m s Q)
  end.
  { unfold wp in Hwp. do 2 eexists. split; [apply surjective_pairing | exact Hwp]. }
  assert (Hend : forall (x x0 x1 : ndarray F) (t : ndarray Z) (la : ndarray F) (g3 : G),
            nrows x = n -> ncols x = 1 -> nrows x0 = n -> ncols x0 = d ->
            nrows x1 = n -> ncols x1 = d -> nrows t = n -> ncols t = 1 ->
            nrows la = n -> ncols la = 3 ->
            wp (e <- for_each (enumerate (map (row (softmax_axis1 la))
                                                  (seq 0 (nrows (softmax_axis1 la)))))
                       (fun ip e => v <- np_random_choice (np_arange 3) (snd ip) ;;
                                    lift_result (setrow e (fst ip) v))
                       (tabulate n 1 (fun _ _ => 0%Z)) ;;
                z <- np_random_normal (of_int 0%Z) (of_int 1%Z) n 1 ;;
                c <- lift_result (concatenate1 [x0; u4; astype_float t]) ;;
                p <- lift_result (np_dot c theta4) ;;
                y <- lift_result (np_add p (scale (lit 1 10) z)) ;;
                c0 <- lift_result (concatenate1 [x0; u4; np_zeros n 1]) ;;
                p0 <- lift_result (np_dot c0 theta4) ;;
                y_0 <- lift_result (np_add p0 (scale (lit 1 10) z)) ;;
                c1 <- lift_result (concatenate1 [x0; u4; np_ones n 1]) ;;
                p1 <- lift_result (np_dot c1 theta4) ;;
                y_1 <- lift_result (np_add p1 (scale (lit 1 10) z)) ;;
                ret (x, x0, x1, t, e, y, y_0, y_1)) g3 Q).
  { intros x x0 x1 t la g3 Hxr Hxc Hx0r Hx0c Hx1r Hx1c Htr Htc Hlr Hlc. unfold enumerate.
    destruct (environments_total 3%Z
                (map (row (softmax_axis1 la)) (seq 0 (nrows (softmax_axis1 la))))
                ltac:(lia)) with (a := 0) (e0 := tabulate n 1 (fun _ _ => 0%Z)) (g := g3)
      as [(e & ge & Hrun & Her & Hek) | (ge & q & Hrun & Hq & Hrej)].
    - intros q Hq. apply in_map_iff in Hq. destruct Hq as (i & <- & _).
      unfold row. rewrite length_map, length_seq, ncols_softmax_axis1, Hlc. reflexivity.
    - rewrite length_map, length_seq. autorewrite with shapes. lia.
    - autorewrite with shapes in Her, Hek.
      apply (wp_bind_run _ _ _ _ _ _ Hrun). cbv beta.
      repeat step. apply wp_ret. left.
      do 8 eexists. split; [reflexivity |].
      unfold shape. repeat split; f_equal; by_shape.
    - apply (wp_bind_fail _ _ _ _ _ _ Hrun). right. right. split; [reflexivity |].
      intros [Hexact Hlaw].
      rewrite (rows_of_softmax la q Hexact Hlaw Hlc Hq) in Hrej. discriminate Hrej. }
  unfold SynEntner.get_data.
  repeat step.
  match goal with
  | |- wp (bind (np_random_binomial ?k ?p) _) ?g0 _ =>
      destruct (binomial_accepts k p) eqn:Hacc;
      [| apply (wp_bind_fail _ _ _ _ _ _ (binomial_rejects _ _ _ Hacc));
         right; left; split; [reflexivity |];
         intros [Hexact Hlaw]; rewrite (expit_accepted _ Hexact Hlaw) in Hacc;
         discriminate Hacc]
  end.
  repeat step.
  remember (use =? 0)%Z as b eqn:Euse. destruct b.
  - repeat step. apply Hend; by_shape.
  - repeat step. apply Hend; by_shape.
Qed.

(** In an exact arithmetic it returns. *)
Lemma get_data_ok
    (u1 u2 u3 u4 theta1 theta2 theta3 theta4 theta5 theta6 : ndarray F)
    (n d : nat) (use : Z) (g : G) :
  exact_arithmetic F -> expit_law F -> softmax_law F ->
  latent_shapes n d u1 u2 u3 u4 ->
  coefficient_shapes d use theta1 theta2 theta3 theta4 theta5 theta6 ->
  exists x1 x2 x3 t e y y_0 y_1 g',
    SynEntner.get_data u1 u2 u3 u4 theta1 theta2 theta3 theta4 theta5 theta6 n d use 3%Z g
      = (inr (x1, x2, x3, t, e, y, y_0, y_1), g') /\
    shape x1 = (n, 1) /\ shape x2 = (n, d) /\ shape x3 = (n, d) /\
    shape t = (n, 1) /\ shape e = (n, 1) /\
    shape y = (n, 1) /\ shape y_0 = (n, 1) /\ shape y_1 = (n, 1).
Proof.
  intros Hexact Hexpit Hsoft Hu Htheta.
  destruct (get_data_total u1 u2 u3 u4 theta1 theta2 theta3 theta4 theta5 theta6
              n d use g Hu Htheta) as (r & g' & Hrun & [Hok | [[_ Hno] | [_ Hno]]]).
  - destruct Hok as (x1 & x2 & x3 & t & e & y & y_0 & y_1 & -> & Hs).
    exists x1, x2, x3, t, e, y, y_0, y_1, g'. split; [exact Hrun | exact Hs].
  - contradiction Hno. split; assumption.
  - contradiction Hno. split; assumption.
Qed.
End Forward.

Section Failure.
Context {F G : Type} {SF : Scalar F} {SP : Special F} {RS : RandomState F G}.

(** With another number of environments than three and at least one row,
    [get_data] raises: at the environment draw of the first row, unless
    [np.random.binomial] has rejected a treatment probability before,
    which an exact arithmetic excludes. *)
Lemma get_data_fails
    (u1 u2 u3 u4 theta1 theta2 theta3 theta4 theta5 theta6 : ndarray F)
    (n d : nat) (use k : Z) (g : G) :
  latent_shapes n d u1 u2 u3 u4 ->
  coefficient_shapes d use theta1 theta2 theta3 theta4 theta5 theta6 ->
  1 <= n -> k <> 3%Z ->
  exists err g',
    SynEntner.get_data u1 u2 u3 u4 theta1 theta2 theta3 theta4 theta5 theta6 n d use k g
      = (inl err, g') /\
    (err = ChoiceEmpty \/ err = ChoiceSize \/
     (err = BinomialArguments /\ ~ (exact_arithmetic F /\ expit_law F))).
Proof.
  intros (Hu1 & Hu2 & Hu3 & Hu4) (Ht1 & Ht2 & Ht3 & Ht4 & Ht5 & Ht6) Hn Hk3.
  apply shape_inv in Hu1, Hu2, Hu3, Hu4, Ht1, Ht2, Ht3, Ht4, Ht5, Ht6.
  destruct Hu1 as [Hu1r Hu1c], Hu2 as [Hu2r Hu2c], Hu3 as [Hu3r Hu3c], Hu4 as [Hu4r Hu4c].
  destruct Ht1 as [Ht1r Ht1c], Ht2 as [Ht2r Ht2c], Ht3 as [Ht3r Ht3c], Ht4 as [Ht4r Ht4c].
  destruct Ht5 as [Ht5r Ht5c], Ht6 as [Ht6r Ht6c].
  set (Q := fun (r : result (ndarray F * ndarray F * ndarray F * ndarray Z * ndarray Z *
                             ndarray F * ndarray F * ndarray F)) (_ : G) =>
              exists err, r = inl err /\
                (err = ChoiceEmpty \/ err = ChoiceSize \/
                 (err = BinomialArguments /\ ~ (exact_arithmetic F /\ expit_law F)))).
  match goal with
  | |- exists err g', ?m ?s = _ /\ _ => enough (Hwp : wp m s Q)
  end.
  { unfold wp in Hwp. destruct Hwp as (err & Hr & Hkind).
    exists err. eexists. split; [| exact Hkind].
    rewrite <- Hr. apply surjective_pairing. }
  assert (Hend : forall (la : ndarray F) (g3 : G)
                   (rest : ndarray Z ->
                           SE G (ndarray F * ndarray F * ndarray F * ndarray Z * ndarray Z *
                                 ndarray F * ndarray F * ndarray F)),
            nrows la = n -> ncols la = 3 ->
            wp (e <- for_each (enumerate (map (row (softmax_axis1 la))
                                                  (seq 0 (nrows (softmax_axis1 la)))))
                       (fun ip e => v <- np_random_choice (np_arange k) (snd ip) ;;
                                    lift_result (setrow e (fst ip) v))
                       (tabulate n 1 (fun _ _ => 0%Z)) ;;
                rest e) g3 Q).
  { intros la g3 rest Hlr Hlc. rewrite nrows_softmax_axis1, Hlr.
    destruct n as [| n']; [lia |]. cbn [seq map].
    destruct (environments_fail k (row (softmax_axis1 la) 0)
                (map (row (softmax_axis1 la)) (seq 1 n'))
                (tabulate (S n') 1 (fun _ _ => 0%Z)) g3) as (err & Hrun & Hkind).
    - unfold row. rewrite length_map, length_seq, ncols_softmax_axis1, Hlc. lia.
    - apply (wp_bind_fail _ _ _ _ _ _ Hrun). exists err. split; [reflexivity |].
      destruct Hkind as [-> | ->]; [left | right; left]; reflexivity. }
  unfold SynEntner.get_data.
  repeat step.
  match goal with
  | |- wp (bind (np_random_binomial ?k0 ?p) _) ?g0 _ =>
      destruct (binomial_accepts k0 p) eqn:Hacc;
      [| apply (wp_bind_fail _ _ _ _ _ _ (binomial_rejects _ _ _ Hacc));
         exists BinomialArguments; split; [reflexivity |];
         right; right; split; [reflexivity |];
         intros [Hexact Hlaw]; rewrite (expit_accepted _ Hexact Hlaw) in Hacc;
         discriminate Hacc]
  end.
  repeat step.
  remember (use =? 0)%Z as b eqn:Euse. destruct b.
  - repeat step. apply Hend; by_shape.
  - repeat step. apply Hend; by_shape.
Qed.
End Failure.

(** ** Entries of drawn arrays *)
Lemma nth_draw_list_length {G X Y : Type} (f : X -> G -> Y * G) (xss : list (list X)) (g : G) (i : nat) :
  length (nth i (fst (draw_list (draw_list f) xss g)) []) = length (nth i xss []).
Proof.
  revert g i. induction xss as [| xs xss IH]; intros g i; simpl.
  - destruct i; reflexivity.
  - pose proof (length_draw_list f xs g) as Hl.
    destruct (draw_list f xs g) as [ys g1]. specialize (IH g1).
    destruct (draw_list (draw_list f) xss g1) as [yss g2]. simpl in *.
    destruct i as [| i]; [exact Hl | apply IH].
Qed.

Lemma Forall_nth {A : Type} (P : A -> Prop) (l : list A) (i : nat) (d : A) :
  Forall P l -> i < length l -> P (nth i l d).
Proof. intros Hl Hi. rewrite Forall_forall in Hl. apply Hl. apply nth_In. exact Hi. Qed.

Lemma Forall_nth_default {A : Type} (P : A -> Prop) (l : list A) (i : nat) (d : A) :
  Forall P l -> P d -> P (nth i l d).
Proof.
  intros Hl Hd. destruct (Nat.lt_ge_cases i (length l)) as [Hi | Hi].
  - apply Forall_nth; assumption.
  - rewrite nth_overflow by exact Hi. exact Hd.
Qed.

Lemma draw_array_entries {G X Y : Type} `{Default Y} (f : X -> G -> Y * G) (P : Y -> Prop)
    (a : ndarray X) (g : G) :
  (forall x g0, P (fst (f x g0))) ->
  Forall (Forall P) (rows (fst (draw_array f a g))).
Proof.
  intros Hf. unfold draw_array.
  pose proof (Forall_draw_list (draw_list f) (Forall P) (rows a) g) as HF.
  destruct (draw_list (draw_list f) (rows a) g) as [rs g1]. simpl in *.
  apply HF. intros xs g0 _. apply Forall_draw_list. intros x g2 _. apply Hf.
Qed.

Lemma entries_default {A : Type} `{Default A} (P : A -> Prop) (a : ndarray A) :
  Forall (Forall P) (rows a) -> P default -> forall i j, P (entry a i j).
Proof.
  intros Ha Hd i j. unfold entry. apply Forall_nth_default; [| exact Hd].
  apply Forall_nth_default; [exact Ha | constructor].
Qed.

Lemma nth_tabulate_length {A : Type} (r c : nat) (f : nat -> nat -> A) (i : nat) :
  i < r -> length (nth i (rows (tabulate r c f)) []) = c.
Proof.
  intros Hi. unfold tabulate. simpl.
  rewrite (nth_map_seq (fun i => map (fun j => f i j) (seq 0 c))) by exact Hi.
  rewrite length_map, length_seq. reflexivity.
Qed.

Lemma entries_in_range {A : Type} `{Default A} (P : A -> Prop) (a : ndarray A) (i j : nat) :
  Forall (Forall P) (rows a) -> i < nrows a -> j < length (nth i (rows a) []) -> P (entry a i j).
Proof.
  intros Ha Hi Hj. unfold entry. apply Forall_nth; [| exact Hj].
  apply Forall_nth; [exact Ha | exact Hi].
Qed.

Section Drawn.
Context {F G : Type} {SF : Scalar F} {RS : RandomState F G}.

Lemma uniform_entries (low high : F) (r c : nat) (g g' : G) (a : ndarray F) :
  (forall g0 : G, between low high (fst (draw_uniform low high g0))) ->
  np_random_uniform low high r c g = (inr a, g') ->
  nrows a = r /\ ncols a = c /\ all_entries (between low high) a.
Proof.
  intros Hlaw Ha. unfold np_random_uniform in Ha.
  pose proof (shape_draw_array (fun _ : unit => draw_uniform low high)
                (tabulate r c (fun _ _ => tt)) g) as [Hr Hc].
  pose proof (draw_array_entries (fun _ : unit => draw_uniform low high) (between low high)
                (tabulate r c (fun _ _ => tt)) g (fun _ g0 => Hlaw g0)) as HF.
  pose proof (fun i => nth_draw_list_length (fun _ : unit => draw_uniform low high)
                (rows (tabulate r c (fun _ _ => tt))) g i) as Hlen.
  unfold draw_array in *.
  destruct (draw_list _ (rows (tabulate r c (fun _ _ => tt))) g) as [rs g1].
  simpl in *. inversion Ha; subst a g'. clear Ha.
  rewrite nrows_tabulate in Hr. unfold nrows in *. simpl in *.
  split; [exact Hr | split; [reflexivity |]].
  intros i j Hi Hj. simpl in Hi, Hj.
  apply entries_in_range; [exact HF | exact Hi |]. simpl.
  unfold nrows in Hi. simpl in Hi.
  pose proof (nth_tabulate_length r c (fun _ _ => tt) i ltac:(lia)) as Hx.
  unfold tabulate in Hx. simpl in Hx. rewrite Hlen, Hx. exact Hj.
Qed.

Lemma binomial_entries (n : Z) (p : ndarray F) (g g' : G) (t : ndarray Z) :
  binomial_law F G -> (0 <= n)%Z ->
  np_random_binomial n p g = (inr t, g') ->
  forall i j, (0 <= entry t i j <= n)%Z.
Proof.
  intros Hlaw Hn Ht. apply np_random_binomial_inr in Ht. destruct Ht as (_ & Ht & _).
  pose proof (draw_array_entries (draw_binomial n) (fun v => (0 <= v <= n)%Z) p g
                (fun q g0 => Hlaw n q g0 Hn)) as HF.
  rewrite Ht in HF. cbn [fst] in HF. intros i j.
  apply (entries_default (fun v => (0 <= v <= n)%Z)); [exact HF |].
  unfold default, Default_Z. lia.
Qed.

Lemma choice_in_range (k : Z) (p : list F) (g g' : G) (v : Z) :
  choice_law F G ->
  np_random_choice (np_arange k) p g = (inr v, g') -> (0 <= v < k)%Z.
Proof.
  intros Hlaw Hv. unfold np_random_choice in Hv.
  destruct (np_arange k) as [| a0 a] eqn:Ea; [discriminate Hv |].
  destruct (negb (length p =? length (a0 :: a))); [discriminate Hv |].
  destruct (negb (choice_accepts p)); [discriminate Hv |].
  assert (Hin : In (fst (draw_choice (a0 :: a) p g)) (a0 :: a)).
  { apply Hlaw. discriminate. }
  destruct (draw_choice (a0 :: a) p g) as [w g1]. inversion Hv; subst w g1.
  simpl fst in Hin. rewrite <- Ea in Hin. unfold np_arange in Hin.
  apply in_map_iff in Hin. destruct Hin as (m & <- & Hm). apply in_seq in Hm. lia.
Qed.
End Drawn.

Lemma for_each_invariant {S A L : Type} (P : L -> Prop) (l : list A) (body : A -> L -> SE S L) :
  (forall x acc s acc' s', P acc -> body x acc s = (inr acc', s') -> P acc') ->
  forall acc s acc' s', P acc -> for_each l body acc s = (inr acc', s') -> P acc'.
Proof.
  intros Hbody. induction l as [| x l IH]; intros acc s acc' s' Hacc Hrun.
  - apply ret_inr in Hrun. destruct Hrun as [-> _]. exact Hacc.
  - cbn [for_each] in Hrun. apply bind_inr in Hrun.
    destruct Hrun as (acc1 & s1 & Hx & Hrun).
    apply (IH acc1 s1 acc' s'); [| exact Hrun]. apply (Hbody x acc s acc1 s1 Hacc Hx).
Qed.

Section Labels.
Context {F G : Type} {SF : Scalar F} {SP : Special F} {RS : RandomState F G}.

Lemma get_data_labels
    (u1 u2 u3 u4 theta1 theta2 theta3 theta4 theta5 theta6 : ndarray F)
    (n d : nat) (use k : Z) (g g' : G)
    (x1 x2 x3 : ndarray F) (t e : ndarray Z) (y y_0 y_1 : ndarray F) :
  binomial_law F G -> choice_law F G -> (1 <= k)%Z ->
  SynEntner.get_data u1 u2 u3 u4 theta1 theta2 theta3 theta4 theta5 theta6 n d use k g
    = (inr (x1, x2, x3, t, e, y, y_0, y_1), g') ->
  forall i j, (0 <= entry e i j < k)%Z /\ (entry t i j = 0 \/ entry t i j = 1)%Z.
Proof.
  intros Hbin Hch Hk Hrun i j. unfold SynEntner.get_data in Hrun.
  inv_run Hrun. inversion Hrun; subst. clear Hrun.
  split.
  - match goal with
    | Hloop : for_each _ _ _ _ = (inr _, _) |- _ =>
        refine (for_each_invariant
                  (fun a : ndarray Z => forall i j, (0 <= entry a i j < k)%Z)
                  _ _ _ _ _ _ _ _ Hloop i j); clear i j
    end.
    + intros [i0 p] acc sa acc' sb Hacc Hbody i j.
      apply bind_inr in Hbody. destruct Hbody as (v & sc & Hv & Hset). cbv beta in Hset.
      apply lift_result_inr in Hset. destruct Hset as [Hset _].
      apply choice_in_range in Hv; [| exact Hch].
      unfold setrow in Hset. destruct (fst (i0, p) <? nrows acc); [| discriminate Hset].
      inversion Hset; subst acc'.
      destruct (Nat.lt_ge_cases i (nrows acc)) as [Hi | Hi];
        [destruct (Nat.lt_ge_cases j (ncols acc)) as [Hj | Hj] |].
      * rewrite entry_tabulate by assumption.
        cbn [fst]. destruct (i =? i0); [exact Hv | apply Hacc].
      * rewrite entry_tabulate_out by (right; exact Hj). unfold default, Default_Z. lia.
      * rewrite entry_tabulate_out by (left; exact Hi). unfold default, Default_Z. lia.
    + intros i j.
      destruct (Nat.lt_ge_cases i n) as [Hi | Hi];
        [destruct (Nat.lt_ge_cases j 1) as [Hj | Hj] |].
      * rewrite entry_tabulate by assumption. lia.
      * rewrite entry_tabulate_out by (right; exact Hj). unfold default, Default_Z. lia.
      * rewrite entry_tabulate_out by (left; exact Hi). unfold default, Default_Z. lia.
  - match goal with
    | Ht : np_random_binomial _ _ _ = (inr _, _) |- _ =>
        pose proof (binomial_entries 1%Z _ _ _ _ Hbin ltac:(lia) Ht i j) as Hrange
    end.
    lia.
Qed.
End Labels.

Section Samplers.
Context {F G : Type} {SF : Scalar F} {SP : Special F} {RS : RandomState F G}.

Lemma np_random_uniform_inr (low high : F) (r c : nat) (g g' : G) (a : ndarray F) :
  np_random_uniform low high r c g = (inr a, g') -> nrows a = r /\ ncols a = c.
Proof.
  intros Ha. destruct (uniform_ok low high r c g) as (z & g1 & Hz & Hs).
  rewrite Hz in Ha. inversion Ha; subst. exact Hs.
Qed.

Lemma get_u_shapes (n d : nat) (g g' : G) (u1 u2 u3 u4 : ndarray F) :
  SynEntner.get_u n d g = (inr (u1, u2, u3, u4), g') -> latent_shapes n d u1 u2 u3 u4.
Proof.
  intros Hrun. unfold SynEntner.get_u in Hrun. inv_run Hrun. inversion Hrun; subst.
  repeat match goal with
         | Hu : np_random_uniform _ _ _ _ _ = (inr _, _) |- _ =>
             apply np_random_uniform_inr in Hu; destruct Hu
         end.
  unfold latent_shapes, shape. repeat split; f_equal; assumption.
Qed.

(** What [get_theta] draws, in order; [theta6] is put together from a
    block drawn with bounds [(1, 2)], a block of zeros and a block drawn
    with bounds [(-1, -2)]. *)
Lemma get_theta_inv (d : nat) (use k : Z) (g g' : G)
    (theta1 theta2 theta3 theta4 theta5 theta6 : ndarray F) :
  SynEntner.get_theta d use k g
    = (inr (theta1, theta2, theta3, theta4, theta5, theta6), g') ->
  exists g1 g2 g3 g4 g5 g6 a b,
    np_random_uniform (of_int 1%Z) (of_int 2%Z) (d + 1) 1 g = (inr theta1, g1) /\
    np_random_uniform (of_int 1%Z) (of_int 2%Z) (d * 2 + 1) d g1 = (inr theta2, g2) /\
    np_random_uniform (of_int 1%Z) (of_int 2%Z) (d * 2) d g2 = (inr theta3, g3) /\
    np_random_uniform (of_int 1%Z) (of_int 2%Z) (d * 2 + 1) 1 g3 = (inr theta4, g4) /\
    np_random_uniform (of_int 1%Z) (of_int 2%Z) 2 1 g4 = (inr theta5, g5) /\
    np_random_uniform (of_int 1%Z) (of_int 2%Z) (if (use =? 0)%Z then 1 else 2) 1 g5
      = (inr a, g6) /\
    np_random_uniform (of_int (-1)%Z) (of_int (-2)%Z) (if (use =? 0)%Z then 1 else 2) 1 g6
      = (inr b, g') /\
    concatenate1 [a; np_zeros (if (use =? 0)%Z then 1 else 2) 1; b] = inr theta6.
Proof.
  intros Hrun. unfold SynEntner.get_theta in Hrun.
  do 6 inv_bind Hrun. apply ret_inr in Hrun. destruct Hrun as [Hrun ->].
  inversion Hrun; subst. clear Hrun.
  match goal with
  | Hb : (if (use =? 0)%Z then _ else _) _ = (inr _, _) |- _ =>
      destruct (use =? 0)%Z; inv_bind Hb; inv_bind Hb;
      apply lift_result_inr in Hb; destruct Hb as [Hb ->]
  end.
  all: do 8 eexists; repeat (split; [eassumption |]); eassumption.
Qed.

Lemma get_theta_shapes (d : nat) (use k : Z) (g g' : G)
    (theta1 theta2 theta3 theta4 theta5 theta6 : ndarray F) :
  SynEntner.get_theta d use k g
    = (inr (theta1, theta2, theta3, theta4, theta5, theta6), g') ->
  coefficient_shapes d use theta1 theta2 theta3 theta4 theta5 theta6.
Proof.
  intros Hrun. apply get_theta_inv in Hrun.
  destruct Hrun as (g1 & g2 & g3 & g4 & g5 & g6 & a & b & E1 & E2 & E3 & E4 & E5 & Ea & Eb & E6).
  apply np_random_uniform_inr in E1, E2, E3, E4, E5, Ea, Eb.
  apply concatenate1_3_inr in E6. destruct E6 as (_ & _ & ->).
  unfold coefficient_shapes, shape. rewrite nrows_tabulate, ncols_tabulate.
  destruct E1 as [-> ->], E2 as [-> ->], E3 as [-> ->], E4 as [-> ->], E5 as [-> ->].
  destruct Ea as [-> ->], Eb as [_ ->].
  repeat split.
Qed.

Lemma get_theta_middle (d : nat) (use k : Z) (g g' : G)
    (theta1 theta2 theta3 theta4 theta5 theta6 : ndarray F) :
  SynEntner.get_theta d use k g
    = (inr (theta1, theta2, theta3, theta4, theta5, theta6), g') ->
  forall i, i < nrows theta6 -> entry theta6 i 1 = of_int 0%Z.
Proof.
  intros Hrun. apply get_theta_inv in Hrun.
  destruct Hrun as (g1 & g2 & g3 & g4 & g5 & g6 & a & b & _ & _ & _ & _ & _ & Ea & Eb & E6).
  apply np_random_uniform_inr in Ea, Eb. destruct Ea as [Har Hac], Eb as [Hbr Hbc].
  apply concatenate1_3_inr in E6. destruct E6 as (_ & _ & ->).
  rewrite nrows_tabulate. intros i Hi.
  rewrite !entry_tabulate by (rewrite ?ncols_np_zeros; lia).
  rewrite Hac, ncols_np_zeros. cbn [Nat.ltb Nat.leb Nat.sub].
  unfold np_zeros. rewrite entry_tabulate by lia. reflexivity.
Qed.

Lemma get_theta_ranges (d : nat) (use k : Z) (g g' : G)
    (theta1 theta2 theta3 theta4 theta5 theta6 : ndarray F) :
  uniform_law F G ->
  SynEntner.get_theta d use k g
    = (inr (theta1, theta2, theta3, theta4, theta5, theta6), g') ->
  all_entries (between (of_int 1%Z) (of_int 2%Z)) theta1 /\
  all_entries (between (of_int 1%Z) (of_int 2%Z)) theta2 /\
  all_entries (between (of_int 1%Z) (of_int 2%Z)) theta3 /\
  all_entries (between (of_int 1%Z) (of_int 2%Z)) theta4 /\
  all_entries (between (of_int 1%Z) (of_int 2%Z)) theta5 /\
  forall i, i < nrows theta6 ->
    between (of_int 1%Z) (of_int 2%Z) (entry theta6 i 0) /\
    entry theta6 i 1 = of_int 0%Z /\
    between (of_int (-1)%Z) (of_int (-2)%Z) (entry theta6 i 2).
Proof.
  intros Hlaw Hrun. apply get_theta_inv in Hrun.
  destruct Hrun as (g1 & g2 & g3 & g4 & g5 & g6 & a & b & E1 & E2 & E3 & E4 & E5 & Ea & Eb & E6).
  apply (uniform_entries _ _ _ _ _ _ _ (fun g0 => proj1 (Hlaw g0))) in E1, E2, E3, E4, E5, Ea.
  apply (uniform_entries _ _ _ _ _ _ _ (fun g0 => proj2 (Hlaw g0))) in Eb.
  destruct E1 as (_ & _ & E1), E2 as (_ & _ & E2), E3 as (_ & _ & E3).
  destruct E4 as (_ & _ & E4), E5 as (_ & _ & E5).
  destruct Ea as (Har & Hac & Ea), Eb as (Hbr & Hbc & Eb).
  repeat (split; [assumption |]).
  apply concatenate1_3_inr in E6. destruct E6 as (_ & _ & ->).
  rewrite nrows_tabulate. intros i Hi.
  rewrite !entry_tabulate by (rewrite ?ncols_np_zeros; lia).
  rewrite Hac, ncols_np_zeros. cbn [Nat.ltb Nat.leb Nat.sub].
  split; [apply Ea; lia | split; [| apply Eb; lia]].
  unfold np_zeros. rewrite entry_tabulate by lia. reflexivity.
Qed.
End Samplers.

Ltac destruct_tuple x :=
  lazymatch type of x with
  | prod _ _ =>
      let a := fresh "a" in
      let b := fresh "b" in
      destruct x as [a b]; destruct_tuple a
  | _ => idtac
  end.

Ltac inv_bind' H :=
  let x := fresh "x" in
  let s := fresh "s" in
  let H1 := fresh "Hstep" in
  apply bind_inr in H; destruct H as (x & s & H1 & H); destruct_tuple x; cbv beta iota in H.

(** ** The split *)
Lemma map_nth_idx {B : Type} (f : nat -> B) (idx : list nat) :
  map (fun i => f (nth i idx 0)) (seq 0 (length idx)) = map f idx.
Proof.
  rewrite <- (map_map (fun i => nth i idx 0) f). rewrite map_nth_seq. reflexivity.
Qed.

Lemma column0_take {A : Type} `{Default A} (a : ndarray A) (idx : list nat) (s : Series A) :
  Series_of_column0 (take a idx) = inr s ->
  0 < ncols a /\ s = map (fun r => entry a r 0) idx.
Proof.
  unfold Series_of_column0, take. rewrite ncols_tabulate.
  destruct (0 <? ncols a) eqn:E; intros Hs; [| discriminate Hs].
  apply Nat.ltb_lt in E. split; [exact E |]. injection Hs as <-.
  unfold column. rewrite nrows_tabulate.
  rewrite <- (map_nth_idx (fun r => entry a r 0) idx).
  apply map_ext_in. intros i Hi. apply in_seq in Hi.
  rewrite entry_tabulate by lia. reflexivity.
Qed.

Section SplitLemmas.
Context {F G : Type} {SF : Scalar F} {RS : RandomState F G}.

End SplitLemmas.

Ltac inv1 H x s Hx :=
  apply bind_inr in H; destruct H as (x & s & Hx & H); cbv beta iota in H.

Ltac inv_lift1 H x Hx :=
  let s := fresh "s" in
  let E := fresh "E" in
  apply bind_inr in H; destruct H as (x & s & Hx & H); cbv beta iota in H;
  apply lift_result_inr in Hx; destruct Hx as [Hx E]; subst s.

Lemma label_features_values {F : Type}
    (features : ndarray F) (d : nat) (x : DataFrame F) :
  SynEntner.label_features features d = inr x -> values x = features.
Proof.
  unfold SynEntner.label_features, set_columns. cbn [values columns].
  destruct (_ =? ncols features); [| discriminate].
  cbn [values columns]. destruct (_ =? ncols features); [| discriminate].
  intros Hx. injection Hx as <-. reflexivity.
Qed.

Section Dataset.
Context {F G : Type} {SF : Scalar F} {SP : Special F} {RS : RandomState F G}.

Lemma train_test_split_inv (features : ndarray F) (t : ndarray Z) (y : ndarray F)
    (e : ndarray Z) (y_0 y_1 : ndarray F) (test_size : F) (g g' : G)
    (f1 f2 : ndarray F) (t1 t2 : ndarray Z) (y1 y2 : ndarray F) (e1 e2 : ndarray Z)
    (a1 a2 b1 b2 : ndarray F) :
  train_test_split features t y e y_0 y_1 test_size g
    = (inr (f1, f2, t1, t2, y1, y2, e1, e2, a1, a2, b1, b2), g') ->
  exists train test,
    split_indices (nrows features) test_size g = (inr (train, test), g') /\
    f1 = take features train /\ f2 = take features test /\
    t1 = take t train /\ t2 = take t test /\
    y1 = take y train /\ y2 = take y test /\
    e1 = take e train /\ e2 = take e test /\
    a1 = take y_0 train /\ a2 = take y_0 test /\
    b1 = take y_1 train /\ b2 = take y_1 test.
Proof.
  unfold train_test_split. destruct (forallb _ _); [| discriminate].
  intros Hrun. apply bind_inr in Hrun. destruct Hrun as ([train test] & g1 & Hs & Hrun).
  apply ret_inr in Hrun. destruct Hrun as [Hrun ->].
  exists train, test. split; [exact Hs |].
  inversion Hrun. repeat split.
Qed.

Lemma get_train_test_data_inv (n d : nat) (use k : Z) (g g1 g2 g3 g' : G)
    (u1 u2 u3 u4 theta1 theta2 theta3 theta4 theta5 theta6 : ndarray F)
    (x1 x2 x3 : ndarray F) (t e : ndarray Z) (y y_0 y_1 : ndarray F) (data : dataset F) :
  SynEntner.get_u n d g = (inr (u1, u2, u3, u4), g1) ->
  SynEntner.get_theta d use k g1
    = (inr (theta1, theta2, theta3, theta4, theta5, theta6), g2) ->
  SynEntner.get_data u1 u2 u3 u4 theta1 theta2 theta3 theta4 theta5 theta6 n d use k g2
    = (inr (x1, x2, x3, t, e, y, y_0, y_1), g3) ->
  SynEntner.get_train_test_data n d use k g = (inr data, g') ->
  exists diff features train test,
    np_sub y_1 y_0 = inr diff /\
    true_ate data = np_round (np_mean diff) 6 /\
    concatenate1 [x1; x2; x3] = inr features /\
    split_indices (nrows features) (lit 2 10) g3 = (inr (train, test), g') /\
    rows_taken features t y e y_0 y_1 train
      (x_train data) (t_train data) (y_train data) (e_train data)
      (y_0_train data) (y_1_train data) /\
    rows_taken features t y e y_0 y_1 test
      (x_test data) (t_test data) (y_test data) (e_test data)
      (y_0_test data) (y_1_test data).
Proof.
  intros Hu Ht Hd Hrun. unfold SynEntner.get_train_test_data in Hrun.
  unfold bind at 1 in Hrun. rewrite Hu in Hrun.
  unfold bind at 1 in Hrun. rewrite Ht in Hrun.
  unfold bind at 1 in Hrun. rewrite Hd in Hrun.
  inv_lift1 Hrun diff Hdiff.
  inv_lift1 Hrun features Hfeat.
  inv1 Hrun sp gs Hsp.
  destruct sp as [[[[[[[[[[[f1 f2] t1] t2] y1 ] y2] e1] e2] a1] a2] b1] b2].
  apply train_test_split_inv in Hsp.
  destruct Hsp as (train & test & Hidx & -> & -> & -> & -> & -> & -> & -> & -> & -> & -> & -> & ->).
  inv_lift1 Hrun xtr Hxtr. apply label_features_values in Hxtr.
  inv_lift1 Hrun ttr Httr. apply column0_take in Httr. destruct Httr as [_ ->].
  inv_lift1 Hrun ytr Hytr. apply column0_take in Hytr. destruct Hytr as [_ ->].
  inv_lift1 Hrun etr Hetr. apply column0_take in Hetr. destruct Hetr as [_ ->].
  inv_lift1 Hrun atr Hatr. apply column0_take in Hatr. destruct Hatr as [_ ->].
  inv_lift1 Hrun btr Hbtr. apply column0_take in Hbtr. destruct Hbtr as [_ ->].
  inv_lift1 Hrun xte Hxte. apply label_features_values in Hxte.
  inv_lift1 Hrun tte Htte. apply column0_take in Htte. destruct Htte as [_ ->].
  inv_lift1 Hrun yte Hyte. apply column0_take in Hyte. destruct Hyte as [_ ->].
  inv_lift1 Hrun ete Hete. apply column0_take in Hete. destruct Hete as [_ ->].
  inv_lift1 Hrun ate Hate. apply column0_take in Hate. destruct Hate as [_ ->].
  inv_lift1 Hrun bte Hbte. apply column0_take in Hbte. destruct Hbte as [_ ->].
  apply ret_inr in Hrun. destruct Hrun as [-> ->].
  exists diff, features, train, test. cbn.
  unfold rows_taken. cbn. repeat split; first [assumption | reflexivity].
Qed.
End Dataset.

(* ================================================================== *)
(** * Exact arithmetic *)

Import Exact.

Lemma of_int_Qc_0 : of_int 0%Z = 0%Qc.
Proof. reflexivity. Qed.

Lemma of_int_Qc_1 : of_int 1%Z = 1%Qc.
Proof. reflexivity. Qed.

(** ** Sums and means of rationals *)
Lemma fold_left_Qcplus (l : list Qc) (a : Qc) :
  fold_left Qcplus l a = (a + fold_left Qcplus l 0)%Qc.
Proof.
  revert a. induction l as [| x l IH]; intros a; simpl.
  - ring.
  - rewrite (IH (a + x)%Qc), (IH (0 + x)%Qc). ring.
Qed.

Lemma fsum_cons_Qc (x : Qc) (l : list Qc) : fsum (x :: l) = (x + fsum l)%Qc.
Proof.
  unfold fsum. cbn [fold_left fadd of_int Scalar_Qc].
  rewrite fold_left_Qcplus. change (Q2Qc (inject_Z 0)) with 0%Qc. ring.
Qed.

Lemma fsum_nil_Qc : fsum (@nil Qc) = 0%Qc.
Proof. reflexivity. Qed.


Lemma fsum_constant_Qc (c : Qc) (l : list Qc) :
  (forall x, In x l -> x = c) -> fsum l = (of_int (Z.of_nat (length l)) * c)%Qc.
Proof.
  induction l as [| x l IH]; intros Hl.
  - rewrite fsum_nil_Qc. cbn [length Z.of_nat of_int Scalar_Qc].
    change (Q2Qc (inject_Z 0)) with 0%Qc. ring.
  - rewrite fsum_cons_Qc, IH by (intros z Hz; apply Hl; right; exact Hz).
    rewrite (Hl x (or_introl eq_refl)).
    cbn [length of_int Scalar_Qc]. rewrite Nat2Z.inj_succ.
    assert (E : Q2Qc (inject_Z (Z.succ (Z.of_nat (length l))))
                = (1 + Q2Qc (inject_Z (Z.of_nat (length l))))%Qc).
    { unfold Qcplus. apply Q2Qc_eq_iff. cbn [this Q2Qc]. rewrite Qred_correct.
      unfold Z.succ. rewrite inject_Z_plus. change (this 1%Qc) with 1%Q.
      change (inject_Z 1) with 1%Q. rewrite Qred_correct. ring. }
    rewrite E. ring.
Qed.

Lemma of_int_nonzero_Qc (n : nat) : 0 < n -> of_int (Z.of_nat n) <> 0%Qc.
Proof.
  intros Hn E. cbn [of_int Scalar_Qc] in E.
  change 0%Qc with (Q2Qc 0) in E. apply Q2Qc_eq_iff in E.
  unfold Qeq in E. simpl in E. lia.
Qed.

Lemma mean_constant_Qc (c : Qc) (l : list Qc) :
  l <> [] -> (forall x, In x l -> x = c) -> mean_list l = c.
Proof.
  intros Hne Hl. unfold mean_list. rewrite (fsum_constant_Qc c l Hl).
  cbn [fdiv Scalar_Qc].
  assert (Hn : of_int (Z.of_nat (length l)) <> 0%Qc).
  { apply of_int_nonzero_Qc. destruct l; [contradiction | simpl; lia]. }
  field. exact Hn.
Qed.

Lemma concat_singletons {A B : Type} (f : A -> B) (l : list A) :
  concat (map (fun x => [f x]) l) = map f l.
Proof. induction l as [| x l IH]; simpl; [reflexivity | rewrite IH; reflexivity]. Qed.

Lemma flatten_one_column {A : Type} `{Default A} (a : ndarray A) :
  ncols a = 1 -> flatten a = column a 0.
Proof.
  intros Hc. unfold flatten, column, row. rewrite Hc. cbn [seq map].
  apply concat_singletons.
Qed.

Section OutcomeShape.
Context {F : Type} {SF : Scalar F}.

Lemma outcome_shape (x2 u4 w theta4 noise c p y : ndarray F) :
  concatenate1 [x2; u4; w] = inr c ->
  np_dot c theta4 = inr p ->
  np_add p noise = inr y ->
  nrows noise = nrows w -> ncols noise = 1 -> ncols theta4 = 1 ->
  nrows x2 = nrows w /\ nrows y = nrows w /\ ncols y = 1.
Proof.
  intros Hc Hp Hy Hnr Hnc Htc.
  apply concatenate1_3_inr in Hc. destruct Hc as (Hxu & Huw & ->).
  apply np_dot_inr in Hp. rewrite nrows_tabulate, ncols_tabulate in Hp.
  destruct Hp as (Hk & ->).
  unfold np_add in Hy. rewrite broadcast2_same in Hy
    by (rewrite ?nrows_tabulate, ?ncols_tabulate; lia).
  injection Hy as <-. rewrite !nrows_tabulate, !ncols_tabulate.
  split; [lia | split; [lia | exact Htc]].
Qed.

Lemma split_indices_nonempty {G : Type} {RS : RandomState F G}
    (n : nat) (test_size : F) (g g' : G) (r : list nat * list nat) :
  split_indices n test_size g = (inr r, g') -> 0 < n.
Proof.
  unfold split_indices. intros Hrun.
  apply bind_inr in Hrun. destruct Hrun as ([n_train n_test] & g1 & Hsz & _).
  apply lift_result_inr in Hsz. destruct Hsz as [Hsz _].
  unfold split_sizes in Hsz.
  destruct (n - _ =? 0) eqn:E; [discriminate Hsz |]. apply Nat.eqb_neq in E. lia.
Qed.
End OutcomeShape.

Section ExactOutcomes.
Context {G : Type} {SP : Special Qc} {RS : RandomState Qc G}.

(** In exact arithmetic the two potential outcomes of a row differ by the
    last coefficient of [theta4]. *)
Lemma outcomes_exact
    (u1 u2 u3 u4 theta1 theta2 theta3 theta4 theta5 theta6 : ndarray Qc)
    (n d : nat) (use k : Z) (g g' : G)
    (x1 x2 x3 : ndarray Qc) (t e : ndarray Z) (y y_0 y_1 : ndarray Qc) :
  nrows theta4 = 2 * d + 1 -> ncols theta4 = 1 ->
  SynEntner.get_data u1 u2 u3 u4 theta1 theta2 theta3 theta4 theta5 theta6 n d use k g
    = (inr (x1, x2, x3, t, e, y, y_0, y_1), g') ->
  nrows x2 = n /\ shape y_0 = (n, 1) /\ shape y_1 = (n, 1) /\
  forall i, i < n -> (entry y_1 i 0 - entry y_0 i 0)%Qc = entry theta4 (2 * d) 0.
Proof.
  intros Hr Hc Hrun.
  apply get_data_outcomes in Hrun.
  destruct Hrun as (z & c & c0 & c1 & p & p0 & p1 & _ & (Hc0 & Hp0 & Hy0)
                    & (Hc1 & Hp1 & Hy1) & Hzr & Hzc).
  assert (Hn0 : nrows (np_zeros (F:=Qc) n 1) = n) by apply nrows_tabulate.
  assert (Hn1 : nrows (np_ones (F:=Qc) n 1) = n) by apply nrows_tabulate.
  assert (Hs : nrows (scale (lit 1 10) z) = n) by (rewrite nrows_scale; exact Hzr).
  destruct (outcome_shape x2 u4 _ theta4 _ c0 p0 y_0 Hc0 Hp0 Hy0) as (Hx2 & Hy0r & Hy0c);
    try (rewrite ?Hn0; first [exact Hs | exact Hzc | exact Hc]).
  destruct (outcome_shape x2 u4 _ theta4 _ c1 p1 y_1 Hc1 Hp1 Hy1) as (_ & Hy1r & Hy1c);
    try (rewrite ?Hn1; first [exact Hs | exact Hzc | exact Hc]).
  rewrite Hn0 in Hx2, Hy0r. rewrite Hn1 in Hy1r.
  split; [exact Hx2 |]. unfold shape.
  split; [rewrite Hy0r, Hy0c; reflexivity |].
  split; [rewrite Hy1r, Hy1c; reflexivity |].
  intros i Hi.
  destruct (outcome_entry x2 u4 _ theta4 _ c0 p0 y_0 i Hc0 Hp0 Hy0) as (Hk0 & _ & _ & ->);
    try (rewrite ?Hn0; first [exact Hs | reflexivity | exact Hzc | exact Hc | exact Hi]).
  destruct (outcome_entry x2 u4 _ theta4 _ c1 p1 y_1 i Hc1 Hp1 Hy1) as (Hk1 & _ & _ & ->);
    try (rewrite ?Hn1; first [exact Hs | reflexivity | exact Hzc | exact Hc | exact Hi]).
  unfold np_zeros, np_ones. rewrite !entry_tabulate by lia.
  replace (ncols x2 + ncols u4) with (2 * d) by lia.
  rewrite of_int_Qc_0, of_int_Qc_1.
  cbn [fadd fmul Scalar_Qc]. ring.
Qed.

Lemma mean_difference_exact (y_0 y_1 diff : ndarray Qc) (n : nat) (c : Qc) :
  shape y_0 = (n, 1) -> shape y_1 = (n, 1) ->
  np_sub y_1 y_0 = inr diff ->
  shape diff = (n, 1) /\
  flatten diff = map (fun i => (entry y_1 i 0 - entry y_0 i 0)%Qc) (seq 0 n).
Proof.
  intros H0 H1 Hd. apply shape_inv in H0, H1.
  destruct H0 as [H0r H0c], H1 as [H1r H1c].
  unfold np_sub in Hd. rewrite broadcast2_same in Hd by lia.
  injection Hd as <-. unfold shape. rewrite nrows_tabulate, ncols_tabulate, H1r, H1c.
  split; [reflexivity |].
  rewrite flatten_one_column by reflexivity. unfold column. rewrite nrows_tabulate.
  apply map_ext_in. intros i Hi. apply in_seq in Hi.
  rewrite entry_tabulate by lia. rewrite H0r, H0c, !bidx_lt by lia. reflexivity.
Qed.

Lemma true_ate_exact (n d : nat) (use k : Z) (g g1 g2 g' : G)
    (u1 u2 u3 u4 theta1 theta2 theta3 theta4 theta5 theta6 : ndarray Qc)
    (data : dataset Qc) :
  SynEntner.get_u n d g = (inr (u1, u2, u3, u4), g1) ->
  SynEntner.get_theta d use k g1
    = (inr (theta1, theta2, theta3, theta4, theta5, theta6), g2) ->
  SynEntner.get_train_test_data n d use k g = (inr data, g') ->
  true_ate data = np_round (entry theta4 (2 * d) 0) 6.
Proof.
  intros Hu Ht Hrun.
  pose proof (get_theta_shapes _ _ _ _ _ _ _ _ _ _ _ Ht) as (_ & _ & _ & H4 & _).
  apply shape_inv in H4. destruct H4 as [H4r H4c].
  assert (Hd : exists out g3,
             SynEntner.get_data u1 u2 u3 u4 theta1 theta2 theta3 theta4 theta5 theta6
               n d use k g2 = (inr out, g3)).
  { unfold SynEntner.get_train_test_data in Hrun.
    unfold bind at 1 in Hrun. rewrite Hu in Hrun.
    unfold bind at 1 in Hrun. rewrite Ht in Hrun.
    apply bind_inr in Hrun. destruct Hrun as (out & g3 & Hd & _). exists out, g3. exact Hd. }
  destruct Hd as ([[[[[[[x1 x2] x3] t] e] y] y_0] y_1] & g3 & Hd).
  destruct (get_train_test_data_inv _ _ _ _ _ _ _ _ _ _ _ _ _ _ _ _ _ _ _ _ _ _ _ _ _ _ _ _
              Hu Ht Hd Hrun) as (diff & features & train & test & Hdiff & -> & Hfeat & Hsp & _).
  apply split_indices_nonempty in Hsp.
  apply concatenate1_3_inr in Hfeat. destruct Hfeat as (Hx12 & _ & ->).
  rewrite nrows_tabulate in Hsp.
  assert (H4r' : nrows theta4 = 2 * d + 1) by lia.
  destruct (outcomes_exact _ _ _ _ _ _ _ _ _ _ _ _ _ _ _ _ _ _ _ _ _ _ _ _
              H4r' H4c Hd) as (Hx2 & Hy0 & Hy1 & Hdiffs).
  destruct (mean_difference_exact _ _ _ _ 0%Qc Hy0 Hy1 Hdiff) as (_ & Hflat).
  f_equal. unfold np_mean. rewrite Hflat.
  apply mean_constant_Qc.
  - destruct n as [| n']; [lia | discriminate].
  - intros v Hv. apply in_map_iff in Hv. destruct Hv as (i & <- & Hi).
    apply in_seq in Hi. apply Hdiffs. lia.
Qed.
End ExactOutcomes.

Lemma lit_fifth_Qc : lit 2 10 = Q2Qc (1 # 5).
Proof. apply Qc_is_canon. vm_compute. reflexivity. Qed.

Lemma ceil_fifth_Qc (n : nat) :
  n <= 5 * Z.to_nat (fceil (fmul (lit 2 10) (of_int (Z.of_nat n)))) < n + 5.
Proof.
  rewrite lit_fifth_Qc. cbn [fceil fmul of_int Scalar_Qc]. unfold Qcmult.
  cbn [this Q2Qc].
  assert (E : (Qred (Qred (1 # 5) * Qred (inject_Z (Z.of_nat n))) == Z.of_nat n # 5)%Q).
  { rewrite !Qred_correct. unfold Qeq, Qmult, inject_Z. cbn [Qnum Qden]. lia. }
  rewrite (Qceiling_comp _ _ E).
  pose proof (Qle_ceiling (Z.of_nat n # 5)) as Hle.
  pose proof (Qceiling_lt (Z.of_nat n # 5)) as Hlt.
  unfold Qle, Qlt, inject_Z in Hle, Hlt. cbn [Qnum Qden] in Hle, Hlt.
  lia.
Qed.



Section ExactDataset.
Context {G : Type} {SP : Special Qc} {RS : RandomState Qc G}.

End ExactDataset.

Lemma for_each_app {S A L : Type} (l1 l2 : list A) (body : A -> L -> SE S L) (acc : L) (s : S) :
  for_each (l1 ++ l2) body acc s = bind (for_each l1 body acc) (fun a => for_each l2 body a) s.
Proof.
  revert acc s. induction l1 as [| x l1 IH]; intros acc s; cbn [app for_each].
  - reflexivity.
  - unfold bind in *. destruct (body x acc s) as [[err | acc1] s1]; [reflexivity | apply IH].
Qed.

Lemma print_inr {G F : Type} (o : output F) (w w' : world G F) (u : unit) :
  print o w = (inr u, w') ->
  rng w' = rng w /\ files w' = files w /\ stdout w' = stdout w ++ [o].
Proof. unfold print. intros Hp. injection Hp as _ <-. repeat split. Qed.

Lemma liftR_inr {G F X : Type} (m : SE G X) (w w' : world G F) (x : X) :
  liftR m w = (inr x, w') ->
  m (rng w) = (inr x, rng w') /\ files w' = files w /\ stdout w' = stdout w.
Proof.
  unfold liftR. destruct (m (rng w)) as [r g1]. intros Hm. injection Hm as -> <-.
  repeat split.
Qed.

Lemma cell_index_inj (L r i r' i' : nat) :
  i < L -> i' < L -> r * L + i = r' * L + i' -> r = r' /\ i = i'.
Proof.
  intros Hi Hi' E.
  assert (Hr : r = r').
  { destruct (Nat.lt_trichotomy r r') as [Hlt | [Heq | Hgt]]; [| exact Heq |]; nia. }
  subst r'. split; [reflexivity | lia].
Qed.

Section Filled.
Context {F V : Type} {SF : Scalar F}.

Lemma filled_zeros (R L : nat) (proj : V -> F) : filled R L proj [] (np_zeros R L).
Proof.
  unfold filled, shape. rewrite nrows_np_zeros, ncols_np_zeros. split; [reflexivity |].
  intros r i Hr Hi. unfold np_zeros. rewrite entry_tabulate by assumption.
  destruct (r * L + i); reflexivity.
Qed.

Lemma filled_setitem (R L : nat) (proj : V -> F) (vals : list V) (m m' : ndarray F)
    (r i : nat) (v : V) :
  filled R L proj vals m -> i < L -> length vals = r * L + i ->
  setitem m r i (proj v) = inr m' ->
  filled R L proj (vals ++ [v]) m'.
Proof.
  intros [Hs Hm] Hi Hlen Hset. apply shape_inv in Hs. destruct Hs as [Hsr Hsc].
  unfold setitem in Hset. destruct ((r <? nrows m) && (i <? ncols m)) eqn:E;
    [| discriminate Hset].
  injection Hset as <-. unfold filled, shape.
  rewrite nrows_tabulate, ncols_tabulate, Hsr, Hsc. split; [reflexivity |].
  intros r' i' Hr' Hi'. rewrite entry_tabulate by assumption.
  destruct ((r' =? r) && (i' =? i)) eqn:Ecell.
  - apply andb_prop in Ecell. destruct Ecell as [Er Ei].
    apply Nat.eqb_eq in Er, Ei. subst r' i'.
    rewrite <- Hlen, nth_error_app2 by lia. rewrite Nat.sub_diag. reflexivity.
  - rewrite Hm by assumption.
    assert (Hne : r' * L + i' <> r * L + i).
    { intros Eidx. apply cell_index_inj in Eidx; [| assumption | assumption].
      destruct Eidx as [-> ->]. rewrite !Nat.eqb_refl in Ecell. discriminate Ecell. }
    destruct (Nat.lt_ge_cases (r' * L + i') (length vals)) as [Hlt | Hge].
    + rewrite nth_error_app1 by exact Hlt. reflexivity.
    + assert (Hn1 : nth_error vals (r' * L + i') = None) by (apply nth_error_None; lia).
      assert (Hn2 : nth_error (vals ++ [v]) (r' * L + i') = None).
      { apply nth_error_None. rewrite length_app. simpl. lia. }
      rewrite Hn1, Hn2. reflexivity.
Qed.
End Filled.

(** ** The two nested loops of a trial runner *)
Section Grid.
Context {G F V Acc : Type}.
Variable cell : nat -> SE G V.
Variable dims : list nat.
Variable R : nat.
Variable body : nat -> nat * nat -> Acc -> SE (world G F) Acc.
Variable Inv : list V -> Acc -> Prop.
Variable before : nat -> output F.
Variable after : output F.

Hypothesis Hbody :
  forall r i d acc w acc' w' vals,
    r < R -> nth_error dims i = Some d ->
    length vals = r * length dims + i -> Inv vals acc ->
    body r (i, d) acc w = (inr acc', w') ->
    exists v, cell d (rng w) = (inr v, rng w') /\ files w' = files w /\
              Inv (vals ++ [v]) acc'.

Lemma inner_loop (r : nat) (ds : list nat) :
  r < R ->
  forall i0 acc w acc' w' vals,
    (forall j d, nth_error ds j = Some d -> nth_error dims (i0 + j) = Some d) ->
    length vals = r * length dims + i0 -> Inv vals acc ->
    for_each (combine (seq i0 (length ds)) ds) (body r) acc w = (inr acc', w') ->
    exists vals',
      for_each ds (fun d acc => v <- cell d ;; ret (acc ++ [v])) vals (rng w)
        = (inr vals', rng w') /\
      files w' = files w /\ length vals' = length vals + length ds /\ Inv vals' acc'.
Proof.
  intros Hr. induction ds as [| d ds IH]; intros i0 acc w acc' w' vals Hds Hlen Hinv Hrun.
  - apply ret_inr in Hrun. destruct Hrun as [-> ->].
    exists vals. cbn [for_each length]. repeat split; [lia | exact Hinv].
  - cbn [length seq combine for_each] in Hrun.
    apply bind_inr in Hrun. destruct Hrun as (acc1 & w1 & Hstep & Hrun).
    destruct (Hbody r i0 d acc w acc1 w1 vals Hr) as (v & Hv & Hf & Hinv1);
      [rewrite <- (Nat.add_0_r i0); apply Hds; reflexivity | exact Hlen | exact Hinv
       | exact Hstep |].
    destruct (IH (S i0) acc1 w1 acc' w' (vals ++ [v])) as (vals' & Hrest & Hf' & Hl' & Hinv');
      [ intros j d0 Hj; replace (S i0 + j) with (i0 + S j) by lia; apply Hds; exact Hj
      | rewrite length_app; simpl; lia | exact Hinv1 | exact Hrun |].
    exists vals'. cbn [for_each].
    unfold bind at 1. unfold bind at 1. rewrite Hv. cbn [ret].
    split; [exact Hrest |]. split; [congruence |].
    split; [| exact Hinv']. rewrite Hl', length_app. simpl. lia.
Qed.

Lemma outer_loop (cnt : nat) :
  forall r0 acc w acc' w' vals,
    r0 + cnt <= R ->
    length vals = r0 * length dims -> Inv vals acc ->
    for_each (seq r0 cnt)
      (fun r acc =>
         print (before r) ;;;
         acc <- for_each (enumerate dims) (body r) acc ;;
         print after ;;; ret acc) acc w = (inr acc', w') ->
    exists vals',
      for_each (flat_map (fun _ => dims) (seq r0 cnt))
        (fun d acc => v <- cell d ;; ret (acc ++ [v])) vals (rng w)
        = (inr vals', rng w') /\
      files w' = files w /\ length vals' = (r0 + cnt) * length dims /\ Inv vals' acc'.
Proof.
  induction cnt as [| cnt IH]; intros r0 acc w acc' w' vals HR Hlen Hinv Hrun.
  - apply ret_inr in Hrun. destruct Hrun as [-> ->].
    exists vals. cbn [seq flat_map for_each]. repeat split; [lia | exact Hinv].
  - cbn [seq for_each] in Hrun.
    apply bind_inr in Hrun. destruct Hrun as (acc1 & w1 & Hstep & Hrun).
    apply bind_inr in Hstep. destruct Hstep as (u1 & wa & Hp1 & Hstep).
    apply bind_inr in Hstep. destruct Hstep as (acc2 & wb & Hin & Hstep).
    apply bind_inr in Hstep. destruct Hstep as (u2 & wc & Hp2 & Hstep).
    apply ret_inr in Hstep. destruct Hstep as [-> ->].
    apply print_inr in Hp1, Hp2.
    destruct Hp1 as (Hp1r & Hp1f & _), Hp2 as (Hp2r & Hp2f & _).
    unfold enumerate in Hin.
    destruct (inner_loop r0 dims ltac:(lia) 0 acc wa acc2 wb vals) as
      (vals1 & Hcells & Hf1 & Hl1 & Hinv1);
      [ intros j d Hj; exact Hj | lia | exact Hinv | exact Hin |].
    destruct (IH (S r0) acc2 wc acc' w' vals1) as (vals' & Hrest & Hf' & Hl' & Hinv');
      [lia | rewrite Hl1, Hlen; simpl; lia | exact Hinv1 | exact Hrun |].
    rewrite Hp1r in Hcells. rewrite Hp2r in Hrest.
    exists vals'. cbn [seq flat_map]. rewrite for_each_app.
    unfold bind at 1. rewrite Hcells.
    split; [exact Hrest |]. split; [congruence |].
    split; [| exact Hinv']. rewrite Hl'. lia.
Qed.
End Grid.

Lemma np_savetxt_inr {G F : Type} (name : string) (X : ndarray F) (delim : string)
    (w w' : world G F) (u : unit) :
  np_savetxt name X delim w = (inr u, w') ->
  rng w' = rng w /\ stdout w' = stdout w /\
  files w' = files w ++ [mk_saved_file name delim EmptyString X].
Proof. unfold np_savetxt. intros Hp. injection Hp as _ <-. repeat split. Qed.

(** One step of the inversion of a run inside the world. *)
Ltac inv_world H :=
  lazymatch type of H with
  | bind (liftR _) _ _ = (inr _, _) =>
      let x := fresh "x" in
      let w1 := fresh "w" in
      let Hx := fresh "Hrun" in
      let Hf := fresh "Hfiles" in
      let Ho := fresh "Hout" in
      apply bind_inr in H; destruct H as (x & w1 & Hx & H);
      apply liftR_inr in Hx; destruct Hx as (Hx & Hf & Ho);
      destruct_tuple x; cbv beta iota in H
  | bind (lift_result _) _ _ = (inr _, _) =>
      let x := fresh "x" in
      let w1 := fresh "w" in
      let Hx := fresh "Hpure" in
      let E := fresh "E" in
      apply bind_inr in H; destruct H as (x & w1 & Hx & H);
      apply lift_result_inr in Hx; destruct Hx as [Hx E]; subst w1;
      cbv beta iota in H
  | bind (print _) _ _ = (inr _, _) =>
      let x := fresh "x" in
      let w1 := fresh "w" in
      let Hx := fresh "Hprint" in
      let Hr := fresh "Hrng" in
      let Hf := fresh "Hfiles" in
      let Ho := fresh "Hout" in
      apply bind_inr in H; destruct H as (x & w1 & Hx & H);
      apply print_inr in Hx; destruct Hx as (Hr & Hf & Ho);
      cbv beta iota in H
  | bind (np_savetxt _ _ _) _ _ = (inr _, _) =>
      let x := fresh "x" in
      let w1 := fresh "w" in
      let Hx := fresh "Hsave" in
      let Hr := fresh "Hrng" in
      let Hf := fresh "Hfiles" in
      let Ho := fresh "Hout" in
      apply bind_inr in H; destruct H as (x & w1 & Hx & H);
      apply np_savetxt_inr in Hx; destruct Hx as (Hr & Ho & Hf);
      cbv beta iota in H
  end.

(** Replay the inverted steps of a run on the random stream. *)
Ltac replay :=
  repeat (first
    [ erewrite bind_run_inr by eassumption
    | erewrite bind_lift_inr by eassumption ];
    cbv beta iota).

Section EntnerRunner.
Context {F G : Type} {SF : Scalar F} {SP : Special F} {SQ : Sqrt F}
        {RS : RandomState F G} {IT : IndependenceTest F G}.

Lemma entner_body (args : SynEntner.Args) (r i d : nat)
    (acc acc' : ndarray F * ndarray F * ndarray F) (w w' : world G F)
    (vals : list (F * F * F)) :
  length vals = r * 3 + i -> i < 3 ->
  entner_inv (SynEntner.nr args) vals acc ->
  (let '(pvalue_empty, pvalue_x3, pvalue_x2x3) := acc in
   print (OutInt (Z.of_nat (2 * d + 1))) ;;;
   data <- liftR (SynEntner.get_train_test_data (SynEntner.no args) d
                    (SynEntner.use_t_in_e args) (SynEntner.ne args)) ;;
   x2_n <- liftR (StandardScaler_fit_transform
                    (values (select (x_train data) ["x2"%string]))) ;;
   x3_n <- liftR (StandardScaler_fit_transform
                    (values (select (x_train data) ["x3"%string]))) ;;
   y_n <- liftR (StandardScaler_fit_transform (reshape_column (y_train data))) ;;
   let t := reshape_column (t_train data) in
   let e := reshape_column (e_train data) in
   v <- liftR (RCoT e y_n (astype_float t)) ;;
   pvalue_empty <- lift_result (setitem pvalue_empty r i v) ;;
   c <- lift_result (concatenate1 [x3_n; astype_float t]) ;;
   v <- liftR (RCoT e y_n c) ;;
   pvalue_x3 <- lift_result (setitem pvalue_x3 r i v) ;;
   c <- lift_result (concatenate1 [x2_n; x3_n; astype_float t]) ;;
   v <- liftR (RCoT e y_n c) ;;
   pvalue_x2x3 <- lift_result (setitem pvalue_x2x3 r i v) ;;
   ret (pvalue_empty, pvalue_x3, pvalue_x2x3)) w = (inr acc', w') ->
  exists v, SynEntner.cell args d (rng w) = (inr v, rng w') /\ files w' = files w /\
            entner_inv (SynEntner.nr args) (vals ++ [v]) acc'.
Proof.
  intros Hlen Hi (H1 & H2 & H3) Hrun. destruct acc as [[pe p3] p23]. cbn [fst snd] in *.
  repeat inv_world Hrun. apply ret_inr in Hrun. destruct Hrun as [-> ->].
  repeat match goal with
         | Hr : rng ?a = rng ?b |- _ => rewrite Hr in *; clear Hr
         end.
  match goal with
  | Ha : RCoT _ _ (astype_float _) _ = (inr ?v1, _),
    Hb : concatenate1 [?x3; _] = inr ?c3,
    Hc : RCoT _ _ ?c3 _ = (inr ?v2, _),
    Hd : concatenate1 [_; ?x3; _] = inr ?c23,
    He : RCoT _ _ ?c23 _ = (inr ?v3, _) |- _ => exists (v1, v2, v3)
  end.
  split; [| split].
  - unfold SynEntner.cell. replay. reflexivity.
  - congruence.
  - unfold entner_inv. cbn [fst snd].
    split; [| split].
    + eapply (filled_setitem _ _ (fun v => fst (fst v)));
        [exact H1 | exact Hi | exact Hlen | cbn [fst snd]; eassumption].
    + eapply (filled_setitem _ _ (fun v => snd (fst v)));
        [exact H2 | exact Hi | exact Hlen | cbn [fst snd]; eassumption].
    + eapply (filled_setitem _ _ (fun v => snd v));
        [exact H3 | exact Hi | exact Hlen | cbn [fst snd]; eassumption].
Qed.
End EntnerRunner.

Section StandardError.
Context {F : Type} {SF : Scalar F} {SQ : Sqrt F}.

Lemma var_list_population (l : list F) : fsqrt (var_list 0 l) = population_std l.
Proof.
  unfold var_list, population_std, mean_list at 3. rewrite length_map, Nat.sub_0_r.
  reflexivity.
Qed.

Lemma standard_error_reported (R L : nat) (m s : ndarray F) :
  reshape_row (np_std_axis0 0 m) L = inr s ->
  ncols m = L ->
  reports_standard_error R m (div_scalar s (fsqrt (of_int (Z.of_nat R)))).
Proof.
  unfold reshape_row. destruct (_ =? L); [| discriminate].
  intros Hs Hc. injection Hs as <-. subst L.
  unfold reports_standard_error, shape, div_scalar, map_array.
  rewrite nrows_tabulate, ncols_tabulate. cbn [nrows rows ncols length].
  split; [reflexivity |].
  intros j Hj. rewrite entry_tabulate by (cbn [nrows rows ncols length]; lia).
  f_equal. unfold entry. cbn [rows nth]. unfold np_std_axis0.
  rewrite (nth_map_seq (fun j => fsqrt (var_list 0 (column m j)))) by exact Hj.
  apply var_list_population.
Qed.
End StandardError.

Section EntnerMain.
Context {F G : Type} {SF : Scalar F} {SP : Special F} {SQ : Sqrt F}
        {RS : RandomState F G} {IT : IndependenceTest F G}.

Lemma entner_main (args : SynEntner.Args) (w w' : world G F) :
  SynEntner.main args w = (inr tt, w') ->
  exists (vals : list (F * F * F)) (pvalue_empty pvalue_x3 pvalue_x2x3 : ndarray F)
         (avg1 avg2 avg3 std1 std2 std3 : ndarray F) (pre : list (output F)),
    run_cells (SynEntner.cell args) (SynEntner.nr args) SynEntner.number_dimensions_list
      (rng w) = (inr vals, rng w') /\
    filled (SynEntner.nr args) 3 (fun v => fst (fst v)) vals pvalue_empty /\
    filled (SynEntner.nr args) 3 (fun v => snd (fst v)) vals pvalue_x3 /\
    filled (SynEntner.nr args) 3 (fun v => snd v) vals pvalue_x2x3 /\
    files w' = files w ++
      [mk_saved_file "syn-entner/pvalue_empty.csv" "," EmptyString pvalue_empty;
       mk_saved_file "syn-entner/pvalue_x3.csv" "," EmptyString pvalue_x3;
       mk_saved_file "syn-entner/pvalue_x2x3.csv" "," EmptyString pvalue_x2x3] /\
    stdout w' = pre ++ [OutArray avg1; OutArray avg2; OutArray avg3;
                        OutArray std1; OutArray std2; OutArray std3] /\
    reports_standard_error (SynEntner.nr args) pvalue_empty std1 /\
    reports_standard_error (SynEntner.nr args) pvalue_x3 std2 /\
    reports_standard_error (SynEntner.nr args) pvalue_x2x3 std3.
Proof.
  intros Hrun. unfold SynEntner.main in Hrun.
  apply bind_inr in Hrun. destruct Hrun as ([[pe p3] p23] & w1 & Hloop & Hrun).
  cbv beta iota in Hrun.
  eapply (outer_loop (SynEntner.cell args) SynEntner.number_dimensions_list
            (SynEntner.nr args) _ (entner_inv (SynEntner.nr args))) with (vals := [])
    in Hloop.
  - destruct Hloop as (vals & Hcells & Hfiles0 & Hlen & (H1 & H2 & H3)).
    cbn [fst snd] in H1, H2, H3.
    repeat inv_world Hrun. apply ret_inr in Hrun. destruct Hrun as [_ ->].
    repeat match goal with
           | Hr : rng ?a = rng ?b |- _ => rewrite Hr in *; clear Hr
           end.
    repeat match goal with
           | Hs : reshape_row (np_std_axis0 0 _) _ = inr _ |- _ =>
               apply (standard_error_reported (SynEntner.nr args)) in Hs;
               [| match goal with
                  | Hf : filled _ _ _ _ ?m |- ncols ?m = _ =>
                      destruct Hf as [Hsh _]; apply shape_inv in Hsh; apply Hsh
                  end]
           end.
    do 10 eexists. eexists (stdout w1).
    split; [exact Hcells |].
    repeat (split; [eassumption |]).
    split.
    { repeat match goal with
             | Hf : files ?a = _ |- _ => rewrite Hf; clear Hf
             end.
      rewrite <- !app_assoc. reflexivity. }
    split.
    { repeat match goal with
             | Ho : stdout ?a = _ |- _ => rewrite Ho; clear Ho
             end.
      rewrite <- !app_assoc. reflexivity. }
    split; [eassumption | split; eassumption].
  - intros r i d acc wa acc' wb vals Hr Hd Hlen Hinv Hbody.
    cbv beta zeta in Hbody. cbn [fst snd] in Hbody.
    change (length SynEntner.number_dimensions_list) with 3 in Hlen.
    eapply entner_body; try eassumption.
    change 3 with (length SynEntner.number_dimensions_list).
    apply nth_error_Some. rewrite Hd. discriminate.
  - lia.
  - reflexivity.
  - unfold entner_inv. cbn [fst snd].
    change (length SynEntner.number_dimensions_list) with 3.
    split; [| split]; apply filled_zeros.
Qed.
End EntnerMain.

Section HighDimensionRunner.
Context {F G : Type} {SF : Scalar F} {SP : Special F} {SQ : Sqrt F}
        {RS : RandomState F G} {CL : Causallib F G}
        {IR : IRM F G SyntheticHighDimension.Args}.

Lemma std_ate_error_inr (a b s : ndarray F) (L R : nat) :
  SyntheticHighDimension.std_ate_error a b L R = inr s ->
  ncols a = L -> shape b = shape a ->
  exists d, np_sub a b = inr d /\ reports_standard_error R (np_abs d) s.
Proof.
  unfold SyntheticHighDimension.std_ate_error. intros Hs Hc Hsh.
  destruct (np_sub a b) as [err | d] eqn:Hd; [discriminate Hs |].
  destruct (reshape_row _ L) as [err | s0] eqn:Hr; [discriminate Hs |].
  injection Hs as <-. exists d. split; [reflexivity |].
  apply (standard_error_reported R L); [exact Hr |].
  unfold shape in Hsh. injection Hsh as Hr1 Hc1.
  unfold np_sub in Hd. rewrite broadcast2_same in Hd by (symmetry; assumption).
  injection Hd as <-. unfold np_abs. rewrite ncols_map_array, ncols_tabulate. exact Hc.
Qed.

Lemma high_dimension_body (args : SyntheticHighDimension.Args) (r i d : nat)
    (acc acc' : ndarray F * ndarray F * ndarray F * ndarray F * ndarray F)
    (w w' : world G F) (vals : list (F * F * F * F * F)) :
  length vals = r * 3 + i -> i < 3 ->
  high_dimension_inv (SyntheticHighDimension.nr args) vals acc ->
  (let '(effect_true, effect_oracle, effect_baseline,
         effect_irm_control, effect_irm_treatment) := acc in
   print (OutInt (Z.of_nat (2 * d + 1))) ;;;
   data <- liftR (SyntheticHighDimension.get_train_test_data
                    (SyntheticHighDimension.no args) d
                    (SyntheticHighDimension.use_t_in_e args)
                    (SyntheticHighDimension.ne args)) ;;
   effect_true <- lift_result (setitem effect_true r i (true_ate data)) ;;
   v <- liftR (SyntheticHighDimension.get_effect
                 (select (x_train data) ["x2"%string]) (t_train data)
                 (y_train data) (select (x_test data) ["x2"%string]) (t_test data)) ;;
   effect_oracle <- lift_result (setitem effect_oracle r i v) ;;
   v <- liftR (SyntheticHighDimension.get_effect
                 (select (x_train data) ["x1"%string; "x2"%string; "x3"%string])
                 (t_train data) (y_train data)
                 (select (x_test data) ["x1"%string; "x2"%string; "x3"%string])
                 (t_test data)) ;;
   effect_baseline <- lift_result (setitem effect_baseline r i v) ;;
   ' (irm_features_control, _) <-
       liftR (get_irm_features (select (x_train data) ["x2"%string; "x3"%string])
                (t_train data) (y_train data) (e_train data)
                (SyntheticHighDimension.ne args) 0%Z
                (map (hd EmptyString) (tl (droplevel (columns (x_train data))))) args) ;;
   ' (irm_features_treatment, _) <-
       liftR (get_irm_features (select (x_train data) ["x2"%string; "x3"%string])
                (t_train data) (y_train data) (e_train data)
                (SyntheticHighDimension.ne args) 1%Z
                (map (hd EmptyString) (tl (droplevel (columns (x_train data))))) args) ;;
   v <- liftR (SyntheticHighDimension.get_effect
                 (select (mk_DataFrame (droplevel (columns (x_train data)))
                            (values (x_train data))) irm_features_control)
                 (t_train data) (y_train data)
                 (select (mk_DataFrame (droplevel (columns (x_test data)))
                            (values (x_test data))) irm_features_control)
                 (t_test data)) ;;
   effect_irm_control <- lift_result (setitem effect_irm_control r i v) ;;
   v <- liftR (SyntheticHighDimension.get_effect
                 (select (mk_DataFrame (droplevel (columns (x_train data)))
                            (values (x_train data))) irm_features_treatment)
                 (t_train data) (y_train data)
                 (select (mk_DataFrame (droplevel (columns (x_test data)))
                            (values (x_test data))) irm_features_treatment)
                 (t_test data)) ;;
   effect_irm_treatment <- lift_result (setitem effect_irm_treatment r i v) ;;
   ret (effect_true, effect_oracle, effect_baseline,
        effect_irm_control, effect_irm_treatment)) w = (inr acc', w') ->
  exists v, SyntheticHighDimension.cell args d (rng w) = (inr v, rng w') /\
            files w' = files w /\
            high_dimension_inv (SyntheticHighDimension.nr args) (vals ++ [v]) acc'.
Proof.
  intros Hlen Hi (H1 & H2 & H3 & H4 & H5) Hrun.
  destruct acc as [[[[et eo] eb] ec] etr]. cbn [fst snd] in *.
  repeat inv_world Hrun. apply ret_inr in Hrun. destruct Hrun as [-> ->].
  repeat match goal with
         | Hr : rng ?a = rng ?b |- _ => rewrite Hr in *; clear Hr
         end.
  match goal with
  | Ha : setitem et r i ?v0 = inr _,
    Hb : setitem eo r i ?v1 = inr _,
    Hc : setitem eb r i ?v2 = inr _,
    Hd : setitem ec r i ?v3 = inr _,
    He : setitem etr r i ?v4 = inr _ |- _ => exists (v0, v1, v2, v3, v4)
  end.
  split; [| split].
  - unfold SyntheticHighDimension.cell. replay. reflexivity.
  - congruence.
  - unfold high_dimension_inv. cbn [fst snd].
    split; [| split; [| split; [| split]]].
    + eapply (filled_setitem _ _ (fun v => fst (fst (fst (fst v)))));
        [exact H1 | exact Hi | exact Hlen | cbn [fst snd]; eassumption].
    + eapply (filled_setitem _ _ (fun v => snd (fst (fst (fst v)))));
        [exact H2 | exact Hi | exact Hlen | cbn [fst snd]; eassumption].
    + eapply (filled_setitem _ _ (fun v => snd (fst (fst v))));
        [exact H3 | exact Hi | exact Hlen | cbn [fst snd]; eassumption].
    + eapply (filled_setitem _ _ (fun v => snd (fst v)));
        [exact H4 | exact Hi | exact Hlen | cbn [fst snd]; eassumption].
    + eapply (filled_setitem _ _ (fun v => snd v));
        [exact H5 | exact Hi | exact Hlen | cbn [fst snd]; eassumption].
Qed.
End HighDimensionRunner.

Section HighDimensionMain.
Context {F G : Type} {SF : Scalar F} {SP : Special F} {SQ : Sqrt F}
        {RS : RandomState F G} {CL : Causallib F G}
        {IR : IRM F G SyntheticHighDimension.Args}.

Lemma high_dimension_main (args : SyntheticHighDimension.Args) (w w' : world G F) :
  SyntheticHighDimension.main args w = (inr tt, w') ->
  exists (vals : list (F * F * F * F * F))
         (effect_true effect_oracle effect_baseline effect_irm_control
          effect_irm_treatment : ndarray F)
         (d_baseline d_oracle d_irm_c d_irm_t : ndarray F)
         (std_baseline std_oracle std_irm_c std_irm_t avg std : ndarray F)
         (pre : list (output F)),
    run_cells (SyntheticHighDimension.cell args) (SyntheticHighDimension.nr args)
      SyntheticHighDimension.number_dimensions_list (rng w) = (inr vals, rng w') /\
    (filled (SyntheticHighDimension.nr args) 3 (fun v => fst (fst (fst (fst v))))
       vals effect_true /\
     filled (SyntheticHighDimension.nr args) 3 (fun v => snd (fst (fst (fst v))))
       vals effect_oracle /\
     filled (SyntheticHighDimension.nr args) 3 (fun v => snd (fst (fst v)))
       vals effect_baseline /\
     filled (SyntheticHighDimension.nr args) 3 (fun v => snd (fst v))
       vals effect_irm_control /\
     filled (SyntheticHighDimension.nr args) 3 (fun v => snd v)
       vals effect_irm_treatment) /\
    files w' = files w ++
      [mk_saved_file "synthetic_high_dimension/effect_true.csv" "," EmptyString
         effect_true;
       mk_saved_file "synthetic_high_dimension/effect_baseline.csv" "," EmptyString
         effect_baseline;
       mk_saved_file "synthetic_high_dimension/effect_irm_control.csv" "," EmptyString
         effect_irm_control;
       mk_saved_file "synthetic_high_dimension/effect_irm_treatment.csv" "," EmptyString
         effect_irm_treatment] /\
    stdout w' = pre ++
      [OutFrame SyntheticHighDimension.error_index [25%Z; 45%Z; 65%Z] avg;
       OutFrame SyntheticHighDimension.error_index [25%Z; 45%Z; 65%Z] std] /\
    (np_sub effect_baseline effect_true = inr d_baseline /\
     np_sub effect_oracle effect_true = inr d_oracle /\
     np_sub effect_irm_control effect_true = inr d_irm_c /\
     np_sub effect_irm_treatment effect_true = inr d_irm_t) /\
    (reports_standard_error (SyntheticHighDimension.nr args) (np_abs d_baseline)
       std_baseline /\
     reports_standard_error (SyntheticHighDimension.nr args) (np_abs d_oracle)
       std_oracle /\
     reports_standard_error (SyntheticHighDimension.nr args) (np_abs d_irm_c)
       std_irm_c /\
     reports_standard_error (SyntheticHighDimension.nr args) (np_abs d_irm_t)
       std_irm_t) /\
    concatenate0 [std_baseline; std_oracle; std_irm_c; std_irm_t] = inr std.
Proof.
  intros Hrun. unfold SyntheticHighDimension.main in Hrun.
  apply bind_inr in Hrun. destruct Hrun as ([[[[et eo] eb] ec] etr] & w1 & Hloop & Hrun).
  cbv beta iota in Hrun.
  eapply (outer_loop (SyntheticHighDimension.cell args)
            SyntheticHighDimension.number_dimensions_list
            (SyntheticHighDimension.nr args) _
            (high_dimension_inv (SyntheticHighDimension.nr args))) with (vals := [])
    in Hloop.
  - destruct Hloop as (vals & Hcells & Hfiles0 & Hlen & (H1 & H2 & H3 & H4 & H5)).
    cbn [fst snd] in H1, H2, H3, H4, H5.
    repeat inv_world Hrun. apply ret_inr in Hrun. destruct Hrun as [_ ->].
    repeat match goal with
           | Hr : rng ?a = rng ?b |- _ => rewrite Hr in *; clear Hr
           end.
    assert (Hshape : forall proj m,
               filled (SyntheticHighDimension.nr args) 3 proj vals m ->
               ncols m = 3 /\ shape m = shape et).
    { intros proj m [Hm _]. destruct H1 as [He _]. split; [| congruence].
      apply shape_inv in Hm. apply Hm. }
    repeat match goal with
           | Hs : SyntheticHighDimension.std_ate_error ?a _ _ _ = inr _ |- _ =>
               apply std_ate_error_inr in Hs;
               [ let d := fresh "d" in
                 let Hd := fresh "Hd" in
                 let Hse := fresh "Hse" in
                 destruct Hs as (d & Hd & Hse)
               | match goal with
                 | Hf : filled _ _ _ _ a |- ncols a = _ =>
                     exact (proj1 (Hshape _ _ Hf))
                 end
               | match goal with
                 | Hf : filled _ _ _ _ a |- _ = shape a =>
                     symmetry; exact (proj2 (Hshape _ _ Hf))
                 end ]
           end.
    exists vals, et, eo, eb, ec, etr.
    do 10 eexists. eexists (stdout w1).
    split; [exact Hcells |].
    split; [repeat (split; [eassumption |]); eassumption |].
    split.
    { repeat match goal with
             | Hf : files ?a = _ |- _ => rewrite Hf; clear Hf
             end.
      rewrite <- !app_assoc. reflexivity. }
    split.
    { repeat match goal with
             | Ho : stdout ?a = _ |- _ => rewrite Ho; clear Ho
             end.
      rewrite <- !app_assoc. reflexivity. }
    split; [repeat (split; [eassumption |]); eassumption |].
    split; [repeat (split; [eassumption |]); eassumption |].
    eassumption.
  - intros r i d acc wa acc' wb vals Hr Hd Hlen Hinv Hbody.
    cbv beta zeta in Hbody. cbn [fst snd] in Hbody.
    change (length SyntheticHighDimension.number_dimensions_list) with 3 in Hlen.
    eapply high_dimension_body; try eassumption.
    change 3 with (length SyntheticHighDimension.number_dimensions_list).
    apply nth_error_Some. rewrite Hd. discriminate.
  - lia.
  - reflexivity.
  - unfold high_dimension_inv. cbn [fst snd].
    change (length SyntheticHighDimension.number_dimensions_list) with 3.
    split; [| split; [| split; [| split]]]; apply filled_zeros.
Qed.
End HighDimensionMain.

(** ** The recorded stream obeys the laws *)
Section TapeLaws.
Context {F : Type} {SF : Scalar F}.

Lemma tape_binomial_law : binomial_law F (tape F).
Proof.
  intros n p g Hn. cbn [draw_binomial RandomState_tape]. unfold tape_binomial.
  destruct (binomials g) as [| b rest]; cbn [fst]; lia.
Qed.

Lemma tape_choice_law : choice_law F (tape F).
Proof.
  intros a p g Ha. cbn [draw_choice RandomState_tape]. unfold tape_choice.
  destruct (choices g) as [| i rest]; cbn [fst].
  - destruct a as [| z a]; [contradiction Ha; reflexivity | left; reflexivity].
  - apply nth_In. apply Nat.mod_upper_bound. destruct a; [contradiction Ha; reflexivity |].
    discriminate.
Qed.

Lemma is_shuffle_Permutation (n : nat) (l : list nat) :
  is_shuffle n l = true -> Permutation l (seq 0 n).
Proof.
  unfold is_shuffle. intros Hs. apply andb_prop in Hs. destruct Hs as [Hlen Hall].
  apply Nat.eqb_eq in Hlen. symmetry.
  apply NoDup_Permutation_bis.
  - apply seq_NoDup.
  - rewrite length_seq. lia.
  - intros i Hi. rewrite forallb_forall in Hall. specialize (Hall i Hi).
    apply existsb_exists in Hall. destruct Hall as (j & Hj & E).
    apply Nat.eqb_eq in E. subst j. exact Hj.
Qed.

Lemma tape_uniform_between (low high : F) (g : tape F) :
  between low high low -> between low high (fst (draw_uniform low high g)).
Proof.
  intros Hlow. cbn [draw_uniform RandomState_tape]. unfold tape_uniform.
  destruct (uniforms g) as [| u rest]; cbn [fst]; [exact Hlow |].
  match goal with |- between _ _ (if ?b then _ else _) => destruct b eqn:E end;
    [exact E | exact Hlow].
Qed.

Lemma tape_permutation_law : permutation_law F (tape F).
Proof.
  intros n g. cbn [draw_permutation RandomState_tape]. unfold tape_permutation.
  destruct (permutations g) as [| l rest]; cbn [fst]; [reflexivity |].
  destruct (is_shuffle n l) eqn:E; [apply is_shuffle_Permutation; exact E | reflexivity].
Qed.
End TapeLaws.

Section ExactLaws.

Lemma Qle_bool_total (x y : Qc) : Qle_bool x y = true \/ Qle_bool y x = true.
Proof.
  destruct (Qlt_le_dec x y) as [Hlt | Hle].
  - left. apply Qle_bool_iff. apply Qlt_le_weak. exact Hlt.
  - right. apply Qle_bool_iff. exact Hle.
Qed.

Lemma between_low_Qc (low high : Qc) : between low high low.
Proof.
  unfold between, betweenb. cbn [fleb Scalar_Qc].
  assert (Hr : Qle_bool low low = true) by (apply Qle_bool_iff; apply Qle_refl).
  rewrite Hr. destruct (Qle_bool_total low high) as [E | E]; rewrite E.
  - reflexivity.
  - rewrite orb_true_r. reflexivity.
Qed.

Lemma tape_uniform_law : uniform_law Qc (tape Qc).
Proof. intros g. split; apply tape_uniform_between; apply between_low_Qc. Qed.

Lemma exact_arithmetic_Qc : exact_arithmetic Qc.
Proof.
  intros x. unfold is_finite. cbn [fleb fsub of_int Scalar_Qc].
  apply Qle_bool_iff. unfold Qcminus. rewrite Qcplus_opp_r. apply Qle_refl.
Qed.

Lemma Qcdiv_nonneg (x y : Qc) : (0 <= x)%Qc -> (0 <= y)%Qc -> (0 <= x / y)%Qc.
Proof.
  unfold Qcle, Qcdiv, Qcmult, Qcinv. cbn [this Q2Qc]. intros Hx Hy.
  rewrite !Qred_correct. apply Qmult_le_0_compat; [exact Hx |].
  apply Qinv_le_0_compat. exact Hy.
Qed.

Lemma of_int_nonneg_Qc (z : Z) : (0 <= z)%Z -> (0 <= of_int z)%Qc.
Proof.
  intros Hz. unfold Qcle. cbn [of_int Scalar_Qc this Q2Qc]. rewrite !Qred_correct.
  unfold Qle. cbn [Qnum Qden inject_Z]. lia.
Qed.

Lemma equal_odds_expit_law : @expit_law Qc Scalar_Qc equal_odds.
Proof. intros x _. vm_compute. reflexivity. Qed.

Lemma equal_odds_softmax_law : @softmax_law Qc Scalar_Qc equal_odds.
Proof.
  intros l Hl. cbn [softmax equal_odds]. rewrite length_map. split; [exact Hl |].
  intros _.
  unfold choice_accepts. apply andb_true_intro. split.
  - apply forallb_forall. intros x Hx. apply in_map_iff in Hx.
    destruct Hx as (y & <- & _). cbn [fleb Scalar_Qc].
    apply Qle_bool_iff.
    change (0 <= fdiv (of_int 1%Z) (of_int (Z.of_nat (length l))))%Qc.
    apply Qcdiv_nonneg; apply of_int_nonneg_Qc; lia.
  - rewrite (fsum_constant_Qc (fdiv (of_int 1%Z) (of_int (Z.of_nat (length l))))).
    + rewrite length_map.
      assert (E : (of_int (Z.of_nat (length l)) *
                   fdiv (of_int 1%Z) (of_int (Z.of_nat (length l))))%Qc = of_int 1%Z).
      { cbn [fdiv Scalar_Qc]. unfold Qcdiv. rewrite Qcmult_assoc, Qcmult_comm.
        rewrite Qcmult_assoc, (Qcmult_comm (/ _)), Qcmult_inv_r.
        - rewrite Qcmult_1_l. reflexivity.
        - apply of_int_nonzero_Qc. rewrite Hl. lia. }
      rewrite E. reflexivity.
    + intros x Hx. apply in_map_iff in Hx. destruct Hx as (y & <- & _). reflexivity.
Qed.
End ExactLaws.

Section SamplersReturn.
Context {F G : Type} {SF : Scalar F} {SP : Special F} {RS : RandomState F G}.

Lemma get_u_returns (n d : nat) (g : G) :
  exists u1 u2 u3 u4 g', SynEntner.get_u n d g = (inr (u1, u2, u3, u4), g').
Proof.
  unfold SynEntner.get_u.
  destruct (uniform_ok (of_int 1%Z) (of_int 2%Z) n 1 g) as (u1 & g1 & E1 & _).
  destruct (uniform_ok (of_int 1%Z) (of_int 2%Z) n d g1) as (u2 & g2 & E2 & _).
  destruct (uniform_ok (of_int 1%Z) (of_int 2%Z) n d g2) as (u3 & g3 & E3 & _).
  destruct (uniform_ok (of_int 1%Z) (of_int 2%Z) n d g3) as (u4 & g4 & E4 & _).
  exists u1, u2, u3, u4, g4. replay. reflexivity.
Qed.

Lemma theta6_returns (r : nat) (g : G) :
  exists theta6 g',
    (a <- np_random_uniform (of_int 1%Z) (of_int 2%Z) r 1 ;;
     b <- np_random_uniform (of_int (-1)%Z) (of_int (-2)%Z) r 1 ;;
     lift_result (concatenate1 [a; np_zeros r 1; b])) g = (inr theta6, g').
Proof.
  destruct (uniform_ok (of_int 1%Z) (of_int 2%Z) r 1 g) as (a & g1 & Ea & Har & _).
  destruct (uniform_ok (of_int (-1)%Z) (of_int (-2)%Z) r 1 g1) as (b & g2 & Eb & Hbr & _).
  destruct (concat3_ok a (np_zeros r 1) b) as (m & Em & _).
  { rewrite nrows_np_zeros. exact Har. }
  { rewrite nrows_np_zeros. symmetry. exact Hbr. }
  exists m, g2. replay. rewrite Em. reflexivity.
Qed.

Lemma get_theta_returns (d : nat) (use k : Z) (g : G) :
  exists theta1 theta2 theta3 theta4 theta5 theta6 g',
    SynEntner.get_theta d use k g
      = (inr (theta1, theta2, theta3, theta4, theta5, theta6), g').
Proof.
  unfold SynEntner.get_theta.
  destruct (uniform_ok (of_int 1%Z) (of_int 2%Z) (d + 1) 1 g) as (t1 & g1 & E1 & _).
  destruct (uniform_ok (of_int 1%Z) (of_int 2%Z) (d * 2 + 1) d g1) as (t2 & g2 & E2 & _).
  destruct (uniform_ok (of_int 1%Z) (of_int 2%Z) (d * 2) d g2) as (t3 & g3 & E3 & _).
  destruct (uniform_ok (of_int 1%Z) (of_int 2%Z) (d * 2 + 1) 1 g3) as (t4 & g4 & E4 & _).
  destruct (uniform_ok (of_int 1%Z) (of_int 2%Z) 2 1 g4) as (t5 & g5 & E5 & _).
  destruct (use =? 0)%Z.
  - destruct (theta6_returns 1 g5) as (t6 & g6 & E6).
    exists t1, t2, t3, t4, t5, t6, g6. replay. reflexivity.
  - destruct (theta6_returns 2 g5) as (t6 & g6 & E6).
    exists t1, t2, t3, t4, t5, t6, g6. replay. reflexivity.
Qed.
End SamplersReturn.

(* ================================================================== *)
(** * The properties of the specification *)

Import Binary64.

(** The recorded stream obeys the law of the uniform draws in binary64
    too. *)
Lemma tape_uniform_law_binary64 : uniform_law float (tape float).
Proof.
  intros g. split; apply tape_uniform_between; vm_compute; reflexivity.
Qed.

Section EitherScriptFacts.
Context {F G : Type} {SF : Scalar F} {SP : Special F} {RS : RandomState F G}.

Lemma get_u_of_entner (s : script) : get_u_of s = SynEntner.get_u.
Proof. destruct s; reflexivity. Qed.

Lemma get_theta_of_entner (s : script) : get_theta_of s = SynEntner.get_theta.
Proof. destruct s; reflexivity. Qed.

Lemma get_data_of_entner (s : script) : get_data_of s = SynEntner.get_data.
Proof. destruct s; reflexivity. Qed.

Lemma get_train_test_data_of_entner (s : script) :
  get_train_test_data_of s = SynEntner.get_train_test_data.
Proof. destruct s; reflexivity. Qed.
End EitherScriptFacts.

(** C1, amended: in exact arithmetic the shared noise cancels.  For either
    script, whenever [get_data] returns, every row [i] has
    [y_1[i] - y_0[i] = theta4[2d, 0]], whatever the latents, the other
    coefficients and the random stream (hence every noise draw) are. *)
Theorem outcome_difference_exact (s : script) {G : Type} {SP : Special Qc}
    {RS : RandomState Qc G}
    (u1 u2 u3 u4 theta1 theta2 theta3 theta4 theta5 theta6 : ndarray Qc)
    (n d : nat) (use k : Z) (g g' : G)
    (x1 x2 x3 : ndarray Qc) (t e : ndarray Z) (y y_0 y_1 : ndarray Qc) :
  shape theta4 = (2 * d + 1, 1) ->
  get_data_of s u1 u2 u3 u4 theta1 theta2 theta3 theta4 theta5 theta6 n d use k g
    = (inr (x1, x2, x3, t, e, y, y_0, y_1), g') ->
  forall i, i < n -> (entry y_1 i 0 - entry y_0 i 0)%Qc = entry theta4 (2 * d) 0.
Proof.
  intros Hs Hrun. rewrite get_data_of_entner in Hrun. apply shape_inv in Hs.
  destruct Hs as [Hr Hc].
  apply (outcomes_exact _ _ _ _ _ _ _ _ _ _ _ _ _ _ _ _ _ _ _ _ _ _ _ _ Hr Hc Hrun).
Qed.

(** Witness of C1: two observations, one dimension, three environments,
    on the recorded stream. *)
Lemma outcome_difference_exact_run :
  exists x1 x2 x3 t e y y_0 y_1 g',
    exact_get_data 2 3%Z = (inr (x1, x2, x3, t, e, y, y_0, y_1), g') /\
    (entry y_1 0 0 - entry y_0 0 0)%Qc = entry ExactRun.theta4 (2 * 1) 0 /\
    (entry y_1 1 0 - entry y_0 1 0)%Qc = entry ExactRun.theta4 (2 * 1) 0.
Proof.
  destruct (exact_get_data 2 3%Z)
    as [[err | [[[[[[[x1 x2] x3] t] e] y] y_0] y_1]] g'] eqn:E.
  - vm_compute in E. discriminate E.
  - exists x1, x2, x3, t, e, y, y_0, y_1, g'. split; [reflexivity |].
    split.
    + apply (outcome_difference_exact syn_entner (SP := equal_odds)
               (np_ones 2 1) (np_ones 2 1) (np_ones 2 1) (np_ones 2 1)
               (np_ones 2 1) (np_ones 3 1) (np_ones 2 1) ExactRun.theta4 (np_ones 2 1)
               ExactRun.theta6 2 1 1%Z 3%Z ExactRun.stream g' x1 x2 x3 t e y y_0 y_1
               eq_refl E 0).
      lia.
    + apply (outcome_difference_exact syn_entner (SP := equal_odds)
               (np_ones 2 1) (np_ones 2 1) (np_ones 2 1) (np_ones 2 1)
               (np_ones 2 1) (np_ones 3 1) (np_ones 2 1) ExactRun.theta4 (np_ones 2 1)
               ExactRun.theta6 2 1 1%Z 3%Z ExactRun.stream g' x1 x2 x3 t e y y_0 y_1
               eq_refl E 1).
      lia.
Defined.

(** Counterexample to C1 as stated, in binary64: with the noise [0.2] (the
    draw [2.0]) and [theta4 = [1.5, 1.5, 1]], the sums [7.5 + 0.2] and
    [8.5 + 0.2] are rounded on two sides of [8], and [y_1 - y_0] is
    [1 - 2**-50], not [theta4]'s last entry [1]. *)
Lemma outcome_difference_binary64 :
  exists x1 x2 x3 t e y y_0 y_1 g',
    FloatRun.get_data_run 2 3%Z FloatRun.noisy_stream
      = (inr (x1, x2, x3, t, e, y, y_0, y_1), g') /\
    entry FloatRun.theta4 2 0 = 1%float /\
    PrimFloat.sub (entry y_1 0 0) (entry y_0 0 0) = 0x1.ffffffffffff8p-1%float /\
    PrimFloat.eqb (PrimFloat.sub (entry y_1 0 0) (entry y_0 0 0))
                  (entry FloatRun.theta4 2 0) = false.
Proof.
  do 9 eexists. split; [vm_compute; reflexivity |].
  split; [reflexivity |]. split; vm_compute; reflexivity.
Qed.




(** With three environments too the simulator can raise, in binary64.
    With [theta1 = [1e308, 1e308]] the first covariate overflows to
    infinity, its centred score [inf - inf] is a NaN, [expit] hands the NaN
    on and [np.random.binomial] rejects it.  With two environments the
    same input ends in the same error, before any environment is drawn. *)
Lemma get_data_raises_on_overflow :
  latent_shapes 10 1 (np_ones (F := float) 10 1) (np_ones 10 1) (np_ones 10 1)
    (np_ones 10 1) /\
  coefficient_shapes 1 1%Z (column_vector [FloatRun.huge; FloatRun.huge]) (np_ones 3 1)
    (np_ones 2 1) FloatRun.theta4 (np_ones 2 1) FloatRun.theta6 /\
  FloatRun.overflow_run 3%Z = (inl BinomialArguments, FloatRun.silent_stream) /\
  FloatRun.overflow_run 2%Z = (inl BinomialArguments, FloatRun.silent_stream).
Proof.
  split; [repeat split |]. split; [repeat split |]. split; vm_compute; reflexivity.
Qed.

(** C3, amended: for every dimension that is not negative [get_theta]
    returns; the six arrays have the shapes of the specification
    ([theta6] has one row when [use_t_in_e] is 0 and two rows otherwise)
    and [theta6]'s middle column is zero, whatever the random stream is.
    When the uniform draws lie between their bounds, every entry of
    [theta1] to [theta5] and of [theta6]'s first column lies between 1 and
    2, and every entry of [theta6]'s last column between -1 and -2. *)
Theorem get_theta_entries (s : script) {F G : Type} {SF : Scalar F}
    {RS : RandomState F G} (d : nat) (use k : Z) (g : G) :
  exists theta1 theta2 theta3 theta4 theta5 theta6 g',
    get_theta_of s d use k g
      = (inr (theta1, theta2, theta3, theta4, theta5, theta6), g') /\
    coefficient_shapes d use theta1 theta2 theta3 theta4 theta5 theta6 /\
    (forall i, i < nrows theta6 -> entry theta6 i 1 = of_int 0%Z) /\
    (uniform_law F G ->
     all_entries (between (of_int 1%Z) (of_int 2%Z)) theta1 /\
     all_entries (between (of_int 1%Z) (of_int 2%Z)) theta2 /\
     all_entries (between (of_int 1%Z) (of_int 2%Z)) theta3 /\
     all_entries (between (of_int 1%Z) (of_int 2%Z)) theta4 /\
     all_entries (between (of_int 1%Z) (of_int 2%Z)) theta5 /\
     forall i, i < nrows theta6 ->
       between (of_int 1%Z) (of_int 2%Z) (entry theta6 i 0) /\
       between (of_int (-1)%Z) (of_int (-2)%Z) (entry theta6 i 2)).
Proof.
  rewrite get_theta_of_entner.
  destruct (get_theta_returns d use k g) as (t1 & t2 & t3 & t4 & t5 & t6 & g' & Hrun).
  exists t1, t2, t3, t4, t5, t6, g'. split; [exact Hrun |].
  split; [exact (get_theta_shapes _ _ _ _ _ _ _ _ _ _ _ Hrun) |].
  split; [exact (get_theta_middle _ _ _ _ _ _ _ _ _ _ _ Hrun) |].
  intros Hlaw.
  destruct (get_theta_ranges _ _ _ _ _ _ _ _ _ _ _ Hlaw Hrun)
    as (H1 & H2 & H3 & H4 & H5 & H6).
  repeat (split; [assumption |]).
  intros i Hi. destruct (H6 i Hi) as (Ha & _ & Hb). split; assumption.
Qed.

(** Witness of C3: one dimension, [use_t_in_e = 1], in binary64, on a
    recorded stream; its uniform draws lie between their bounds. *)
Lemma get_theta_entries_run :
  exists theta1 theta2 theta3 theta4 theta5 theta6 g',
    get_theta_of syn_entner 1 1%Z 3%Z FloatRun.rounding_stream
      = (inr (theta1, theta2, theta3, theta4, theta5, theta6), g') /\
    coefficient_shapes 1 1%Z theta1 theta2 theta3 theta4 theta5 theta6 /\
    (forall i, i < nrows theta6 -> entry theta6 i 1 = of_int 0%Z) /\
    all_entries (between (of_int 1%Z) (of_int 2%Z)) theta1 /\
    all_entries (between (of_int 1%Z) (of_int 2%Z)) theta2 /\
    all_entries (between (of_int 1%Z) (of_int 2%Z)) theta3 /\
    all_entries (between (of_int 1%Z) (of_int 2%Z)) theta4 /\
    all_entries (between (of_int 1%Z) (of_int 2%Z)) theta5 /\
    forall i, i < nrows theta6 ->
      between (of_int 1%Z) (of_int 2%Z) (entry theta6 i 0) /\
      between (of_int (-1)%Z) (of_int (-2)%Z) (entry theta6 i 2).
Proof.
  destruct (get_theta_entries syn_entner 1 1%Z 3%Z FloatRun.rounding_stream)
    as (t1 & t2 & t3 & t4 & t5 & t6 & g' & Hrun & Hshapes & Hzero & Hranges).
  exists t1, t2, t3, t4, t5, t6, g'.
  split; [exact Hrun |]. split; [exact Hshapes |]. split; [exact Hzero |].
  exact (Hranges tape_uniform_law_binary64).
Defined.

(** Counterexample to C3 as stated: [theta6]'s last block is not the only
    exception.  The middle entry of [theta6]'s first row is the constant 0,
    which lies neither between 1 and 2 nor between -1 and -2. *)
Lemma theta6_middle_block_is_zero :
  exists theta1 theta2 theta3 theta4 theta5 theta6 g',
    FloatRun.get_theta_run = (inr (theta1, theta2, theta3, theta4, theta5, theta6), g') /\
    entry theta6 0 1 = 0%float /\
    betweenb 1%float 2%float (entry theta6 0 1) = false /\
    betweenb (-1)%float (-2)%float (entry theta6 0 1) = false.
Proof.
  do 7 eexists. split; [vm_compute; reflexivity |].
  split; [reflexivity |]. split; vm_compute; reflexivity.
Qed.

(** C4: for every number of environments [k >= 1], whenever [get_data]
    returns, every entry of [e] is an integer in [[0, k)] and every entry
    of [t] is 0 or 1; both arrays hold integers. *)
Theorem get_data_labels_in_range (s : script) {F G : Type} {SF : Scalar F}
    {SP : Special F} {RS : RandomState F G}
    (u1 u2 u3 u4 theta1 theta2 theta3 theta4 theta5 theta6 : ndarray F)
    (n d : nat) (use k : Z) (g g' : G)
    (x1 x2 x3 : ndarray F) (t e : ndarray Z) (y y_0 y_1 : ndarray F) :
  binomial_law F G -> choice_law F G -> (1 <= k)%Z ->
  get_data_of s u1 u2 u3 u4 theta1 theta2 theta3 theta4 theta5 theta6 n d use k g
    = (inr (x1, x2, x3, t, e, y, y_0, y_1), g') ->
  forall i, (0 <= entry e i 0 < k)%Z /\ (entry t i 0 = 0 \/ entry t i 0 = 1)%Z.
Proof.
  intros Hb Hc Hk Hrun i. rewrite get_data_of_entner in Hrun.
  exact (get_data_labels _ _ _ _ _ _ _ _ _ _ _ _ _ _ _ _ _ _ _ _ _ _ _ _ Hb Hc Hk Hrun i 0).
Qed.

(** Witness of C4: the last of five rows, with three environments. *)
Lemma get_data_labels_run :
  exists x1 x2 x3 t e y y_0 y_1 g',
    exact_get_data 5 3%Z = (inr (x1, x2, x3, t, e, y, y_0, y_1), g') /\
    ((0 <= entry e 4 0 < 3)%Z /\ (entry t 4 0 = 0 \/ entry t 4 0 = 1)%Z).
Proof.
  destruct (exact_get_data 5 3%Z)
    as [[err | [[[[[[[x1 x2] x3] t] e] y] y_0] y_1]] g'] eqn:E.
  - vm_compute in E. discriminate E.
  - exists x1, x2, x3, t, e, y, y_0, y_1, g'. split; [reflexivity |].
    apply (get_data_labels_in_range syn_entner (SP := equal_odds)
             (np_ones 5 1) (np_ones 5 1) (np_ones 5 1) (np_ones 5 1)
             (np_ones 2 1) (np_ones 3 1) (np_ones 2 1) ExactRun.theta4 (np_ones 2 1)
             ExactRun.theta6 5 1 1%Z 3%Z ExactRun.stream g' x1 x2 x3 t e y y_0 y_1
             tape_binomial_law tape_choice_law).
    + lia.
    + exact E.
Defined.




(** C6, amended: whenever a trial runner returns, each of its result
    matrices has shape [(number_repetitions, 3)] (three dimensions in the
    grid) and holds at [(r, i)] the quantity of the cell of repetition [r]
    and grid index [i]; the standard errors it reports are, per column,
    the population standard deviation over the square root of the number
    of repetitions: in [syn-entner.py] of its three result matrices, the
    p-values; in [synthetic_high_dimension.py] not of a result matrix but
    of the absolute errors [|effect - effect_true|] of the four
    estimates. *)
Theorem result_matrices {F G : Type} {SF : Scalar F} {SP : Special F} {SQ : Sqrt F}
    {RS : RandomState F G} {IT : IndependenceTest F G} {CL : Causallib F G}
    {IR : IRM F G SyntheticHighDimension.Args} :
  (forall (args : SynEntner.Args) (w w' : world G F),
      SynEntner.main args w = (inr tt, w') -> entner_report args w w') /\
  (forall (args : SyntheticHighDimension.Args) (w w' : world G F),
      SyntheticHighDimension.main args w = (inr tt, w') ->
      high_dimension_report args w w').
Proof.
  split.
  - intros args w w' Hrun. apply entner_main. exact Hrun.
  - intros args w w' Hrun. apply high_dimension_main. exact Hrun.
Qed.

(** Witness of C6: two repetitions of three observations, in binary64,
    with stand-ins for the packages. *)
Lemma result_matrices_run :
  entner_report (SP := equal_odds) (IT := stub_independence_test) FloatRun.entner_args FloatRun.start
    (snd FloatRun.entner_run) /\
  high_dimension_report (SP := equal_odds) (CL := stub_causallib) (IR := stub_irm)
    FloatRun.high_dimension_args FloatRun.start (snd FloatRun.high_dimension_run).
Proof.
  split.
  - apply (proj1 (result_matrices (SP := equal_odds) (IT := stub_independence_test)
                    (CL := stub_causallib) (IR := stub_irm))
             FloatRun.entner_args FloatRun.start (snd FloatRun.entner_run)).
    vm_compute. reflexivity.
  - apply (proj2 (result_matrices (SP := equal_odds) (IT := stub_independence_test)
                    (CL := stub_causallib) (IR := stub_irm))
             FloatRun.high_dimension_args FloatRun.start (snd FloatRun.high_dimension_run)).
    vm_compute. reflexivity.
Defined.

(** Counterexample to C6 as stated, in binary64: two repetitions of
    [synthetic_high_dimension.py] whose first cell has the true effect
    [1.5] and whose other cells have [1], while the stand-in estimator
    answers [25] in both repetitions of the first column.  The standard
    error reported for this estimate is the one of the absolute errors
    [23.5] and [24], that is [0.25 / sqrt(2)]; the column of the result
    matrix [effect_baseline] is constant and its standard error is [0]. *)
Lemma standard_error_binary64 :
  exists (w' : world (tape float) float)
         (effect_true effect_baseline effect_irm_control effect_irm_treatment
          std : ndarray float),
    FloatRun.uneven_run = (inr tt, w') /\
    files w' =
      [mk_saved_file "synthetic_high_dimension/effect_true.csv" "," EmptyString
         effect_true;
       mk_saved_file "synthetic_high_dimension/effect_baseline.csv" "," EmptyString
         effect_baseline;
       mk_saved_file "synthetic_high_dimension/effect_irm_control.csv" "," EmptyString
         effect_irm_control;
       mk_saved_file "synthetic_high_dimension/effect_irm_treatment.csv" "," EmptyString
         effect_irm_treatment] /\
    last (stdout w') OutElapsed
      = OutFrame SyntheticHighDimension.error_index [25%Z; 45%Z; 65%Z] std /\
    column effect_true 0 = [0x1.8p+0; 1]%float /\
    column effect_baseline 0 = [25; 25]%float /\
    entry std 0 0 = 0x1.6a09e667f3bccp-3%float /\
    fdiv (population_std (column effect_baseline 0)) (fsqrt (of_int (Z.of_nat 2)))
      = 0%float /\
    PrimFloat.eqb (entry std 0 0)
      (fdiv (population_std (column effect_baseline 0)) (fsqrt (of_int (Z.of_nat 2))))
      = false.
Proof.
  do 6 eexists.
  split; [vm_compute; reflexivity |].
  split; [reflexivity |].
  split; [reflexivity |].
  repeat split; vm_compute; reflexivity.
Qed.

(** C7: the files a trial runner has written when it returns.
    [syn-entner.py] saves its three matrices.
    [synthetic_high_dimension.py] fills five matrices and saves four: no
    file holds [effect_oracle]. *)
Theorem files_written {F G : Type} {SF : Scalar F} {SP : Special F} {SQ : Sqrt F}
    {RS : RandomState F G} {IT : IndependenceTest F G} {CL : Causallib F G}
    {IR : IRM F G SyntheticHighDimension.Args} :
  (forall (args : SynEntner.Args) (w w' : world G F),
      SynEntner.main args w = (inr tt, w') ->
      map fname (files w') = map fname (files w) ++
        ["syn-entner/pvalue_empty.csv"; "syn-entner/pvalue_x3.csv";
         "syn-entner/pvalue_x2x3.csv"]%string) /\
  (forall (args : SyntheticHighDimension.Args) (w w' : world G F),
      SyntheticHighDimension.main args w = (inr tt, w') ->
      map fname (files w') = map fname (files w) ++
        ["synthetic_high_dimension/effect_true.csv";
         "synthetic_high_dimension/effect_baseline.csv";
         "synthetic_high_dimension/effect_irm_control.csv";
         "synthetic_high_dimension/effect_irm_treatment.csv"]%string).
Proof.
  split.
  - intros args w w' Hrun. apply entner_main in Hrun.
    destruct Hrun as (vals & m1 & m2 & m3 & a1 & a2 & a3 & s1 & s2 & s3 & pre & Hrun).
    destruct Hrun as (_ & _ & _ & _ & Hfiles & _).
    rewrite Hfiles, map_app. reflexivity.
  - intros args w w' Hrun. apply high_dimension_main in Hrun.
    destruct Hrun as (vals & m1 & m2 & m3 & m4 & m5 & d1 & d2 & d3 & d4
                      & s1 & s2 & s3 & s4 & avg & std & pre & Hrun).
    destruct Hrun as (_ & _ & Hfiles & _).
    rewrite Hfiles, map_app. reflexivity.
Qed.

(** Witness of C7: the same two runs. *)
Lemma files_written_run :
  map fname (files (snd FloatRun.entner_run)) = map fname (files FloatRun.start) ++
    ["syn-entner/pvalue_empty.csv"; "syn-entner/pvalue_x3.csv";
     "syn-entner/pvalue_x2x3.csv"]%string /\
  map fname (files (snd FloatRun.high_dimension_run)) = map fname (files FloatRun.start) ++
    ["synthetic_high_dimension/effect_true.csv";
     "synthetic_high_dimension/effect_baseline.csv";
     "synthetic_high_dimension/effect_irm_control.csv";
     "synthetic_high_dimension/effect_irm_treatment.csv"]%string.
Proof.
  split.
  - apply (proj1 (files_written (SP := equal_odds) (IT := stub_independence_test)
                    (CL := stub_causallib) (IR := stub_irm))
             FloatRun.entner_args FloatRun.start (snd FloatRun.entner_run)).
    vm_compute. reflexivity.
  - apply (proj2 (files_written (SP := equal_odds) (IT := stub_independence_test)
                    (CL := stub_causallib) (IR := stub_irm))
             FloatRun.high_dimension_args FloatRun.start (snd FloatRun.high_dimension_run)).
    vm_compute. reflexivity.
Defined.

(** C8: on every argument and every state of the random stream, [get_u],
    [get_theta], [get_data] and [get_train_test_data] of [syn-entner.py]
    return what the functions of the same names of
    [synthetic_high_dimension.py] return. *)
Theorem generators_shared {F G : Type} {SF : Scalar F} {SP : Special F}
    {RS : RandomState F G} :
  (forall (n d : nat) (g : G),
      SynEntner.get_u n d g = SyntheticHighDimension.get_u n d g) /\
  (forall (d : nat) (use k : Z) (g : G),
      SynEntner.get_theta d use k g = SyntheticHighDimension.get_theta d use k g) /\
  (forall (u1 u2 u3 u4 theta1 theta2 theta3 theta4 theta5 theta6 : ndarray F)
          (n d : nat) (use k : Z) (g : G),
      SynEntner.get_data u1 u2 u3 u4 theta1 theta2 theta3 theta4 theta5 theta6 n d use k g
      = SyntheticHighDimension.get_data
          u1 u2 u3 u4 theta1 theta2 theta3 theta4 theta5 theta6 n d use k g) /\
  (forall (n d : nat) (use k : Z) (g : G),
      SynEntner.get_train_test_data n d use k g
      = SyntheticHighDimension.get_train_test_data n d use k g).
Proof. repeat split. Qed.

(** C9, amended: with at least one observation and a number of
    environments other than 3, [get_data] raises and never returns.  It
    raises at the draw of the first row's environment, where
    [np.random.choice] has no candidate ([k <= 0]) or is given three
    probabilities for [k] candidates, unless [np.random.binomial] has
    rejected a treatment probability before; the latter needs a number
    that is not finite and does not happen in an exact arithmetic where
    [expit] answers with probabilities. *)
Theorem get_data_raises_off_default (s : script) {F G : Type} {SF : Scalar F}
    {SP : Special F} {RS : RandomState F G}
    (u1 u2 u3 u4 theta1 theta2 theta3 theta4 theta5 theta6 : ndarray F)
    (n d : nat) (use k : Z) (g : G) :
  latent_shapes n d u1 u2 u3 u4 ->
  coefficient_shapes d use theta1 theta2 theta3 theta4 theta5 theta6 ->
  1 <= n -> k <> 3%Z ->
  exists err g',
    get_data_of s u1 u2 u3 u4 theta1 theta2 theta3 theta4 theta5 theta6 n d use k g
      = (inl err, g') /\
    (err = ChoiceEmpty \/ err = ChoiceSize \/ err = BinomialArguments) /\
    (exact_arithmetic F -> expit_law F -> err = ChoiceEmpty \/ err = ChoiceSize).
Proof.
  intros Hu Htheta Hn Hk. rewrite get_data_of_entner.
  destruct (get_data_fails u1 u2 u3 u4 theta1 theta2 theta3 theta4 theta5 theta6
              n d use k g Hu Htheta Hn Hk) as (err & g' & Hrun & Hkind).
  exists err, g'. split; [exact Hrun |]. split.
  - destruct Hkind as [E | [E | [E _]]]; [left | right; left | right; right]; exact E.
  - intros Hexact Hexpit.
    destruct Hkind as [E | [E | [_ Hno]]]; [left; exact E | right; exact E |].
    contradiction Hno. split; assumption.
Qed.

(** Witness of C9: two observations and five environments, in exact
    arithmetic. *)
Lemma get_data_raises_off_default_run :
  exists err g',
    exact_get_data 2 5%Z = (inl err, g') /\ (err = ChoiceEmpty \/ err = ChoiceSize).
Proof.
  destruct (get_data_raises_off_default syn_entner (SP := equal_odds)
              (np_ones 2 1) (np_ones 2 1) (np_ones 2 1) (np_ones 2 1)
              (np_ones 2 1) (np_ones 3 1) (np_ones 2 1) ExactRun.theta4 (np_ones 2 1)
              ExactRun.theta6 2 1 1%Z 5%Z ExactRun.stream)
    as (err & g' & Hrun & _ & Hkind).
  - repeat split.
  - repeat split.
  - lia.
  - discriminate.
  - exists err, g'. split; [exact Hrun |].
    exact (Hkind exact_arithmetic_Qc equal_odds_expit_law).
Defined.

(** Counterexample to C9 as stated, without observations: with no row
    there is no environment to draw, and [get_data] returns its eight
    empty arrays for two environments. *)
Lemma get_data_returns_without_rows :
  latent_shapes 0 1 (np_ones (F := float) 0 1) (np_ones 0 1) (np_ones 0 1)
    (np_ones 0 1) /\
  coefficient_shapes 1 1%Z (np_ones (F := float) 2 1) (np_ones 3 1) (np_ones 2 1)
    FloatRun.theta4 (np_ones 2 1) FloatRun.theta6 /\
  exists x1 x2 x3 t e y y_0 y_1,
    FloatRun.get_data_run 0 2%Z FloatRun.silent_stream
      = (inr (x1, x2, x3, t, e, y, y_0, y_1), FloatRun.silent_stream) /\
    nrows e = 0.
Proof.
  split; [repeat split |]. split; [repeat split |].
  do 8 eexists. split; [vm_compute; reflexivity | reflexivity].
Qed.

(** C10, amended: in exact arithmetic, whenever [get_train_test_data]
    returns, its [true_ate] is [round(theta4[2d, 0], 6)] for the [theta4]
    it has drawn, whatever the latents, the other coefficients, the noise
    and the number of observations are. *)
Theorem true_ate_is_rounded_coefficient (s : script) {G : Type} {SP : Special Qc}
    {RS : RandomState Qc G} (n d : nat) (use k : Z) (g g1 g2 g' : G)
    (u1 u2 u3 u4 theta1 theta2 theta3 theta4 theta5 theta6 : ndarray Qc)
    (data : dataset Qc) :
  get_u_of s n d g = (inr (u1, u2, u3, u4), g1) ->
  get_theta_of s d use k g1
    = (inr (theta1, theta2, theta3, theta4, theta5, theta6), g2) ->
  get_train_test_data_of s n d use k g = (inr data, g') ->
  true_ate data = np_round (entry theta4 (2 * d) 0) 6.
Proof.
  rewrite get_u_of_entner, get_theta_of_entner, get_train_test_data_of_entner.
  apply true_ate_exact.
Qed.

(** Witness of C10: five observations and one dimension on the recorded
    stream. *)
Lemma true_ate_is_rounded_coefficient_run :
  exists (g1 g2 g' : tape Qc)
         (u1 u2 u3 u4 theta1 theta2 theta3 theta4 theta5 theta6 : ndarray Qc)
         (data : dataset Qc),
    get_u_of syn_entner 5 1 ExactRun.stream = (inr (u1, u2, u3, u4), g1) /\
    get_theta_of syn_entner 1 1%Z 3%Z g1
      = (inr (theta1, theta2, theta3, theta4, theta5, theta6), g2) /\
    get_train_test_data_of syn_entner (SP := equal_odds) 5 1 1%Z 3%Z ExactRun.stream
      = (inr data, g') /\
    true_ate data = np_round (entry theta4 (2 * 1) 0) 6.
Proof.
  do 14 eexists.
  match goal with |- ?A /\ _ => assert (Hu : A) by (vm_compute; reflexivity) end.
  split; [exact Hu |].
  match goal with |- ?A /\ _ => assert (Ht : A) by (vm_compute; reflexivity) end.
  split; [exact Ht |].
  match goal with |- ?A /\ _ => assert (Hr : A) by (vm_compute; reflexivity) end.
  split; [exact Hr |].
  exact (true_ate_is_rounded_coefficient syn_entner (SP := equal_odds)
           _ _ _ _ _ _ _ _ _ _ _ _ _ _ _ _ _ _ _ Hu Ht Hr).
Defined.

(** Counterexample to C10 as stated, in binary64.  With two observations,
    one dimension and [theta4[2, 0] = 1.0000015], every row has
    [y_1 - y_0 = (5 + theta4[2, 0]) - 5], one unit in the last place below
    [theta4[2, 0]]; its mean rounds to [1.000001] while [theta4[2, 0]]
    rounds to [1.000002]. *)
Lemma true_ate_rounding_binary64 :
  exists (g1 g2 g' : tape float)
         (u1 u2 u3 u4 theta1 theta2 theta3 theta4 theta5 theta6 : ndarray float)
         (data : dataset float),
    get_u_of syn_entner 2 1 FloatRun.rounding_stream = (inr (u1, u2, u3, u4), g1) /\
    get_theta_of syn_entner 1 1%Z 3%Z g1
      = (inr (theta1, theta2, theta3, theta4, theta5, theta6), g2) /\
    get_train_test_data_of syn_entner (SP := equal_odds) 2 1 1%Z 3%Z
        FloatRun.rounding_stream
      = (inr data, g') /\
    entry theta4 (2 * 1) 0 = 0x1.0000192a73711p+0%float /\
    np_round (entry theta4 (2 * 1) 0) 6 = 0x1.0000218def417p+0%float /\
    true_ate data = 0x1.000010c6f7a0bp+0%float /\
    PrimFloat.eqb (true_ate data) (np_round (entry theta4 (2 * 1) 0) 6) = false.
Proof.
  do 14 eexists.
  split; [vm_compute; reflexivity |].
  split; [vm_compute; reflexivity |].
  split; [vm_compute; reflexivity |].
  repeat split; vm_compute; reflexivity.
Qed.

(* ================================================================== *)
(** * Further properties of the generator *)

Section Latents.
Context {F G : Type} {SF : Scalar F} {RS : RandomState F G}.

Lemma get_u_ranges (n d : nat) (g g' : G) (u1 u2 u3 u4 : ndarray F) :
  uniform_law F G ->
  SynEntner.get_u n d g = (inr (u1, u2, u3, u4), g') ->
  all_entries (between (of_int 1%Z) (of_int 2%Z)) u1 /\
  all_entries (between (of_int 1%Z) (of_int 2%Z)) u2 /\
  all_entries (between (of_int 1%Z) (of_int 2%Z)) u3 /\
  all_entries (between (of_int 1%Z) (of_int 2%Z)) u4.
Proof.
  intros Hlaw Hrun. unfold SynEntner.get_u in Hrun. inv_run Hrun. inversion Hrun; subst.
  repeat match goal with
         | Hu : np_random_uniform _ _ _ _ _ = (inr _, _) |- _ =>
             apply (uniform_entries _ _ _ _ _ _ _ (fun g0 => proj1 (Hlaw g0))) in Hu;
             destruct Hu as (_ & _ & Hu)
         end.
  repeat split; assumption.
Qed.
End Latents.

(** X1: for every number of observations and every dimension that is
    not negative, [get_u] of either script returns, whatever the random
    stream is, and its four arrays have the shapes [(n, 1)], [(n, d)],
    [(n, d)], [(n, d)].  When the uniform draws lie between their bounds
    every entry lies between 1 and 2. *)
Theorem get_u_entries (s : script) {F G : Type} {SF : Scalar F} {RS : RandomState F G}
    (n d : nat) (g : G) :
  exists u1 u2 u3 u4 g',
    get_u_of s n d g = (inr (u1, u2, u3, u4), g') /\
    latent_shapes n d u1 u2 u3 u4 /\
    (uniform_law F G ->
     all_entries (between (of_int 1%Z) (of_int 2%Z)) u1 /\
     all_entries (between (of_int 1%Z) (of_int 2%Z)) u2 /\
     all_entries (between (of_int 1%Z) (of_int 2%Z)) u3 /\
     all_entries (between (of_int 1%Z) (of_int 2%Z)) u4).
Proof.
  rewrite get_u_of_entner.
  destruct (get_u_returns n d g) as (u1 & u2 & u3 & u4 & g' & Hrun).
  exists u1, u2, u3, u4, g'. split; [exact Hrun |].
  split; [exact (get_u_shapes _ _ _ _ _ _ _ _ Hrun) |].
  intros Hlaw. exact (get_u_ranges _ _ _ _ _ _ _ _ Hlaw Hrun).
Qed.

(** Witness of X1: five observations and one dimension in binary64, on a
    recorded stream; its uniform draws lie between their bounds. *)
Lemma get_u_entries_run :
  exists u1 u2 u3 u4 g',
    get_u_of syn_entner 5 1 FloatRun.rounding_stream = (inr (u1, u2, u3, u4), g') /\
    latent_shapes 5 1 u1 u2 u3 u4 /\
    all_entries (between (of_int 1%Z) (of_int 2%Z)) u1 /\
    all_entries (between (of_int 1%Z) (of_int 2%Z)) u2 /\
    all_entries (between (of_int 1%Z) (of_int 2%Z)) u3 /\
    all_entries (between (of_int 1%Z) (of_int 2%Z)) u4.
Proof.
  destruct (get_u_entries syn_entner 5 1 FloatRun.rounding_stream)
    as (u1 & u2 & u3 & u4 & g' & Hrun & Hshapes & Hranges).
  exists u1, u2, u3, u4, g'. split; [exact Hrun |]. split; [exact Hshapes |].
  exact (Hranges tape_uniform_law_binary64).
Defined.

Section Treatment.
Context {F G : Type} {SF : Scalar F} {SP : Special F} {RS : RandomState F G}.

Lemma treatment_shape
    (u1 u2 u3 u4 theta1 theta2 theta3 theta4 theta5 theta6 : ndarray F)
    (n d : nat) (use k : Z) (g g' : G)
    (x1 x2 x3 : ndarray F) (t e : ndarray Z) (y y_0 y_1 : ndarray F) :
  SynEntner.get_data u1 u2 u3 u4 theta1 theta2 theta3 theta4 theta5 theta6 n d use k g
    = (inr (x1, x2, x3, t, e, y, y_0, y_1), g') ->
  ncols t = ncols theta5.
Proof.
  intros Hrun. unfold SynEntner.get_data in Hrun.
  inv_run Hrun. inversion Hrun; subst. clear Hrun.
  match goal with
  | Ht : np_random_binomial _ _ _ = (inr _, _) |- _ =>
      apply np_random_binomial_inr in Ht; destruct Ht as (_ & _ & _ & Hc); rewrite Hc
  end.
  unfold sub_scalar. rewrite !ncols_map_array.
  match goal with
  | Hs : np_dot _ theta5 = inr ?s |- ncols ?s = _ =>
      apply np_dot_inr in Hs; destruct Hs as [_ ->]; apply ncols_tabulate
  end.
Qed.

Lemma observed_outcome
    (u1 u2 u3 u4 theta1 theta2 theta3 theta4 theta5 theta6 : ndarray F)
    (n d : nat) (use k : Z) (g g' : G)
    (x1 x2 x3 : ndarray F) (t e : ndarray Z) (y y_0 y_1 : ndarray F) (i : nat) :
  ncols theta4 = 1 -> ncols theta5 = 1 ->
  SynEntner.get_data u1 u2 u3 u4 theta1 theta2 theta3 theta4 theta5 theta6 n d use k g
    = (inr (x1, x2, x3, t, e, y, y_0, y_1), g') ->
  i < n ->
  (entry t i 0 = 0%Z -> entry y i 0 = entry y_0 i 0) /\
  (entry t i 0 = 1%Z -> entry y i 0 = entry y_1 i 0).
Proof.
  intros H4 H5 Hrun Hi.
  pose proof (treatment_shape _ _ _ _ _ _ _ _ _ _ _ _ _ _ _ _ _ _ _ _ _ _ _ _ Hrun) as Htc.
  rewrite H5 in Htc.
  apply get_data_outcomes in Hrun.
  destruct Hrun as (z & c & c0 & c1 & p & p0 & p1 & (Hc & Hp & Hy) & (Hc0 & Hp0 & Hy0)
                    & (Hc1 & Hp1 & Hy1) & Hzr & Hzc).
  assert (Htr : nrows t = n).
  { pose proof Hc as Ha. pose proof Hc0 as Hb.
    apply concatenate1_3_inr in Ha, Hb.
    destruct Ha as (_ & Ha & _), Hb as (_ & Hb & _).
    rewrite nrows_astype_float in Ha. rewrite nrows_np_zeros in Hb. lia. }
  assert (Hs : nrows (scale (lit 1 10) z) = n) by (rewrite nrows_scale; exact Hzr).
  assert (Hsc : ncols (scale (lit 1 10) z) = 1) by (rewrite ncols_scale; exact Hzc).
  destruct (outcome_entry x2 u4 _ theta4 _ c p y i Hc Hp Hy) as (_ & _ & _ & Ey);
    [ rewrite nrows_astype_float; lia | exact Hsc | rewrite ncols_astype_float; exact Htc
    | exact H4 | rewrite nrows_astype_float; lia |].
  destruct (outcome_entry x2 u4 _ theta4 _ c0 p0 y_0 i Hc0 Hp0 Hy0) as (_ & _ & _ & Ey0);
    [ rewrite nrows_np_zeros; lia | exact Hsc | apply ncols_np_zeros
    | exact H4 | rewrite nrows_np_zeros; lia |].
  destruct (outcome_entry x2 u4 _ theta4 _ c1 p1 y_1 i Hc1 Hp1 Hy1) as (_ & _ & _ & Ey1);
    [ rewrite nrows_np_ones; lia | exact Hsc | apply ncols_np_ones
    | exact H4 | rewrite nrows_np_ones; lia |].
  assert (Et : entry (astype_float (F := F) t) i 0 = of_int (entry t i 0)).
  { unfold astype_float, map_array. rewrite entry_tabulate by lia. reflexivity. }
  assert (E0 : entry (np_zeros (F := F) n 1) i 0 = of_int 0%Z).
  { unfold np_zeros. rewrite entry_tabulate by lia. reflexivity. }
  assert (E1 : entry (np_ones (F := F) n 1) i 0 = of_int 1%Z).
  { unfold np_ones. rewrite entry_tabulate by lia. reflexivity. }
  rewrite Ey, Ey0, Ey1, Et, E0, E1.
  split; intros ->; reflexivity.
Qed.
End Treatment.

(** X2: every observed outcome is the potential outcome of the arm the row
    received.  For either script and any arithmetic, when the coefficients
    have the shapes [get_theta] gives them and [get_data] returns, every
    row [i] has [t[i] = 0] and [y[i] = y_0[i]], or [t[i] = 1] and
    [y[i] = y_1[i]]; the equalities are exact, also in binary64. *)
Theorem observed_outcome_is_potential (s : script) {F G : Type} {SF : Scalar F}
    {SP : Special F} {RS : RandomState F G}
    (u1 u2 u3 u4 theta1 theta2 theta3 theta4 theta5 theta6 : ndarray F)
    (n d : nat) (use k : Z) (g g' : G)
    (x1 x2 x3 : ndarray F) (t e : ndarray Z) (y y_0 y_1 : ndarray F) :
  binomial_law F G ->
  coefficient_shapes d use theta1 theta2 theta3 theta4 theta5 theta6 ->
  get_data_of s u1 u2 u3 u4 theta1 theta2 theta3 theta4 theta5 theta6 n d use k g
    = (inr (x1, x2, x3, t, e, y, y_0, y_1), g') ->
  forall i, i < n ->
    (entry t i 0 = 0%Z /\ entry y i 0 = entry y_0 i 0) \/
    (entry t i 0 = 1%Z /\ entry y i 0 = entry y_1 i 0).
Proof.
  intros Hbin (_ & _ & _ & H4 & H5 & _) Hrun i Hi. rewrite get_data_of_entner in Hrun.
  apply shape_inv in H4, H5.
  destruct (observed_outcome _ _ _ _ _ _ _ _ _ _ _ _ _ _ _ _ _ _ _ _ _ _ _ _ i
              (proj2 H4) (proj2 H5) Hrun Hi) as [Ha Hb].
  assert (Ht : (0 <= entry t i 0 <= 1)%Z).
  { unfold SynEntner.get_data in Hrun. inv_run Hrun. inversion Hrun; subst.
    match goal with
    | Hd : np_random_binomial _ _ _ = (inr _, _) |- _ =>
        exact (binomial_entries 1%Z _ _ _ _ Hbin ltac:(lia) Hd i 0)
    end. }
  destruct (Z.eq_dec (entry t i 0) 0) as [E | E].
  - left. split; [exact E | exact (Ha E)].
  - right. assert (E1 : entry t i 0 = 1%Z) by lia. split; [exact E1 | exact (Hb E1)].
Qed.

(** Witness of X2: two observations in binary64; the recorded stream
    treats row 0 and leaves row 1 untreated. *)
Lemma observed_outcome_is_potential_run :
  exists x1 x2 x3 t e y y_0 y_1 g',
    float_get_data 2 3%Z FloatRun.noisy_stream
      = (inr (x1, x2, x3, t, e, y, y_0, y_1), g') /\
    ((entry t 0 0 = 0%Z /\ entry y 0 0 = entry y_0 0 0) \/
     (entry t 0 0 = 1%Z /\ entry y 0 0 = entry y_1 0 0)) /\
    ((entry t 1 0 = 0%Z /\ entry y 1 0 = entry y_0 1 0) \/
     (entry t 1 0 = 1%Z /\ entry y 1 0 = entry y_1 1 0)).
Proof.
  do 9 eexists.
  match goal with |- ?A /\ _ => assert (Hrun : A) by (vm_compute; reflexivity) end.
  split; [exact Hrun |].
  split.
  - refine (observed_outcome_is_potential syn_entner (SP := equal_odds)
              _ _ _ _ _ _ _ _ _ _ _ _ _ _ _ _ _ _ _ _ _ _ _ _
              tape_binomial_law _ Hrun 0 _); [repeat split | lia].
  - refine (observed_outcome_is_potential syn_entner (SP := equal_odds)
              _ _ _ _ _ _ _ _ _ _ _ _ _ _ _ _ _ _ _ _ _ _ _ _
              tape_binomial_law _ Hrun 1 _); [repeat split | lia].
Defined.

(* ================================================================== *)
(** * The labelled feature table *)

Lemma tabulate_ext {A : Type} (r c : nat) (f g : nat -> nat -> A) :
  (forall i j, i < r -> j < c -> f i j = g i j) -> tabulate r c f = tabulate r c g.
Proof.
  intros Hfg. unfold tabulate. f_equal.
  apply map_ext_in. intros i Hi. apply in_seq in Hi.
  apply map_ext_in. intros j Hj. apply in_seq in Hj.
  apply Hfg; lia.
Qed.

Lemma entry_out_rows {A : Type} `{Default A} (a : ndarray A) (i j : nat) :
  nrows a <= i -> entry a i j = default.
Proof.
  intros Hi. unfold entry. rewrite (nth_overflow (rows a)) by exact Hi.
  destruct j; reflexivity.
Qed.

Lemma combine_app {A B : Type} (l1 l2 : list A) (m1 m2 : list B) :
  length l1 = length m1 ->
  combine (l1 ++ l2) (m1 ++ m2) = combine l1 m1 ++ combine l2 m2.
Proof.
  revert m1. induction l1 as [| a l1 IH]; intros [| b m1] Hlen; simpl in *;
    try discriminate; [reflexivity |].
  f_equal. apply IH. lia.
Qed.

Lemma combine_repeat {A B : Type} (a : A) (n : nat) (l : list B) :
  length l = n -> combine (repeat a n) l = map (pair a) l.
Proof.
  intros <-. induction l as [| b l IH]; simpl; [reflexivity | f_equal; exact IH].
Qed.

(** The positions of a key among labels numbered from [s]. *)
Lemma positions_from_app (key : string) (l1 l2 : list (list string)) (s : nat) :
  map fst (filter (fun p => String.eqb (hd EmptyString (snd p)) key)
             (combine (seq s (length (l1 ++ l2))) (l1 ++ l2)))
  = map fst (filter (fun p => String.eqb (hd EmptyString (snd p)) key)
               (combine (seq s (length l1)) l1))
    ++ map fst (filter (fun p => String.eqb (hd EmptyString (snd p)) key)
                  (combine (seq (s + length l1) (length l2)) l2)).
Proof.
  rewrite length_app, seq_app, combine_app by (rewrite length_seq; reflexivity).
  rewrite filter_app, map_app. reflexivity.
Qed.

Lemma positions_from_all (key top : string) (f : nat -> string) (s n : nat) :
  map fst (filter (fun p => String.eqb (hd EmptyString (snd p)) key)
             (combine (seq s n) (map (fun i => [top; f i]) (seq s n))))
  = if String.eqb top key then seq s n else [].
Proof.
  assert (Hgen : forall m s1 s0,
             map fst (filter (fun p => String.eqb (hd EmptyString (snd p)) key)
                        (combine (seq s0 m) (map (fun i => [top; f i]) (seq s1 m))))
             = if String.eqb top key then seq s0 m else []).
  { induction m as [| m IH]; intros s1 s0.
    - simpl. destruct (String.eqb top key); reflexivity.
    - cbn [seq map combine filter snd hd]. specialize (IH (S s1) (S s0)).
      destruct (String.eqb top key) eqn:E.
      + cbn [map fst]. rewrite IH. reflexivity.
      + rewrite IH. reflexivity. }
  apply Hgen.
Qed.

Lemma feature_labels (d : nat) :
  from_arrays (repeat "x1"%string 1 ++ repeat "x2"%string d ++ repeat "x3"%string d)
              (map str (seq 0 (2 * d + 1)))
  = map (fun i => ["x1"%string; str i]) (seq 0 1)
    ++ map (fun i => ["x2"%string; str i]) (seq 1 d)
    ++ map (fun i => ["x3"%string; str i]) (seq (1 + d) d).
Proof.
  unfold from_arrays.
  replace (2 * d + 1) with (1 + (d + d)) by lia.
  rewrite !seq_app, !map_app.
  rewrite !combine_app by (rewrite repeat_length, length_map, length_seq; reflexivity).
  rewrite !map_app.
  rewrite !combine_repeat by (rewrite length_map, length_seq; reflexivity).
  rewrite !map_map. reflexivity.
Qed.

Lemma label_features_columns {F : Type} (features : ndarray F) (d : nat) (x : DataFrame F) :
  SynEntner.label_features features d = inr x ->
  ncols features = 2 * d + 1 /\
  columns x = map (fun i => ["x1"%string; str i]) (seq 0 1)
              ++ map (fun i => ["x2"%string; str i]) (seq 1 d)
              ++ map (fun i => ["x3"%string; str i]) (seq (1 + d) d).
Proof.
  unfold SynEntner.label_features, set_columns. cbn [values columns].
  rewrite length_map, length_seq.
  destruct (2 * d + 1 =? ncols features) eqn:E; [| discriminate].
  apply Nat.eqb_eq in E. cbn [values columns].
  destruct (_ =? ncols features); [| discriminate].
  intros Hx. injection Hx as <-. cbn [columns]. split; [lia |].
  rewrite map_map. apply feature_labels.
Qed.

Lemma positions_blocks (d : nat) (key : string) :
  positions (map (fun i => ["x1"%string; str i]) (seq 0 1)
             ++ map (fun i => ["x2"%string; str i]) (seq 1 d)
             ++ map (fun i => ["x3"%string; str i]) (seq (1 + d) d)) key
  = (if String.eqb "x1" key then seq 0 1 else [])
    ++ (if String.eqb "x2" key then seq 1 d else [])
    ++ (if String.eqb "x3" key then seq (1 + d) d else []).
Proof.
  unfold positions, enumerate.
  rewrite positions_from_app, positions_from_app.
  rewrite !length_map, !length_seq. change (0 + 1) with 1.
  rewrite !positions_from_all. reflexivity.
Qed.

Section Blocks.
Context {F : Type} {SF : Scalar F}.

Lemma select_x1 (df : DataFrame F) (d : nat) :
  columns df = map (fun i => ["x1"%string; str i]) (seq 0 1)
               ++ map (fun i => ["x2"%string; str i]) (seq 1 d)
               ++ map (fun i => ["x3"%string; str i]) (seq (1 + d) d) ->
  values (select df ["x1"%string])
  = tabulate (nrows (values df)) 1 (fun i j => entry (values df) i j).
Proof.
  intros Hc. unfold select. cbn [values flat_map]. rewrite Hc, positions_blocks.
  cbn [String.eqb Ascii.eqb Bool.eqb app seq length]. apply tabulate_ext.
  intros i j Hi Hj. destruct j; [reflexivity | lia].
Qed.

Lemma select_x2 (df : DataFrame F) (d : nat) :
  columns df = map (fun i => ["x1"%string; str i]) (seq 0 1)
               ++ map (fun i => ["x2"%string; str i]) (seq 1 d)
               ++ map (fun i => ["x3"%string; str i]) (seq (1 + d) d) ->
  values (select df ["x2"%string])
  = tabulate (nrows (values df)) d (fun i j => entry (values df) i (1 + j)).
Proof.
  intros Hc. unfold select. cbn [values flat_map]. rewrite Hc, positions_blocks.
  cbn [String.eqb Ascii.eqb Bool.eqb app]. rewrite !app_nil_r, length_seq.
  apply tabulate_ext. intros i j Hi Hj. rewrite seq_nth by exact Hj. reflexivity.
Qed.

Lemma select_x3 (df : DataFrame F) (d : nat) :
  columns df = map (fun i => ["x1"%string; str i]) (seq 0 1)
               ++ map (fun i => ["x2"%string; str i]) (seq 1 d)
               ++ map (fun i => ["x3"%string; str i]) (seq (1 + d) d) ->
  values (select df ["x3"%string])
  = tabulate (nrows (values df)) d (fun i j => entry (values df) i (1 + d + j)).
Proof.
  intros Hc. unfold select. cbn [values flat_map]. rewrite Hc, positions_blocks.
  cbn [String.eqb Ascii.eqb Bool.eqb app]. rewrite !app_nil_r, length_seq.
  apply tabulate_ext. intros i j Hi Hj. rewrite seq_nth by exact Hj. reflexivity.
Qed.

Lemma select_all (df : DataFrame F) (d : nat) :
  columns df = map (fun i => ["x1"%string; str i]) (seq 0 1)
               ++ map (fun i => ["x2"%string; str i]) (seq 1 d)
               ++ map (fun i => ["x3"%string; str i]) (seq (1 + d) d) ->
  values (select df ["x1"%string; "x2"%string; "x3"%string])
  = tabulate (nrows (values df)) (2 * d + 1) (fun i j => entry (values df) i j).
Proof.
  intros Hc. unfold select. cbn [values flat_map]. rewrite Hc, !positions_blocks.
  cbn [String.eqb Ascii.eqb Bool.eqb app]. rewrite !app_nil_r.
  change [0] with (seq 0 1).
  rewrite <- !seq_app, length_seq.
  replace (1 + (d + d)) with (2 * d + 1) by lia.
  apply tabulate_ext. intros i j Hi Hj. rewrite seq_nth by exact Hj. reflexivity.
Qed.

Lemma select_x2x3 (df : DataFrame F) (d : nat) :
  columns df = map (fun i => ["x1"%string; str i]) (seq 0 1)
               ++ map (fun i => ["x2"%string; str i]) (seq 1 d)
               ++ map (fun i => ["x3"%string; str i]) (seq (1 + d) d) ->
  values (select df ["x2"%string; "x3"%string])
  = tabulate (nrows (values df)) (d + d) (fun i j => entry (values df) i (1 + j)).
Proof.
  intros Hc. unfold select. cbn [values flat_map]. rewrite Hc, !positions_blocks.
  cbn [String.eqb Ascii.eqb Bool.eqb app]. rewrite !app_nil_r.
  rewrite <- seq_app, length_seq.
  apply tabulate_ext. intros i j Hi Hj. rewrite seq_nth by exact Hj. reflexivity.
Qed.

(** Concatenating the three covariate blocks, taking rows, labelling the
    columns and selecting a group again gives the rows of that block. *)
Lemma feature_blocks (x1 x2 x3 features : ndarray F) (d : nat) (idx : list nat)
    (df : DataFrame F) :
  concatenate1 [x1; x2; x3] = inr features ->
  ncols x1 = 1 -> ncols x2 = d -> ncols x3 = d ->
  SynEntner.label_features (take features idx) d = inr df ->
  values (select df ["x1"%string]) = take x1 idx /\
  values (select df ["x2"%string]) = take x2 idx /\
  values (select df ["x3"%string]) = take x3 idx /\
  values (select df ["x1"%string; "x2"%string; "x3"%string]) = take features idx /\
  exists x23, concatenate1 [x2; x3] = inr x23 /\
              values (select df ["x2"%string; "x3"%string]) = take x23 idx.
Proof.
  intros Hcat H1 H2 H3 Hdf.
  pose proof (label_features_values _ _ _ Hdf) as Hv.
  apply label_features_columns in Hdf. destruct Hdf as [Hw Hc].
  apply concatenate1_3_inr in Hcat. destruct Hcat as (Hr12 & Hr23 & Hf).
  assert (Hentry : forall i j, i < length idx -> j < 2 * d + 1 ->
             entry (values df) i j
             = if j <? 1 then entry x1 (nth i idx 0) j
               else if j - 1 <? d then entry x2 (nth i idx 0) (j - 1)
               else entry x3 (nth i idx 0) (j - 1 - d)).
  { intros i j Hi Hj. rewrite Hv. unfold take at 1.
    rewrite entry_tabulate; [| exact Hi | rewrite Hf, ncols_tabulate; lia].
    rewrite Hf.
    destruct (Nat.lt_ge_cases (nth i idx 0) (nrows x1)) as [Hin | Hout].
    - rewrite entry_tabulate; [| exact Hin | lia]. rewrite H1, H2. reflexivity.
    - rewrite entry_tabulate_out by (left; exact Hout).
      rewrite !entry_out_rows by lia.
      destruct (j <? 1); [reflexivity |]. destruct (j - 1 <? d); reflexivity. }
  assert (Hn : nrows (values df) = length idx) by (rewrite Hv; apply nrows_tabulate).
  destruct (concat2_ok x2 x3 Hr23) as (x23 & H23 & _).
  rewrite (select_x1 df d Hc), (select_x2 df d Hc), (select_x3 df d Hc), (select_all df d Hc).
  rewrite (select_x2x3 df d Hc).
  split; [| split; [| split; [| split; [| exists x23; split; [exact H23 |]]]]].
  5: { apply concatenate1_2_inr in H23. destruct H23 as [_ ->].
       rewrite Hn. unfold take. rewrite ncols_tabulate, H2, H3.
       apply tabulate_ext. intros i j Hi Hj. rewrite Hentry by lia.
       replace (1 + j <? 1) with false by (symmetry; apply Nat.ltb_ge; lia).
       replace (1 + j - 1) with j by lia.
       destruct (Nat.lt_ge_cases (nth i idx 0) (nrows x2)) as [Hin | Hout].
       - rewrite entry_tabulate; [| exact Hin | lia]. reflexivity.
       - rewrite entry_tabulate_out by (left; exact Hout).
         rewrite !entry_out_rows by lia. destruct (j <? d); reflexivity. }
  all: rewrite Hn; unfold take; rewrite ?H1, ?H2, ?H3, ?Hf, ?ncols_tabulate, ?H1, ?H2, ?H3.
  all: replace (1 + (d + d)) with (2 * d + 1) by lia.
  all: apply tabulate_ext; intros i j Hi Hj; rewrite Hentry by lia.
  - destruct j; [reflexivity | lia].
  - replace (1 + j <? 1) with false by (symmetry; apply Nat.ltb_ge; lia).
    replace (1 + j - 1) with j by lia.
    replace (j <? d) with true by (symmetry; apply Nat.ltb_lt; lia). reflexivity.
  - replace (1 + d + j <? 1) with false by (symmetry; apply Nat.ltb_ge; lia).
    replace (1 + d + j - 1 <? d) with false by (symmetry; apply Nat.ltb_ge; lia).
    replace (1 + d + j - 1 - d) with j by lia. reflexivity.
  - destruct (Nat.lt_ge_cases (nth i idx 0) (nrows x1)) as [Hin | Hout].
    + rewrite entry_tabulate; [| exact Hin | lia]. reflexivity.
    + rewrite entry_tabulate_out by (left; exact Hout).
      rewrite !entry_out_rows by lia.
      destruct (j <? 1); [reflexivity |]. destruct (j - 1 <? d); reflexivity.
Qed.
End Blocks.

Section Tables.
Context {F G : Type} {SF : Scalar F} {SP : Special F} {RS : RandomState F G}.

Lemma np_add_ncols (a b c : ndarray F) :
  np_add a b = inr c -> ncols a = ncols b -> ncols c = ncols a.
Proof.
  unfold np_add, broadcast2. intros Hc Hab.
  destruct (bdim (nrows a) (nrows b)); [| discriminate Hc].
  rewrite <- Hab, bdim_same in Hc. injection Hc as <-. apply ncols_tabulate.
Qed.

Lemma covariate_widths
    (u1 u2 u3 u4 theta1 theta2 theta3 theta4 theta5 theta6 : ndarray F)
    (n d : nat) (use k : Z) (g g' : G)
    (x1 x2 x3 : ndarray F) (t e : ndarray Z) (y y_0 y_1 : ndarray F) :
  ncols theta1 = 1 -> ncols theta2 = d -> ncols theta3 = d ->
  SynEntner.get_data u1 u2 u3 u4 theta1 theta2 theta3 theta4 theta5 theta6 n d use k g
    = (inr (x1, x2, x3, t, e, y, y_0, y_1), g') ->
  ncols x1 = 1 /\ ncols x2 = d /\ ncols x3 = d.
Proof.
  intros H1 H2 H3 Hrun. unfold SynEntner.get_data in Hrun.
  inv_run Hrun. inversion Hrun; subst. clear Hrun.
  repeat match goal with
         | Hn : np_random_normal _ _ _ _ _ = (inr _, _) |- _ =>
             apply np_random_normal_inr in Hn; destruct Hn
         end.
  repeat match goal with
         | Hd : np_dot _ ?th = inr ?p, Ha : np_add ?p (scale _ ?z) = inr ?x |- _ =>
             apply np_dot_inr in Hd; destruct Hd as [_ Hd];
             apply np_add_ncols in Ha; [| rewrite Hd, ncols_tabulate, ncols_scale; lia];
             rewrite Hd, ncols_tabulate in Ha
         end.
  repeat split; congruence.
Qed.

Lemma get_train_test_data_tables (n d : nat) (use k : Z) (g g1 g2 g3 g' : G)
    (u1 u2 u3 u4 theta1 theta2 theta3 theta4 theta5 theta6 : ndarray F)
    (x1 x2 x3 : ndarray F) (t e : ndarray Z) (y y_0 y_1 : ndarray F) (data : dataset F) :
  SynEntner.get_u n d g = (inr (u1, u2, u3, u4), g1) ->
  SynEntner.get_theta d use k g1
    = (inr (theta1, theta2, theta3, theta4, theta5, theta6), g2) ->
  SynEntner.get_data u1 u2 u3 u4 theta1 theta2 theta3 theta4 theta5 theta6 n d use k g2
    = (inr (x1, x2, x3, t, e, y, y_0, y_1), g3) ->
  SynEntner.get_train_test_data n d use k g = (inr data, g') ->
  exists features train test,
    concatenate1 [x1; x2; x3] = inr features /\
    split_indices (nrows features) (lit 2 10) g3 = (inr (train, test), g') /\
    SynEntner.label_features (take features train) d = inr (x_train data) /\
    SynEntner.label_features (take features test) d = inr (x_test data) /\
    t_train data = map (fun r => entry t r 0) train /\
    t_test data = map (fun r => entry t r 0) test.
Proof.
  intros Hu Ht Hd Hrun. unfold SynEntner.get_train_test_data in Hrun.
  unfold bind at 1 in Hrun. rewrite Hu in Hrun.
  unfold bind at 1 in Hrun. rewrite Ht in Hrun.
  unfold bind at 1 in Hrun. rewrite Hd in Hrun.
  inv_lift1 Hrun diff Hdiff.
  inv_lift1 Hrun features Hfeat.
  inv1 Hrun sp gs Hsp.
  destruct sp as [[[[[[[[[[[f1 f2] t1] t2] y1 ] y2] e1] e2] a1] a2] b1] b2].
  apply train_test_split_inv in Hsp.
  destruct Hsp as (train & test & Hidx & -> & -> & -> & -> & -> & -> & -> & -> & -> & -> & -> & ->).
  inv_lift1 Hrun xtr Hxtr.
  inv_lift1 Hrun ttr Httr. apply column0_take in Httr. destruct Httr as [_ ->].
  inv_lift1 Hrun ytr Hytr.
  inv_lift1 Hrun etr Hetr.
  inv_lift1 Hrun atr Hatr.
  inv_lift1 Hrun btr Hbtr.
  inv_lift1 Hrun xte Hxte.
  inv_lift1 Hrun tte Htte. apply column0_take in Htte. destruct Htte as [_ ->].
  inv_lift1 Hrun yte Hyte.
  inv_lift1 Hrun ete Hete.
  inv_lift1 Hrun ate Hate.
  inv_lift1 Hrun bte Hbte.
  apply ret_inr in Hrun. destruct Hrun as [-> ->].
  exists features, train, test. cbn.
  repeat split; first [assumption | reflexivity].
Qed.
End Tables.

(** X3: what the runners select from the feature table.  For either
    script, when [get_train_test_data] returns, the columns of [x_train]
    labelled [x1], [x2], [x3] are the rows of the simulated [x1], [x2],
    [x3] that the split put on the train side, [x_train[['x1','x2','x3']]]
    is the whole table and [x_train[['x2','x3']]] is [x2] beside [x3]; the
    same holds of [x_test] and the test side. *)
Theorem selected_blocks (s : script) {F G : Type} {SF : Scalar F} {SP : Special F}
    {RS : RandomState F G} (n d : nat) (use k : Z) (g g1 g2 g3 g' : G)
    (u1 u2 u3 u4 theta1 theta2 theta3 theta4 theta5 theta6 : ndarray F)
    (x1 x2 x3 : ndarray F) (t e : ndarray Z) (y y_0 y_1 : ndarray F) (data : dataset F) :
  get_u_of s n d g = (inr (u1, u2, u3, u4), g1) ->
  get_theta_of s d use k g1
    = (inr (theta1, theta2, theta3, theta4, theta5, theta6), g2) ->
  get_data_of s u1 u2 u3 u4 theta1 theta2 theta3 theta4 theta5 theta6 n d use k g2
    = (inr (x1, x2, x3, t, e, y, y_0, y_1), g3) ->
  get_train_test_data_of s n d use k g = (inr data, g') ->
  exists train test x23,
    concatenate1 [x2; x3] = inr x23 /\
    t_train data = map (fun r => entry t r 0) train /\
    t_test data = map (fun r => entry t r 0) test /\
    (values (select (x_train data) ["x1"%string]) = take x1 train /\
     values (select (x_train data) ["x2"%string]) = take x2 train /\
     values (select (x_train data) ["x3"%string]) = take x3 train /\
     values (select (x_train data) ["x1"%string; "x2"%string; "x3"%string])
       = values (x_train data) /\
     values (select (x_train data) ["x2"%string; "x3"%string]) = take x23 train) /\
    (values (select (x_test data) ["x1"%string]) = take x1 test /\
     values (select (x_test data) ["x2"%string]) = take x2 test /\
     values (select (x_test data) ["x3"%string]) = take x3 test /\
     values (select (x_test data) ["x1"%string; "x2"%string; "x3"%string])
       = values (x_test data) /\
     values (select (x_test data) ["x2"%string; "x3"%string]) = take x23 test).
Proof.
  rewrite get_u_of_entner, get_theta_of_entner, get_data_of_entner,
    get_train_test_data_of_entner.
  intros Hu Ht Hd Hrun.
  pose proof (get_theta_shapes _ _ _ _ _ _ _ _ _ _ _ Ht) as (S1 & S2 & S3 & _).
  apply shape_inv in S1, S2, S3.
  destruct (covariate_widths _ _ _ _ _ _ _ _ _ _ _ _ _ _ _ _ _ _ _ _ _ _ _ _
              (proj2 S1) (proj2 S2) (proj2 S3) Hd) as (W1 & W2 & W3).
  destruct (get_train_test_data_tables _ _ _ _ _ _ _ _ _ _ _ _ _ _ _ _ _ _ _ _ _ _ _ _ _ _ _ _
              Hu Ht Hd Hrun) as (features & train & test & Hcat & _ & Htr & Hte & Et & Ee).
  pose proof (label_features_values _ _ _ Htr) as Vtr.
  pose proof (label_features_values _ _ _ Hte) as Vte.
  destruct (feature_blocks x1 x2 x3 features d train _ Hcat W1 W2 W3 Htr)
    as (A1 & A2 & A3 & A4 & x23 & H23 & A5).
  destruct (feature_blocks x1 x2 x3 features d test _ Hcat W1 W2 W3 Hte)
    as (B1 & B2 & B3 & B4 & x23' & H23' & B5).
  rewrite H23 in H23'. injection H23' as <-.
  exists train, test, x23.
  split; [exact H23 |]. split; [exact Et |]. split; [exact Ee |].
  rewrite Vtr, Vte. repeat split; assumption.
Qed.

(** Witness of X3: three observations and two dimensions in binary64. *)
Lemma selected_blocks_run :
  exists (g1 g2 g3 g' : tape float)
         (u1 u2 u3 u4 theta1 theta2 theta3 theta4 theta5 theta6 : ndarray float)
         (x1 x2 x3 : ndarray float) (t e : ndarray Z) (y y_0 y_1 : ndarray float)
         (data : dataset float),
    get_u_of syn_entner 3 2 FloatRun.silent_stream = (inr (u1, u2, u3, u4), g1) /\
    get_theta_of syn_entner 2 1%Z 3%Z g1
      = (inr (theta1, theta2, theta3, theta4, theta5, theta6), g2) /\
    get_data_of syn_entner (SP := equal_odds)
        u1 u2 u3 u4 theta1 theta2 theta3 theta4 theta5 theta6 3 2 1%Z 3%Z g2
      = (inr (x1, x2, x3, t, e, y, y_0, y_1), g3) /\
    get_train_test_data_of syn_entner (SP := equal_odds) 3 2 1%Z 3%Z FloatRun.silent_stream
      = (inr data, g') /\
    exists train test x23,
      concatenate1 [x2; x3] = inr x23 /\
      t_train data = map (fun r => entry t r 0) train /\
      t_test data = map (fun r => entry t r 0) test /\
      (values (select (x_train data) ["x1"%string]) = take x1 train /\
       values (select (x_train data) ["x2"%string]) = take x2 train /\
       values (select (x_train data) ["x3"%string]) = take x3 train /\
       values (select (x_train data) ["x1"%string; "x2"%string; "x3"%string])
         = values (x_train data) /\
       values (select (x_train data) ["x2"%string; "x3"%string]) = take x23 train) /\
      (values (select (x_test data) ["x1"%string]) = take x1 test /\
       values (select (x_test data) ["x2"%string]) = take x2 test /\
       values (select (x_test data) ["x3"%string]) = take x3 test /\
       values (select (x_test data) ["x1"%string; "x2"%string; "x3"%string])
         = values (x_test data) /\
       values (select (x_test data) ["x2"%string; "x3"%string]) = take x23 test).
Proof.
  do 23 eexists.
  match goal with |- ?A /\ _ => assert (Hu : A) by (vm_compute; reflexivity) end.
  split; [exact Hu |].
  match goal with |- ?A /\ _ => assert (Ht : A) by (vm_compute; reflexivity) end.
  split; [exact Ht |].
  match goal with |- ?A /\ _ => assert (Hd : A) by (vm_compute; reflexivity) end.
  split; [exact Hd |].
  match goal with |- ?A /\ _ => assert (Hr : A) by (vm_compute; reflexivity) end.
  split; [exact Hr |].
  exact (selected_blocks syn_entner (SP := equal_odds)
           _ _ _ _ _ _ _ _ _ _ _ _ _ _ _ _ _ _ _ _ _ _ _ _ _ _ _ _ Hu Ht Hd Hr).
Defined.

(* ================================================================== *)
(** * When the dataset builder returns *)

Lemma label_features_ok {F : Type} (features : ndarray F) (d : nat) :
  ncols features = 2 * d + 1 ->
  exists df, SynEntner.label_features features d = inr df.
Proof.
  intros Hw. unfold SynEntner.label_features, set_columns. cbn [values columns].
  rewrite length_map, length_seq, Hw, Nat.eqb_refl. cbn [values columns].
  unfold from_arrays. rewrite length_map, length_combine, !length_app, !repeat_length.
  rewrite !length_map, length_seq, Hw.
  replace (Nat.min (1 + (d + d)) (2 * d + 1)) with (2 * d + 1) by lia.
  rewrite Nat.eqb_refl. eexists. reflexivity.
Qed.

Lemma Series_of_column0_ok {A : Type} `{Default A} (a : ndarray A) (idx : list nat) :
  ncols a = 1 ->
  Series_of_column0 (take a idx) = inr (map (fun r => entry a r 0) idx).
Proof.
  intros Hc. destruct (Series_of_column0 (take a idx)) as [err | s] eqn:E.
  - unfold Series_of_column0, take in E. rewrite ncols_tabulate, Hc in E. discriminate E.
  - apply column0_take in E. destruct E as [_ ->]. reflexivity.
Qed.

Section Builder.
Context {F G : Type} {SF : Scalar F} {SP : Special F} {RS : RandomState F G}.

(** With three environments, in an exact arithmetic where [expit] and
    [softmax] answer with probabilities, the dataset builder gets as far
    as the split, and what the split does decides its outcome. *)
Lemma get_train_test_data_split (n d : nat) (use : Z) (g : G) :
  exact_arithmetic F -> expit_law F -> softmax_law F ->
  exists (g3 : G) (features : ndarray F) (t e : ndarray Z) (y y_0 y_1 : ndarray F),
    nrows features = n /\ ncols features = 2 * d + 1 /\
    shape t = (n, 1) /\ shape e = (n, 1) /\
    shape y = (n, 1) /\ shape y_0 = (n, 1) /\ shape y_1 = (n, 1) /\
    (forall err, split_sizes n (lit 2 10) = inl err ->
       SynEntner.get_train_test_data n d use 3%Z g = (inl err, g3)) /\
    (forall n_train n_test, split_sizes n (lit 2 10) = inr (n_train, n_test) ->
       exists x_train x_test true_ate,
         let permutation := fst (draw_permutation n g3) in
         let train := firstn n_train (skipn n_test permutation) in
         let test := firstn n_test permutation in
         SynEntner.label_features (take features train) d = inr x_train /\
         SynEntner.label_features (take features test) d = inr x_test /\
         SynEntner.get_train_test_data n d use 3%Z g
         = (inr (mk_dataset x_train
                   (map (fun r => entry t r 0) train) (map (fun r => entry y r 0) train)
                   (map (fun r => entry e r 0) train) (map (fun r => entry y_0 r 0) train)
                   (map (fun r => entry y_1 r 0) train)
                   x_test
                   (map (fun r => entry t r 0) test) (map (fun r => entry y r 0) test)
                   (map (fun r => entry e r 0) test) (map (fun r => entry y_0 r 0) test)
                   (map (fun r => entry y_1 r 0) test)
                   true_ate),
            snd (draw_permutation n g3))).
Proof.
  intros Hexact Hexpit Hsoft.
  destruct (get_u_returns n d g) as (u1 & u2 & u3 & u4 & g1 & Hu).
  destruct (get_theta_returns d use 3%Z g1) as (t1 & t2 & t3 & t4 & t5 & t6 & g2 & Ht).
  destruct (get_data_ok u1 u2 u3 u4 t1 t2 t3 t4 t5 t6 n d use g2 Hexact Hexpit Hsoft
              (get_u_shapes _ _ _ _ _ _ _ _ Hu) (get_theta_shapes _ _ _ _ _ _ _ _ _ _ _ Ht))
    as (x1 & x2 & x3 & t & e & y & y_0 & y_1 & g3 & Hd & S1 & S2 & S3 & St & Se & Sy & S0 & Sy1).
  pose proof S1 as S1'. pose proof S2 as S2'. pose proof S3 as S3'.
  pose proof St as St'. pose proof Se as Se'. pose proof Sy as Sy'.
  pose proof S0 as S0'. pose proof Sy1 as Sy1'.
  apply shape_inv in S1', S2', S3', St', Se', Sy', S0', Sy1'.
  destruct S1' as [R1 C1], S2' as [R2 C2], S3' as [R3 C3], St' as [Rt Ct], Se' as [Re Ce].
  destruct Sy' as [Ry Cy], S0' as [R0 C0], Sy1' as [Ry1 Cy1].
  destruct (sub_ok y_1 y_0) as (diff & Hdiff & _); [lia | lia |].
  destruct (concat3_ok x1 x2 x3) as (features & Hcat & Rf & Cf); [lia | lia |].
  exists g3, features, t, e, y, y_0, y_1.
  split; [lia |]. split; [lia |].
  repeat (split; [assumption |]).
  assert (Hprefix :
             SynEntner.get_train_test_data n d use 3%Z g
             = bind (train_test_split features t y e y_0 y_1 (lit 2 10))
                 (fun sp =>
                    let '(features_train, features_test, t_train, t_test, y_train, y_test,
                          e_train, e_test, y_0_train, y_0_test, y_1_train, y_1_test) := sp in
                    x_train <- lift_result (SynEntner.label_features features_train d) ;;
                    t_train <- lift_result (Series_of_column0 t_train) ;;
                    y_train <- lift_result (Series_of_column0 y_train) ;;
                    e_train <- lift_result (Series_of_column0 e_train) ;;
                    y_0_train <- lift_result (Series_of_column0 y_0_train) ;;
                    y_1_train <- lift_result (Series_of_column0 y_1_train) ;;
                    x_test <- lift_result (SynEntner.label_features features_test d) ;;
                    t_test <- lift_result (Series_of_column0 t_test) ;;
                    y_test <- lift_result (Series_of_column0 y_test) ;;
                    e_test <- lift_result (Series_of_column0 e_test) ;;
                    y_0_test <- lift_result (Series_of_column0 y_0_test) ;;
                    y_1_test <- lift_result (Series_of_column0 y_1_test) ;;
                    ret (mk_dataset x_train t_train y_train e_train y_0_train y_1_train
                           x_test t_test y_test e_test y_0_test y_1_test
                           (np_round (np_mean diff) 6))) g3).
  { unfold SynEntner.get_train_test_data. replay. reflexivity. }
  assert (Hsplit : train_test_split features t y e y_0 y_1 (lit 2 10) g3
                   = bind (split_indices (G := G) n (lit 2 10))
                       (fun tt0 =>
                          let '(train, test) := tt0 in
                          ret (take features train, take features test, take t train,
                               take t test, take y train, take y test, take e train,
                               take e test, take y_0 train, take y_0 test,
                               take y_1 train, take y_1 test)) g3).
  { unfold train_test_split. rewrite Rf, R1, Rt, Ry, Re, R0, Ry1.
    cbn [forallb]. rewrite Nat.eqb_refl. reflexivity. }
  split.
  - intros err Hsz. rewrite Hprefix.
    apply bind_run_inl. rewrite Hsplit. apply bind_run_inl.
    unfold split_indices. apply bind_run_inl. rewrite Hsz. reflexivity.
  - intros n_train n_test Hsz.
    destruct (label_features_ok (take features
                (firstn n_train (skipn n_test (fst (draw_permutation n g3))))) d)
      as (xtr & Hxtr); [unfold take; rewrite ncols_tabulate; lia |].
    destruct (label_features_ok (take features
                (firstn n_test (fst (draw_permutation n g3)))) d)
      as (xte & Hxte); [unfold take; rewrite ncols_tabulate; lia |].
    exists xtr, xte, (np_round (np_mean diff) 6). cbv zeta.
    split; [exact Hxtr |]. split; [exact Hxte |].
    rewrite Hprefix.
    assert (Hidx : split_indices n (lit 2 10) g3
                   = (inr (firstn n_train (skipn n_test (fst (draw_permutation n g3))),
                           firstn n_test (fst (draw_permutation n g3))),
                      snd (draw_permutation n g3))).
    { unfold split_indices. rewrite (bind_lift_inr _ _ _ _ Hsz).
      unfold bind, np_random_permutation.
      destruct (draw_permutation n g3) as [l g4]. reflexivity. }
    erewrite bind_run_inr; [| rewrite Hsplit; erewrite bind_run_inr by exact Hidx; reflexivity].
    cbv beta iota.
    rewrite Hxtr, Hxte.
    rewrite !Series_of_column0_ok by assumption.
    reflexivity.
Qed.
End Builder.

Lemma split_sizes_Qc (n : nat) :
  let n_test := Z.to_nat (fceil (F := Qc) (fmul (lit 2 10) (of_int (Z.of_nat n)))) in
  n <= 5 * n_test < n + 5 /\
  split_sizes (F := Qc) n (lit 2 10)
  = if n <=? 1 then inl SplitError else inr (n - n_test, n_test).
Proof.
  cbv zeta. pose proof (ceil_fifth_Qc n) as Hc. split; [exact Hc |].
  unfold split_sizes.
  destruct (n <=? 1) eqn:E.
  - apply Nat.leb_le in E.
    replace (n - _ =? 0) with true by (symmetry; apply Nat.eqb_eq; lia). reflexivity.
  - apply Nat.leb_gt in E.
    replace (n - _ =? 0) with false by (symmetry; apply Nat.eqb_neq; lia). reflexivity.
Qed.

(** X4: with fewer than two observations the dataset builder of either
    script raises at the split.  In exact arithmetic, where [expit] and
    [softmax] answer with probabilities, and with three environments, for
    [n <= 1] the simulation runs, [train_test_split] finds that the train
    side would be empty, and [get_train_test_data] ends with its error. *)
Theorem get_train_test_data_needs_two_rows (s : script) {G : Type} {SP : Special Qc}
    {RS : RandomState Qc G} (n d : nat) (use : Z) (g : G) :
  expit_law Qc -> softmax_law Qc -> n <= 1 ->
  exists g', get_train_test_data_of s n d use 3%Z g = (inl SplitError, g').
Proof.
  intros Hexpit Hsoft Hn. rewrite get_train_test_data_of_entner.
  destruct (get_train_test_data_split n d use g exact_arithmetic_Qc Hexpit Hsoft)
    as (g3 & features & t & e & y & y_0 & y_1 & _ & _ & _ & _ & _ & _ & _ & Hfail & _).
  exists g3. apply Hfail.
  destruct (split_sizes_Qc n) as [_ ->].
  replace (n <=? 1) with true by (symmetry; apply Nat.leb_le; exact Hn). reflexivity.
Qed.

(** Witness of X4: one observation, two dimensions. *)
Lemma get_train_test_data_needs_two_rows_run :
  exists g',
    get_train_test_data_of syn_entner (SP := equal_odds) 1 2 1%Z 3%Z ExactRun.stream
    = (inl SplitError, g').
Proof.
  apply (get_train_test_data_needs_two_rows syn_entner (SP := equal_odds)
           1 2 1%Z ExactRun.stream).
  - exact equal_odds_expit_law.
  - exact equal_odds_softmax_law.
  - lia.
Defined.

(** X5: with at least two observations and three environments the dataset
    builder of either script returns.  In exact arithmetic, where [expit]
    and [softmax] answer with probabilities, when the shuffle is a
    permutation, the test side has [ceil(0.2 n)] rows, the
    train side the other rows, both at least one; the two feature tables
    have [2d + 1] columns and the five series of a side have its number
    of rows. *)
Theorem get_train_test_data_returns (s : script) {G : Type} {SP : Special Qc}
    {RS : RandomState Qc G} (n d : nat) (use : Z) (g : G) :
  expit_law Qc -> softmax_law Qc -> permutation_law Qc G -> 2 <= n ->
  exists data g' n_train n_test,
    get_train_test_data_of s n d use 3%Z g = (inr data, g') /\
    n_train + n_test = n /\ 1 <= n_train /\ 1 <= n_test /\ n <= 5 * n_test < n + 5 /\
    shape (values (x_train data)) = (n_train, 2 * d + 1) /\
    shape (values (x_test data)) = (n_test, 2 * d + 1) /\
    (length (t_train data) = n_train /\ length (y_train data) = n_train /\
     length (e_train data) = n_train /\ length (y_0_train data) = n_train /\
     length (y_1_train data) = n_train) /\
    (length (t_test data) = n_test /\ length (y_test data) = n_test /\
     length (e_test data) = n_test /\ length (y_0_test data) = n_test /\
     length (y_1_test data) = n_test).
Proof.
  intros Hexpit Hsoft Hperm Hn. rewrite get_train_test_data_of_entner.
  destruct (get_train_test_data_split n d use g exact_arithmetic_Qc Hexpit Hsoft)
    as (g3 & features & t & e & y & y_0 & y_1 & Rf & Cf & _ & _ & _ & _ & _ & _ & Hok).
  destruct (split_sizes_Qc n) as [Hc Hsz]. cbv zeta in Hc.
  replace (n <=? 1) with false in Hsz by (symmetry; apply Nat.leb_gt; lia).
  destruct (Hok _ _ Hsz) as (xtr & xte & ate & Hxtr & Hxte & Hrun). cbv zeta in Hxtr, Hxte, Hrun.
  set (n_test := Z.to_nat (fceil (fmul (lit 2 10) (of_int (Z.of_nat n))))) in *.
  pose proof (Permutation_length (Hperm n g3)) as Hlen. rewrite length_seq in Hlen.
  assert (Lte : length (firstn n_test (fst (draw_permutation n g3))) = n_test).
  { rewrite length_firstn. lia. }
  assert (Ltr : length (firstn (n - n_test) (skipn n_test (fst (draw_permutation n g3))))
                = n - n_test).
  { rewrite length_firstn, length_skipn. lia. }
  apply label_features_values in Hxtr, Hxte.
  eexists. exists (snd (draw_permutation n g3)), (n - n_test), n_test.
  split; [exact Hrun |]. cbn [x_train x_test t_train y_train e_train y_0_train y_1_train
                               t_test y_test e_test y_0_test y_1_test].
  rewrite Hxtr, Hxte. unfold shape, take. rewrite !nrows_tabulate, !ncols_tabulate.
  rewrite !length_map, Ltr, Lte, Cf.
  repeat split; lia.
Qed.

(** Witness of X5: five observations and one dimension on the recorded
    stream. *)
Lemma get_train_test_data_returns_run :
  exists data g' n_train n_test,
    get_train_test_data_of syn_entner (SP := equal_odds) 5 1 1%Z 3%Z ExactRun.stream
      = (inr data, g') /\
    n_train + n_test = 5 /\ 1 <= n_train /\ 1 <= n_test /\ 5 <= 5 * n_test < 5 + 5 /\
    shape (values (x_train data)) = (n_train, 2 * 1 + 1) /\
    shape (values (x_test data)) = (n_test, 2 * 1 + 1) /\
    (length (t_train data) = n_train /\ length (y_train data) = n_train /\
     length (e_train data) = n_train /\ length (y_0_train data) = n_train /\
     length (y_1_train data) = n_train) /\
    (length (t_test data) = n_test /\ length (y_test data) = n_test /\
     length (e_test data) = n_test /\ length (y_0_test data) = n_test /\
     length (y_1_test data) = n_test).
Proof.
  apply (get_train_test_data_returns syn_entner (SP := equal_odds)
           5 1 1%Z ExactRun.stream).
  - exact equal_odds_expit_law.
  - exact equal_odds_softmax_law.
  - exact tape_permutation_law.
  - lia.
Defined.

(* ================================================================== *)
(** * Further properties of the trial runners *)

(** ** Files and printed lines of a computation *)
Section Effects.
Context {G F : Type}.

Lemma keeps_ret {X : Type} (x : X) : keeps_files (G := G) (F := F) (ret x).
Proof. intros w. reflexivity. Qed.

Lemma keeps_bind {X Y : Type} (m : SE (world G F) X) (k : X -> SE (world G F) Y) :
  keeps_files m -> (forall x, keeps_files (k x)) -> keeps_files (bind m k).
Proof.
  intros Hm Hk w. unfold bind. specialize (Hm w).
  destruct (m w) as [[err | x] w1]; cbn [snd] in *; [exact Hm |].
  rewrite (Hk x w1). exact Hm.
Qed.

Lemma keeps_liftR {X : Type} (m : SE G X) : keeps_files (F := F) (liftR m).
Proof. intros w. unfold liftR. destruct (m (rng w)). reflexivity. Qed.

Lemma keeps_lift_result {X : Type} (r : result X) :
  keeps_files (G := G) (F := F) (lift_result r).
Proof. intros w. reflexivity. Qed.

Lemma keeps_print (o : output F) : keeps_files (G := G) (print o).
Proof. intros w. reflexivity. Qed.

Lemma keeps_for_each {A L : Type} (l : list A) (body : A -> L -> SE (world G F) L) :
  (forall x acc, keeps_files (body x acc)) -> forall acc, keeps_files (for_each l body acc).
Proof.
  intros Hbody. induction l as [| x l IH]; intros acc; cbn [for_each].
  - apply keeps_ret.
  - apply keeps_bind; [apply Hbody | exact IH].
Qed.

Lemma emits_ret {X : Type} (x : X) : emits (G := G) (F := F) (ret x) [].
Proof. intros w y w' H. injection H as _ <-. rewrite app_nil_r. reflexivity. Qed.

Lemma emits_bind {X Y : Type} (m : SE (world G F) X) (k : X -> SE (world G F) Y)
    (l1 l2 : list (output F)) :
  emits m l1 -> (forall x, emits (k x) l2) -> emits (bind m k) (l1 ++ l2).
Proof.
  intros Hm Hk w y w' H. apply bind_inr in H. destruct H as (x & w1 & H1 & H2).
  rewrite (Hk x _ _ _ H2), (Hm _ _ _ H1), app_assoc. reflexivity.
Qed.

Lemma emits_liftR {X : Type} (m : SE G X) : emits (F := F) (liftR m) [].
Proof.
  intros w x w' H. apply liftR_inr in H. destruct H as (_ & _ & ->).
  rewrite app_nil_r. reflexivity.
Qed.

Lemma emits_lift_result {X : Type} (r : result X) :
  emits (G := G) (F := F) (lift_result r) [].
Proof.
  intros w x w' H. apply lift_result_inr in H. destruct H as [_ ->].
  rewrite app_nil_r. reflexivity.
Qed.

Lemma emits_print (o : output F) : emits (G := G) (print o) [o].
Proof. intros w x w' H. apply print_inr in H. destruct H as (_ & _ & ->). reflexivity. Qed.

Lemma emits_for_each {A L : Type} (l : list A) (body : A -> L -> SE (world G F) L)
    (f : A -> list (output F)) :
  (forall x acc, emits (body x acc) (f x)) ->
  forall acc, emits (for_each l body acc) (flat_map f l).
Proof.
  intros Hbody. induction l as [| x l IH]; intros acc; cbn [for_each flat_map].
  - apply emits_ret.
  - apply emits_bind; [apply Hbody | exact IH].
Qed.

Lemma emits_eq {X : Type} (m : SE (world G F) X) (l l' : list (output F)) :
  emits m l -> l = l' -> emits m l'.
Proof. intros H <-. exact H. Qed.

Lemma bind_inl {S X Y : Type} (m : SE S X) (k : X -> SE S Y) (s s' : S) (e : exn) :
  bind m k s = (inl e, s') ->
  m s = (inl e, s') \/ exists x s1, m s = (inr x, s1) /\ k x s1 = (inl e, s').
Proof.
  unfold bind. destruct (m s) as [[err | x] s1]; intros H.
  - left. injection H as -> ->. reflexivity.
  - right. exists x, s1. split; [reflexivity | exact H].
Qed.

Lemma bind_print_inl {X : Type} (o : output F) (k : unit -> SE (world G F) X)
    (w w' : world G F) (e : exn) :
  bind (print o) k w = (inl e, w') -> exists w1, k tt w1 = (inl e, w').
Proof. unfold bind, print. intros H. eexists. exact H. Qed.

Lemma bind_savetxt_inl {X : Type} (name : string) (m : ndarray F) (delim : string)
    (k : unit -> SE (world G F) X) (w w' : world G F) (e : exn) :
  bind (np_savetxt name m delim) k w = (inl e, w') -> exists w1, k tt w1 = (inl e, w').
Proof. unfold bind, np_savetxt. intros H. eexists. exact H. Qed.

Lemma bind_lift_inl {S X Y : Type} (r : result X) (x : X) (k : X -> SE S Y)
    (s s' : S) (e : exn) :
  r = inr x -> bind (lift_result r) k s = (inl e, s') -> k x s = (inl e, s').
Proof. intros ->. intros H. exact H. Qed.
End Effects.

(** A computation put together from runs on the random stream, pure steps
    and prints writes no file. *)
Ltac keeps :=
  repeat first
    [ apply keeps_ret
    | apply keeps_print
    | apply keeps_liftR
    | apply keeps_lift_result
    | apply keeps_for_each;
      let x := fresh "x" in
      let acc := fresh "acc" in
      intros x acc; destruct_tuple acc; cbv beta iota zeta
    | apply keeps_bind;
      [| let x := fresh "x" in intros x; destruct_tuple x; cbv beta iota zeta ] ].

(** What such a computation prints: its prints, in order. *)
Ltac emitted :=
  repeat first
    [ apply emits_ret
    | apply emits_print
    | apply emits_liftR
    | apply emits_lift_result
    | eapply emits_for_each;
      let x := fresh "x" in
      let acc := fresh "acc" in
      intros x acc; destruct_tuple acc; cbv beta iota zeta
    | eapply emits_bind;
      [| let x := fresh "x" in intros x; destruct_tuple x; cbv beta iota zeta ] ].

Section ReportedRows.
Context {F : Type} {SF : Scalar F} {SQ : Sqrt F}.

Lemma length_np_mean_axis0 (m : ndarray F) : length (np_mean_axis0 m) = ncols m.
Proof. unfold np_mean_axis0. rewrite length_map, length_seq. reflexivity. Qed.

Lemma length_np_std_axis0 (ddof : nat) (m : ndarray F) :
  length (np_std_axis0 ddof m) = ncols m.
Proof. unfold np_std_axis0. rewrite length_map, length_seq. reflexivity. Qed.

Lemma reshape_row_inr {A : Type} (v : list A) (c : nat) (s : ndarray A) :
  reshape_row v c = inr s -> length v = c /\ s = mk_ndarray c [v].
Proof.
  unfold reshape_row. destruct (length v =? c) eqn:E; [| discriminate].
  apply Nat.eqb_eq in E. intros H. injection H as <-. split; [exact E | reflexivity].
Qed.

Lemma reshape_row_ok {A : Type} (v : list A) (c : nat) :
  length v = c -> reshape_row v c = inr (mk_ndarray c [v]).
Proof. intros <-. unfold reshape_row. rewrite Nat.eqb_refl. reflexivity. Qed.

Lemma mean_reported (L : nat) (m s : ndarray F) :
  reshape_row (np_mean_axis0 m) L = inr s -> reports_mean m s.
Proof.
  intros Hs. apply reshape_row_inr in Hs. destruct Hs as [Hlen ->].
  rewrite length_np_mean_axis0 in Hlen. subst L.
  unfold reports_mean, shape. cbn [nrows rows ncols length].
  split; [reflexivity |].
  intros j Hj. unfold entry. cbn [rows nth]. unfold np_mean_axis0.
  exact (nth_map_seq (fun j => mean_list (column m j)) (ncols m) j default Hj).
Qed.
End ReportedRows.

Section EntnerPrinted.
Context {F G : Type} {SF : Scalar F} {SP : Special F} {SQ : Sqrt F}
        {RS : RandomState F G} {IT : IndependenceTest F G}.

Lemma entner_prints (args : SynEntner.Args) (w w' : world G F) :
  SynEntner.main args w = (inr tt, w') -> entner_printed args w w'.
Proof.
  intros Hrun. unfold SynEntner.main in Hrun.
  apply bind_inr in Hrun. destruct Hrun as ([[pe p3] p23] & w1 & Hloop & Hrun).
  cbv beta iota in Hrun.
  assert (Hprogress : stdout w1 = stdout w
            ++ progress (SynEntner.nr args) SynEntner.number_dimensions_list).
  { revert Hloop. 
    match goal with
    | |- ?m w = _ -> _ =>
        enough (Hem : emits m (progress (SynEntner.nr args)
                                 SynEntner.number_dimensions_list))
          by (intros Hloop; exact (Hem _ _ _ Hloop))
    end.
    eapply emits_eq.
    - emitted.
    - unfold progress. apply flat_map_ext. intros r. reflexivity. }
  assert (Hfiles0 : files w1 = files w).
  { match type of Hloop with
    | ?m w = _ => assert (Hk : keeps_files m) by keeps
    end.
    specialize (Hk w). rewrite Hloop in Hk. exact Hk. }
  clear Hloop.
  repeat inv_world Hrun. apply ret_inr in Hrun. destruct Hrun as [_ ->].
  repeat match goal with
         | Hm : reshape_row (np_mean_axis0 _) _ = inr _ |- _ =>
             apply mean_reported in Hm
         end.
  exists pe, p3, p23. do 6 eexists.
  split.
  { repeat match goal with
           | Hf : files ?a = _ |- _ => rewrite Hf; clear Hf
           end.
    rewrite <- !app_assoc. reflexivity. }
  split.
  { repeat match goal with
           | Ho : stdout ?a = _ |- _ => rewrite Ho; clear Ho
           end.
    rewrite <- !app_assoc. reflexivity. }
  split; [eassumption | split; eassumption].
Qed.
End EntnerPrinted.

Section HighDimensionPrinted.
Context {F G : Type} {SF : Scalar F} {SP : Special F} {SQ : Sqrt F}
        {RS : RandomState F G} {CL : Causallib F G}
        {IR : IRM F G SyntheticHighDimension.Args}.

Lemma avg_ate_error_inr (a b s : ndarray F) (L : nat) :
  SyntheticHighDimension.avg_ate_error a b L = inr s ->
  exists d, np_sub a b = inr d /\ reports_mean (np_abs d) s.
Proof.
  unfold SyntheticHighDimension.avg_ate_error. intros Hs.
  destruct (np_sub a b) as [err | d] eqn:Hd; [discriminate Hs |].
  exists d. split; [reflexivity |]. exact (mean_reported L _ _ Hs).
Qed.

Lemma high_dimension_prints (args : SyntheticHighDimension.Args) (w w' : world G F) :
  SyntheticHighDimension.main args w = (inr tt, w') -> high_dimension_printed args w w'.
Proof.
  intros Hrun. unfold SyntheticHighDimension.main in Hrun.
  apply bind_inr in Hrun. destruct Hrun as ([[[[et eo] eb] ec] etr] & w1 & Hloop & Hrun).
  cbv beta iota in Hrun.
  assert (Hprogress : stdout w1 = stdout w
            ++ progress (SyntheticHighDimension.nr args)
                 SyntheticHighDimension.number_dimensions_list).
  { revert Hloop.
    match goal with
    | |- ?m w = _ -> _ =>
        enough (Hem : emits m (progress (SyntheticHighDimension.nr args)
                                 SyntheticHighDimension.number_dimensions_list))
          by (intros Hloop; exact (Hem _ _ _ Hloop))
    end.
    eapply emits_eq.
    - emitted.
    - unfold progress. apply flat_map_ext. intros r. reflexivity. }
  eapply (outer_loop (SyntheticHighDimension.cell args)
            SyntheticHighDimension.number_dimensions_list
            (SyntheticHighDimension.nr args) _
            (high_dimension_inv (SyntheticHighDimension.nr args))) with (vals := [])
    in Hloop.
  - destruct Hloop as (vals & Hcells & Hfiles0 & Hlen & (H1 & H2 & H3 & H4 & H5)).
    cbn [fst snd] in H1, H2, H3, H4, H5.
    repeat inv_world Hrun. apply ret_inr in Hrun. destruct Hrun as [_ ->].
    unfold high_dimension_printed.
    repeat match goal with
           | Hr : rng ?a = rng ?b |- _ => rewrite Hr in *; clear Hr
           end.
    repeat match goal with
           | Hs : SyntheticHighDimension.avg_ate_error _ _ _ = inr _ |- _ =>
               apply avg_ate_error_inr in Hs;
               let d := fresh "d" in
               let Hd := fresh "Hd" in
               let Hm := fresh "Hm" in
               destruct Hs as (d & Hd & Hm)
           end.
    exists vals, et, eo, eb, ec, etr.
    do 10 eexists.
    split; [exact Hcells |].
    split; [repeat (split; [eassumption |]); eassumption |].
    split.
    { repeat match goal with
             | Ho : stdout ?a = _ |- _ => rewrite Ho; clear Ho
             end.
      rewrite <- !app_assoc. reflexivity. }
    split; [repeat (split; [eassumption |]); eassumption |].
    split; [repeat (split; [eassumption |]); eassumption |].
    eassumption.
  - intros r i d acc wa acc' wb vals Hr Hd Hlen Hinv Hbody.
    cbv beta zeta in Hbody. cbn [fst snd] in Hbody.
    change (length SyntheticHighDimension.number_dimensions_list) with 3 in Hlen.
    eapply high_dimension_body; try eassumption.
    change 3 with (length SyntheticHighDimension.number_dimensions_list).
    apply nth_error_Some. rewrite Hd. discriminate.
  - lia.
  - reflexivity.
  - unfold high_dimension_inv. cbn [fst snd].
    change (length SyntheticHighDimension.number_dimensions_list) with 3.
    split; [| split; [| split; [| split]]]; apply filled_zeros.
Qed.
End HighDimensionPrinted.

(** ** A run with another number of environments than three *)
Section OffDefault.
Context {F G : Type} {SF : Scalar F} {SP : Special F} {RS : RandomState F G}.

Lemma off_default_kinds (err : exn) :
  err = ChoiceEmpty \/ err = ChoiceSize \/
  (err = BinomialArguments /\ ~ (exact_arithmetic F /\ expit_law F)) ->
  (err = ChoiceEmpty \/ err = ChoiceSize \/ err = BinomialArguments) /\
  (exact_arithmetic F -> expit_law F -> err = ChoiceEmpty \/ err = ChoiceSize).
Proof.
  intros [E | [E | [E Hno]]]; split; auto.
  intros Hexact Hexpit. contradiction Hno. split; assumption.
Qed.

Lemma get_train_test_data_fails (n d : nat) (use k : Z) (g : G) :
  1 <= n -> k <> 3%Z ->
  exists err g',
    SynEntner.get_train_test_data n d use k g = (inl err, g') /\
    (err = ChoiceEmpty \/ err = ChoiceSize \/
     (err = BinomialArguments /\ ~ (exact_arithmetic F /\ expit_law F))).
Proof.
  intros Hn Hk.
  destruct (get_u_returns n d g) as (u1 & u2 & u3 & u4 & g1 & Hu).
  destruct (get_theta_returns d use k g1) as (t1 & t2 & t3 & t4 & t5 & t6 & g2 & Ht).
  destruct (get_data_fails u1 u2 u3 u4 t1 t2 t3 t4 t5 t6 n d use k g2
              (get_u_shapes _ _ _ _ _ _ _ _ Hu)
              (get_theta_shapes _ _ _ _ _ _ _ _ _ _ _ Ht) Hn Hk)
    as (err & g3 & Hd & Hkind).
  exists err, g3. split; [| exact Hkind].
  unfold SynEntner.get_train_test_data.
  rewrite (bind_run_inr _ _ _ _ _ Hu). cbv beta iota.
  rewrite (bind_run_inr _ _ _ _ _ Ht). cbv beta iota.
  apply bind_run_inl. exact Hd.
Qed.
End OffDefault.

Section EntnerCrash.
Context {F G : Type} {SF : Scalar F} {SP : Special F} {SQ : Sqrt F}
        {RS : RandomState F G} {IT : IndependenceTest F G}.

Lemma entner_crash (args : SynEntner.Args) (w : world G F) :
  1 <= SynEntner.nr args -> 1 <= SynEntner.no args -> SynEntner.ne args <> 3%Z ->
  exists err w',
    SynEntner.main args w = (inl err, w') /\
    (err = ChoiceEmpty \/ err = ChoiceSize \/
     (err = BinomialArguments /\ ~ (exact_arithmetic F /\ expit_law F))) /\
    files w' = files w /\
    stdout w' = stdout w ++ [OutInt 1; OutInt 5].
Proof.
  intros Hnr Hno Hne.
  destruct (get_train_test_data_fails (SynEntner.no args) 2 (SynEntner.use_t_in_e args)
              (SynEntner.ne args) (rng w) Hno Hne) as (err & g' & Hrun & Hkind).
  exists err, (mk_world g' ((stdout w ++ [OutInt 1]) ++ [OutInt 5]) (files w)).
  split; [| split; [exact Hkind | split; [reflexivity |]]].
  - unfold SynEntner.main.
    destruct (SynEntner.nr args) as [| nr']; [lia |].
    cbn [seq for_each SynEntner.number_dimensions_list enumerate length combine].
    unfold bind, print, liftR. cbv beta iota zeta. cbn [rng stdout files fst snd].
    rewrite Hrun. reflexivity.
  - cbn [stdout]. rewrite <- app_assoc. reflexivity.
Qed.
End EntnerCrash.

Section HighDimensionCrash.
Context {F G : Type} {SF : Scalar F} {SP : Special F} {SQ : Sqrt F}
        {RS : RandomState F G} {CL : Causallib F G}
        {IR : IRM F G SyntheticHighDimension.Args}.

Lemma high_dimension_crash (args : SyntheticHighDimension.Args) (w : world G F) :
  1 <= SyntheticHighDimension.nr args -> 1 <= SyntheticHighDimension.no args ->
  SyntheticHighDimension.ne args <> 3%Z ->
  exists err w',
    SyntheticHighDimension.main args w = (inl err, w') /\
    (err = ChoiceEmpty \/ err = ChoiceSize \/
     (err = BinomialArguments /\ ~ (exact_arithmetic F /\ expit_law F))) /\
    files w' = files w /\
    stdout w' = stdout w ++ [OutInt 1; OutInt 25].
Proof.
  intros Hnr Hno Hne.
  destruct (get_train_test_data_fails (SyntheticHighDimension.no args) 12
              (SyntheticHighDimension.use_t_in_e args)
              (SyntheticHighDimension.ne args) (rng w) Hno Hne)
    as (err & g' & Hrun & Hkind).
  exists err, (mk_world g' ((stdout w ++ [OutInt 1]) ++ [OutInt 25]) (files w)).
  split; [| split; [exact Hkind | split; [reflexivity |]]].
  - unfold SyntheticHighDimension.main.
    destruct (SyntheticHighDimension.nr args) as [| nr']; [lia |].
    cbn [seq for_each SyntheticHighDimension.number_dimensions_list enumerate length
         combine].
    unfold bind, print, liftR. cbv beta iota zeta. cbn [rng stdout files fst snd].
    change (SyntheticHighDimension.get_train_test_data (F := F) (G := G))
      with (SynEntner.get_train_test_data (F := F) (G := G)).
    rewrite Hrun. reflexivity.
  - cbn [stdout]. rewrite <- app_assoc. reflexivity.
Qed.
End HighDimensionCrash.

(** ** A runner that raises has written no file *)
Section EntnerFails.
Context {F G : Type} {SF : Scalar F} {SP : Special F} {SQ : Sqrt F}
        {RS : RandomState F G} {IT : IndependenceTest F G}.

Lemma entner_failure (args : SynEntner.Args) (w w' : world G F) (e : exn) :
  SynEntner.main args w = (inl e, w') -> files w' = files w.
Proof.
  intros Hrun. unfold SynEntner.main in Hrun.
  apply bind_inl in Hrun. destruct Hrun as [Hloop | ([[pe p3] p23] & w1 & Hloop & Hrun)].
  - match type of Hloop with
    | ?m w = _ => assert (Hk : keeps_files m) by keeps
    end.
    specialize (Hk w). rewrite Hloop in Hk. exact Hk.
  - exfalso. cbv beta iota in Hrun.
    eapply (outer_loop (SynEntner.cell args) SynEntner.number_dimensions_list
              (SynEntner.nr args) _ (entner_inv (SynEntner.nr args))) with (vals := [])
      in Hloop.
    + destruct Hloop as (vals & _ & _ & _ & ([H1 _] & [H2 _] & [H3 _])).
      cbn [fst snd] in H1, H2, H3.
      apply shape_inv in H1, H2, H3.
      destruct H1 as [_ H1], H2 as [_ H2], H3 as [_ H3].
      change (length SynEntner.number_dimensions_list) with 3 in Hrun.
      repeat first
        [ apply bind_savetxt_inl in Hrun; destruct Hrun as (? & Hrun)
        | apply bind_print_inl in Hrun; destruct Hrun as (? & Hrun)
        | eapply bind_lift_inl in Hrun;
          [| apply reshape_row_ok;
             first [rewrite length_np_mean_axis0 | rewrite length_np_std_axis0];
             assumption ] ].
      discriminate Hrun.
    + intros r i d acc wa acc' wb vals Hr Hd Hlen Hinv Hbody.
      cbv beta zeta in Hbody. cbn [fst snd] in Hbody.
      change (length SynEntner.number_dimensions_list) with 3 in Hlen.
      eapply entner_body; try eassumption.
      change 3 with (length SynEntner.number_dimensions_list).
      apply nth_error_Some. rewrite Hd. discriminate.
    + lia.
    + reflexivity.
    + unfold entner_inv. cbn [fst snd].
      change (length SynEntner.number_dimensions_list) with 3.
      split; [| split]; apply filled_zeros.
Qed.
End EntnerFails.

Section HighDimensionFails.
Context {F G : Type} {SF : Scalar F} {SP : Special F} {SQ : Sqrt F}
        {RS : RandomState F G} {CL : Causallib F G}
        {IR : IRM F G SyntheticHighDimension.Args}.

Lemma np_sub_ok (a b : ndarray F) (R L : nat) :
  shape a = (R, L) -> shape b = (R, L) ->
  exists d, np_sub a b = inr d /\ ncols d = L.
Proof.
  intros Ha Hb. apply shape_inv in Ha, Hb. destruct Ha as [Har Hac], Hb as [Hbr Hbc].
  eexists. split.
  - unfold np_sub. apply broadcast2_same; congruence.
  - rewrite ncols_tabulate. exact Hac.
Qed.

Lemma avg_ate_error_ok (a b : ndarray F) (R L : nat) :
  shape a = (R, L) -> shape b = (R, L) ->
  exists s, SyntheticHighDimension.avg_ate_error a b L = inr s /\ ncols s = L.
Proof.
  intros Ha Hb. destruct (np_sub_ok a b R L Ha Hb) as (d & Hd & Hc).
  unfold SyntheticHighDimension.avg_ate_error. rewrite Hd.
  rewrite reshape_row_ok.
  - eexists. split; reflexivity.
  - rewrite length_np_mean_axis0. unfold np_abs. rewrite ncols_map_array. exact Hc.
Qed.

Lemma std_ate_error_ok (a b : ndarray F) (R L n : nat) :
  shape a = (R, L) -> shape b = (R, L) ->
  exists s, SyntheticHighDimension.std_ate_error a b L n = inr s /\ ncols s = L.
Proof.
  intros Ha Hb. destruct (np_sub_ok a b R L Ha Hb) as (d & Hd & Hc).
  unfold SyntheticHighDimension.std_ate_error. rewrite Hd.
  rewrite reshape_row_ok.
  - eexists. split; [reflexivity |]. unfold div_scalar. rewrite ncols_map_array.
    reflexivity.
  - rewrite length_np_std_axis0. unfold np_abs. rewrite ncols_map_array. exact Hc.
Qed.

Lemma concatenate0_ok (a b c d : ndarray F) (L : nat) :
  ncols a = L -> ncols b = L -> ncols c = L -> ncols d = L ->
  exists m, concatenate0 [a; b; c; d] = inr m.
Proof.
  intros Ha Hb Hc Hd. cbn [concatenate0]. unfold vstack2.
  rewrite Hc, Hd, Nat.eqb_refl. rewrite ncols_tabulate, Hb, Nat.eqb_refl.
  rewrite ncols_tabulate, Ha, Nat.eqb_refl. eexists. reflexivity.
Qed.

Lemma high_dimension_failure (args : SyntheticHighDimension.Args) (w w' : world G F)
    (e : exn) :
  SyntheticHighDimension.main args w = (inl e, w') -> files w' = files w.
Proof.
  intros Hrun. unfold SyntheticHighDimension.main in Hrun.
  apply bind_inl in Hrun.
  destruct Hrun as [Hloop | ([[[[et eo] eb] ec] etr] & w1 & Hloop & Hrun)].
  - match type of Hloop with
    | ?m w = _ => assert (Hk : keeps_files m) by keeps
    end.
    specialize (Hk w). rewrite Hloop in Hk. exact Hk.
  - exfalso. cbv beta iota in Hrun.
    eapply (outer_loop (SyntheticHighDimension.cell args)
              SyntheticHighDimension.number_dimensions_list
              (SyntheticHighDimension.nr args) _
              (high_dimension_inv (SyntheticHighDimension.nr args))) with (vals := [])
      in Hloop.
    + destruct Hloop as (vals & _ & _ & _ & ([H1 _] & [H2 _] & [H3 _] & [H4 _] & [H5 _])).
      cbn [fst snd] in H1, H2, H3, H4, H5.
      change (length SyntheticHighDimension.number_dimensions_list) with 3 in Hrun.
      destruct (avg_ate_error_ok eb et _ _ H3 H1) as (a1 & Ea1 & Ha1).
      destruct (avg_ate_error_ok ec et _ _ H4 H1) as (a2 & Ea2 & Ha2).
      destruct (avg_ate_error_ok etr et _ _ H5 H1) as (a3 & Ea3 & Ha3).
      destruct (avg_ate_error_ok eo et _ _ H2 H1) as (a4 & Ea4 & Ha4).
      destruct (std_ate_error_ok eb et _ _ (SyntheticHighDimension.nr args) H3 H1)
        as (s1 & Es1 & Hs1).
      destruct (std_ate_error_ok ec et _ _ (SyntheticHighDimension.nr args) H4 H1)
        as (s2 & Es2 & Hs2).
      destruct (std_ate_error_ok etr et _ _ (SyntheticHighDimension.nr args) H5 H1)
        as (s3 & Es3 & Hs3).
      destruct (std_ate_error_ok eo et _ _ (SyntheticHighDimension.nr args) H2 H1)
        as (s4 & Es4 & Hs4).
      destruct (concatenate0_ok a1 a4 a2 a3 3 Ha1 Ha4 Ha2 Ha3) as (avg & Eavg).
      destruct (concatenate0_ok s1 s4 s2 s3 3 Hs1 Hs4 Hs2 Hs3) as (std & Estd).
      repeat first
        [ apply bind_savetxt_inl in Hrun; destruct Hrun as (? & Hrun)
        | apply bind_print_inl in Hrun; destruct Hrun as (? & Hrun)
        | eapply bind_lift_inl in Hrun; [| eassumption] ].
      discriminate Hrun.
    + intros r i d acc wa acc' wb vals Hr Hd Hlen Hinv Hbody.
      cbv beta zeta in Hbody. cbn [fst snd] in Hbody.
      change (length SyntheticHighDimension.number_dimensions_list) with 3 in Hlen.
      eapply high_dimension_body; try eassumption.
      change 3 with (length SyntheticHighDimension.number_dimensions_list).
      apply nth_error_Some. rewrite Hd. discriminate.
    + lia.
    + reflexivity.
    + unfold high_dimension_inv. cbn [fst snd].
      change (length SyntheticHighDimension.number_dimensions_list) with 3.
      split; [| split; [| split; [| split]]]; apply filled_zeros.
Qed.
End HighDimensionFails.

(** X6: what the trial runners have printed when they return.  Both print,
    for every repetition, its number, the width [2d + 1] of every feature
    table of the grid and the elapsed time.  [syn-entner.py] then prints
    the column means of its three saved matrices and three more arrays;
    [synthetic_high_dimension.py] prints two tables whose columns are 25,
    45 and 65 and whose rows are, in this order, the baseline on all
    features, the oracle on [x2], and the two invariant-feature estimates:
    the first table holds the column means of their absolute errors. *)
Theorem runners_print {F G : Type} {SF : Scalar F} {SP : Special F} {SQ : Sqrt F}
    {RS : RandomState F G} {IT : IndependenceTest F G} {CL : Causallib F G}
    {IR : IRM F G SyntheticHighDimension.Args} :
  (forall (args : SynEntner.Args) (w w' : world G F),
      SynEntner.main args w = (inr tt, w') -> entner_printed args w w') /\
  (forall (args : SyntheticHighDimension.Args) (w w' : world G F),
      SyntheticHighDimension.main args w = (inr tt, w') ->
      high_dimension_printed args w w').
Proof.
  split.
  - intros args w w'. apply entner_prints.
  - intros args w w'. apply high_dimension_prints.
Qed.

(** Witness of X6: two repetitions of either runner in binary64. *)
Lemma runners_print_run :
  entner_printed FloatRun.entner_args FloatRun.start (snd FloatRun.entner_run) /\
  high_dimension_printed (SP := equal_odds) (CL := stub_causallib) (IR := stub_irm)
    FloatRun.high_dimension_args FloatRun.start (snd FloatRun.high_dimension_run).
Proof.
  split.
  - apply (proj1 (runners_print (SP := equal_odds) (IT := stub_independence_test)
                    (CL := stub_causallib) (IR := stub_irm))
             FloatRun.entner_args FloatRun.start (snd FloatRun.entner_run)).
    vm_compute. reflexivity.
  - apply (proj2 (runners_print (SP := equal_odds) (IT := stub_independence_test)
                    (CL := stub_causallib) (IR := stub_irm))
             FloatRun.high_dimension_args FloatRun.start (snd FloatRun.high_dimension_run)).
    vm_compute. reflexivity.
Defined.

(** X7: a trial runner that raises has written no file.  Whatever the
    error, and at whichever cell, the files are those from before the run:
    the matrices are saved only after the last repetition, and with the
    saving and the printing taken to succeed nothing after the loop
    raises, whatever the matrices hold. *)
Theorem no_file_on_error {F G : Type} {SF : Scalar F} {SP : Special F} {SQ : Sqrt F}
    {RS : RandomState F G} {IT : IndependenceTest F G} {CL : Causallib F G}
    {IR : IRM F G SyntheticHighDimension.Args} :
  (forall (args : SynEntner.Args) (w w' : world G F) (e : exn),
      SynEntner.main args w = (inl e, w') -> files w' = files w) /\
  (forall (args : SyntheticHighDimension.Args) (w w' : world G F) (e : exn),
      SyntheticHighDimension.main args w = (inl e, w') -> files w' = files w).
Proof.
  split.
  - intros args w w' e. apply entner_failure.
  - intros args w w' e. apply high_dimension_failure.
Qed.

(** Witness of X7: the two runs with two environments raise. *)
Lemma no_file_on_error_run :
  files (snd OffDefaultRun.entner_run) = files FloatRun.start /\
  files (snd OffDefaultRun.high_dimension_run) = files FloatRun.start.
Proof.
  split.
  - apply (proj1 (no_file_on_error (SP := equal_odds) (IT := stub_independence_test)
                    (CL := stub_causallib) (IR := stub_irm))
             OffDefaultRun.entner_args FloatRun.start (snd OffDefaultRun.entner_run)
             ChoiceSize).
    vm_compute. reflexivity.
  - apply (proj2 (no_file_on_error (SP := equal_odds) (IT := stub_independence_test)
                    (CL := stub_causallib) (IR := stub_irm))
             OffDefaultRun.high_dimension_args FloatRun.start
             (snd OffDefaultRun.high_dimension_run) ChoiceSize).
    vm_compute. reflexivity.
Defined.

(** X8: with another number of environments than three, at least one
    repetition and at least one observation, either trial runner raises in
    its first cell, whatever the random stream and the estimators: the
    error is the one of [np.random.choice], unless [np.random.binomial]
    has rejected a treatment probability before, which does not happen in
    an exact arithmetic where [expit] answers with probabilities; the run
    has printed the repetition number 1 and the width of the first feature
    table (5, and 25), and no file is written. *)
Theorem runners_raise_off_default {F G : Type} {SF : Scalar F} {SP : Special F}
    {SQ : Sqrt F} {RS : RandomState F G} {IT : IndependenceTest F G}
    {CL : Causallib F G} {IR : IRM F G SyntheticHighDimension.Args} :
  (forall (args : SynEntner.Args) (w : world G F),
      1 <= SynEntner.nr args -> 1 <= SynEntner.no args -> SynEntner.ne args <> 3%Z ->
      exists err w',
        SynEntner.main args w = (inl err, w') /\
        (err = ChoiceEmpty \/ err = ChoiceSize \/ err = BinomialArguments) /\
        (exact_arithmetic F -> expit_law F -> err = ChoiceEmpty \/ err = ChoiceSize) /\
        files w' = files w /\
        stdout w' = stdout w ++ [OutInt 1; OutInt 5]) /\
  (forall (args : SyntheticHighDimension.Args) (w : world G F),
      1 <= SyntheticHighDimension.nr args -> 1 <= SyntheticHighDimension.no args ->
      SyntheticHighDimension.ne args <> 3%Z ->
      exists err w',
        SyntheticHighDimension.main args w = (inl err, w') /\
        (err = ChoiceEmpty \/ err = ChoiceSize \/ err = BinomialArguments) /\
        (exact_arithmetic F -> expit_law F -> err = ChoiceEmpty \/ err = ChoiceSize) /\
        files w' = files w /\
        stdout w' = stdout w ++ [OutInt 1; OutInt 25]).
Proof.
  split.
  - intros args w Hnr Hno Hne.
    destruct (entner_crash args w Hnr Hno Hne) as (err & w' & Hrun & Hkind & Hfiles & Hout).
    exists err, w'. split; [exact Hrun |].
    split; [apply (off_default_kinds err Hkind) |].
    split; [apply (off_default_kinds err Hkind) |]. split; assumption.
  - intros args w Hnr Hno Hne.
    destruct (high_dimension_crash args w Hnr Hno Hne)
      as (err & w' & Hrun & Hkind & Hfiles & Hout).
    exists err, w'. split; [exact Hrun |].
    split; [apply (off_default_kinds err Hkind) |].
    split; [apply (off_default_kinds err Hkind) |]. split; assumption.
Qed.

(** Witness of X8: the two runs with two environments, in binary64. *)
Lemma runners_raise_off_default_run :
  (exists err w',
      OffDefaultRun.entner_run = (inl err, w') /\
      (err = ChoiceEmpty \/ err = ChoiceSize) /\
      files w' = files FloatRun.start /\
      stdout w' = stdout FloatRun.start ++ [OutInt 1; OutInt 5]) /\
  (exists err w',
      OffDefaultRun.high_dimension_run = (inl err, w') /\
      (err = ChoiceEmpty \/ err = ChoiceSize) /\
      files w' = files FloatRun.start /\
      stdout w' = stdout FloatRun.start ++ [OutInt 1; OutInt 25]).
Proof.
  split.
  - destruct (proj1 (runners_raise_off_default (SP := equal_odds)
                       (IT := stub_independence_test) (CL := stub_causallib)
                       (IR := stub_irm))
                OffDefaultRun.entner_args FloatRun.start)
      as (err & w' & Hrun & Hkind & _ & Hfiles & Hout).
    + cbn. lia.
    + cbn. lia.
    + cbn. discriminate.
    + exists err, w'. split; [exact Hrun |]. split; [| split; assumption].
      destruct Hkind as [E | [E | E]]; [left; exact E | right; exact E |].
      exfalso. rewrite E in Hrun. vm_compute in Hrun. discriminate Hrun.
  - destruct (proj2 (runners_raise_off_default (SP := equal_odds)
                       (IT := stub_independence_test) (CL := stub_causallib)
                       (IR := stub_irm))
                OffDefaultRun.high_dimension_args FloatRun.start)
      as (err & w' & Hrun & Hkind & _ & Hfiles & Hout).
    + cbn. lia.
    + cbn. lia.
    + cbn. discriminate.
    + exists err, w'. split; [exact Hrun |]. split; [| split; assumption].
      destruct Hkind as [E | [E | E]]; [left; exact E | right; exact E |].
      exfalso. rewrite E in Hrun. vm_compute in Hrun. discriminate Hrun.
Defined.

(* ================================================================== *)
(** * The feature names after the first level is dropped *)

Lemma str_inj (i j : nat) : str i = str j -> i = j.
Proof.
  unfold str. intros H.
  apply (f_equal NilEmpty.uint_of_string) in H. rewrite !NilEmpty.usu in H.
  injection H as H. apply (f_equal Nat.of_uint) in H.
  rewrite !DecimalNat.Unsigned.of_to in H. exact H.
Qed.

Lemma str_eqb (i j : nat) : String.eqb (str i) (str j) = (i =? j).
Proof.
  destruct (Nat.eqb_spec i j) as [-> | Hne].
  - apply String.eqb_refl.
  - apply String.eqb_neq. intros H. apply Hne. apply str_inj. exact H.
Qed.

Lemma positions_name (j m : nat) :
  positions (map (fun i => [str i]) (seq 0 m)) (str j) = if j <? m then [j] else [].
Proof.
  unfold positions, enumerate. rewrite length_map, length_seq.
  assert (Hgen : forall m s,
             map fst (filter (fun p => String.eqb (hd EmptyString (snd p)) (str j))
                        (combine (seq s m) (map (fun i => [str i]) (seq s m))))
             = if (s <=? j) && (j <? s + m) then [j] else []).
  { clear m. induction m as [| m IH]; intros s.
    - cbn [seq map combine filter]. replace (j <? s + 0) with (j <? s) by (f_equal; lia).
      destruct (Nat.leb_spec s j), (Nat.ltb_spec j s); try reflexivity; lia.
    - cbn [seq map combine filter snd hd]. rewrite str_eqb.
      destruct (Nat.eqb_spec s j) as [-> | Hne]; cbn [map fst]; rewrite (IH (S _)).
      + rewrite Nat.leb_refl.
        replace (S j <=? j) with false by (symmetry; apply Nat.leb_gt; lia).
        replace (j <? j + S m) with true by (symmetry; apply Nat.ltb_lt; lia).
        reflexivity.
      + replace (S s <=? j) with (s <=? j).
        * replace (S s + m) with (s + S m) by lia. reflexivity.
        * destruct (Nat.leb_spec s j), (Nat.leb_spec (S s) j); try reflexivity; lia. }
  rewrite (Hgen m 0). cbn [Nat.leb andb Nat.add]. reflexivity.
Qed.

Lemma positions_names (js : list nat) (m : nat) :
  Forall (fun j => j < m) js ->
  flat_map (positions (map (fun i => [str i]) (seq 0 m))) (map str js) = js.
Proof.
  induction 1 as [| j js Hj _ IH]; [reflexivity |].
  cbn [map flat_map]. rewrite IH, positions_name.
  apply Nat.ltb_lt in Hj. rewrite Hj. reflexivity.
Qed.

Lemma droplevel_feature_labels (d : nat) :
  droplevel (map (fun i => ["x1"%string; str i]) (seq 0 1)
             ++ map (fun i => ["x2"%string; str i]) (seq 1 d)
             ++ map (fun i => ["x3"%string; str i]) (seq (1 + d) d))
  = map (fun i => [str i]) (seq 0 (2 * d + 1)).
Proof.
  unfold droplevel. rewrite !map_app, !map_map. cbn [tl].
  rewrite <- !map_app, <- !seq_app. f_equal. f_equal. lia.
Qed.

Section Names.
Context {F G : Type} {SF : Scalar F} {SP : Special F} {RS : RandomState F G}.

Lemma select_names (features : ndarray F) (d : nat) (x : DataFrame F) (js : list nat) :
  SynEntner.label_features features d = inr x ->
  Forall (fun j => j <= 2 * d) js ->
  select (mk_DataFrame (droplevel (columns x)) (values x)) (map str js)
  = mk_DataFrame (map (fun j => [str j]) js)
      (tabulate (nrows features) (length js)
         (fun i k => entry features i (nth k js 0))).
Proof.
  intros Hx Hjs. pose proof (label_features_values _ _ _ Hx) as Hv.
  apply label_features_columns in Hx. destruct Hx as [_ Hc].
  rewrite Hc, droplevel_feature_labels, Hv.
  unfold select. cbn [columns values].
  rewrite positions_names
    by (eapply Forall_impl; [| exact Hjs]; cbn beta; intros; lia).
  f_equal. apply map_ext_in. intros j Hj.
  rewrite Forall_forall in Hjs. specialize (Hjs j Hj).
  apply (nth_map_seq (fun i => [str i])). lia.
Qed.

Lemma get_train_test_data_labelled (n d : nat) (use k : Z) (g g' : G) (data : dataset F) :
  SynEntner.get_train_test_data n d use k g = (inr data, g') ->
  exists features_train features_test,
    SynEntner.label_features features_train d = inr (x_train data) /\
    SynEntner.label_features features_test d = inr (x_test data).
Proof.
  intros Hrun. unfold SynEntner.get_train_test_data in Hrun.
  do 3 inv_bind' Hrun.
  inv_lift1 Hrun diff Hdiff.
  inv_lift1 Hrun features Hfeat.
  inv_bind' Hrun.
  inv_lift1 Hrun xtr Hxtr.
  do 5 (let x := fresh "x" in let Hx := fresh "Hx" in inv_lift1 Hrun x Hx).
  inv_lift1 Hrun xte Hxte.
  do 5 (let x := fresh "x" in let Hx := fresh "Hx" in inv_lift1 Hrun x Hx).
  apply ret_inr in Hrun. destruct Hrun as [-> ->].
  do 2 eexists. cbn [x_train x_test]. split; eassumption.
Qed.
End Names.

(** X9: the feature names of [synthetic_high_dimension.py].  For a dataset
    of [get_train_test_data], the names handed to the invariant-feature
    search, [x_train.columns.droplevel()[1:]], are the numbers [1] to
    [2d] as strings: every column of [x2] and [x3], and not the column
    [0] of [x1].  Once the first level is dropped from the train and the
    test table, selecting a list of such names ([0] included) gives the
    columns at these positions, in the order of the list. *)
Theorem feature_names_pick_columns {F G : Type} {SF : Scalar F} {SP : Special F}
    {RS : RandomState F G} (n d : nat) (use k : Z) (g g' : G) (data : dataset F)
    (js : list nat) :
  get_train_test_data_of synthetic_high_dimension n d use k g = (inr data, g') ->
  Forall (fun j => j <= 2 * d) js ->
  map (hd EmptyString) (tl (droplevel (columns (x_train data)))) = map str (seq 1 (2 * d)) /\
  picks_columns (x_train data)
    (select (mk_DataFrame (droplevel (columns (x_train data))) (values (x_train data)))
            (map str js)) js /\
  picks_columns (x_test data)
    (select (mk_DataFrame (droplevel (columns (x_test data))) (values (x_test data)))
            (map str js)) js.
Proof.
  intros Hrun Hjs.
  rewrite get_train_test_data_of_entner in Hrun.
  apply get_train_test_data_labelled in Hrun. destruct Hrun as (ftr & fte & Htr & Hte).
  assert (Hpick : forall (features : ndarray F) (x : DataFrame F),
             SynEntner.label_features features d = inr x ->
             picks_columns x
               (select (mk_DataFrame (droplevel (columns x)) (values x)) (map str js)) js).
  { intros features x Hx. rewrite (select_names features d x js Hx Hjs).
    unfold picks_columns, shape. cbn [columns values].
    rewrite (label_features_values _ _ _ Hx).
    rewrite nrows_tabulate, ncols_tabulate.
    split; [reflexivity | split; [reflexivity |]].
    intros i c Hi Hc.
    exact (entry_tabulate _ _ (fun i c => entry features i (nth c js 0)) i c Hi Hc). }
  split; [| split; [exact (Hpick _ _ Htr) | exact (Hpick _ _ Hte)]].
  apply label_features_columns in Htr. destruct Htr as [_ ->].
  rewrite droplevel_feature_labels.
  replace (2 * d + 1) with (S (2 * d)) by lia.
  cbn [seq map tl]. rewrite map_map. reflexivity.
Qed.

(** Witness of X9: three observations and two dimensions in binary64; the
    names [3], [0], [4] pick the columns 3, 0 and 4. *)
Lemma feature_names_pick_columns_run :
  exists data g',
    get_train_test_data_of synthetic_high_dimension (SP := equal_odds) 3 2 1%Z 3%Z
      FloatRun.silent_stream = (inr data, g') /\
    map (hd EmptyString) (tl (droplevel (columns (x_train data)))) = map str (seq 1 (2 * 2)) /\
    picks_columns (x_train data)
      (select (mk_DataFrame (droplevel (columns (x_train data))) (values (x_train data)))
              (map str [3; 0; 4])) [3; 0; 4] /\
    picks_columns (x_test data)
      (select (mk_DataFrame (droplevel (columns (x_test data))) (values (x_test data)))
              (map str [3; 0; 4])) [3; 0; 4].
Proof.
  destruct (get_train_test_data_of synthetic_high_dimension (SP := equal_odds) 3 2 1%Z 3%Z
              FloatRun.silent_stream) as [[err | data] g'] eqn:E;
    [vm_compute in E; discriminate E |].
  exists data, g'. split; [reflexivity |].
  apply (feature_names_pick_columns 3 2 1%Z 3%Z FloatRun.silent_stream g' data [3; 0; 4] E).
  repeat constructor.
Defined.

(* ================================================================== *)
(** * The rounded effect in exact arithmetic *)

Lemma this_Q2Qc (q : Q) : (this (Q2Qc q) == q)%Q.
Proof. cbn [this Q2Qc]. apply Qred_correct. Qed.

(** [rint] gives an integer at most one half away, and keeps the order
    with every integer. *)
Lemma rint_integer (x : Qc) :
  exists z : Z,
    Exact.rint x = Q2Qc (inject_Z z) /\
    (inject_Z z - x <= 1 # 2)%Q /\ (x - inject_Z z <= 1 # 2)%Q /\
    (forall a : Z, (inject_Z a <= x)%Q -> (a <= z)%Z) /\
    (forall b : Z, (x <= inject_Z b)%Q -> (z <= b)%Z).
Proof.
  pose proof (Qfloor_le x) as Hlo. pose proof (Qlt_floor x) as Hhi.
  rewrite inject_Z_plus in Hhi. change (inject_Z 1) with 1%Q in Hhi.
  assert (Hr : (this (x - Q2Qc (inject_Z (Qfloor x)))%Qc == x - inject_Z (Qfloor x))%Q).
  { unfold Qcminus, Qcplus, Qcopp. rewrite this_Q2Qc, this_Q2Qc, this_Q2Qc. reflexivity. }
  assert (Hbelow : forall a : Z, (inject_Z a <= x)%Q -> (a <= Qfloor x)%Z).
  { intros a Ha. rewrite <- (Qfloor_Z a). apply Qfloor_resp_le. exact Ha. }
  assert (Habove : forall b : Z, (x <= inject_Z b)%Q -> (Qfloor x <= b)%Z).
  { intros b Hb. rewrite <- (Qfloor_Z b). apply Qfloor_resp_le. exact Hb. }
  assert (Hdown : (x - inject_Z (Qfloor x) <= 1 # 2)%Q ->
                  exists z : Z, Q2Qc (inject_Z (Qfloor x)) = Q2Qc (inject_Z z) /\
                    (inject_Z z - x <= 1 # 2)%Q /\ (x - inject_Z z <= 1 # 2)%Q /\
                    (forall a : Z, (inject_Z a <= x)%Q -> (a <= z)%Z) /\
                    (forall b : Z, (x <= inject_Z b)%Q -> (z <= b)%Z)).
  { intros Hle. exists (Qfloor x).
    split; [reflexivity |]. split; [lra |]. split; [exact Hle |].
    split; [exact Hbelow | exact Habove]. }
  assert (Hup : (1 # 2 <= x - inject_Z (Qfloor x))%Q ->
                exists z : Z, Q2Qc (inject_Z (Qfloor x + 1)) = Q2Qc (inject_Z z) /\
                  (inject_Z z - x <= 1 # 2)%Q /\ (x - inject_Z z <= 1 # 2)%Q /\
                  (forall a : Z, (inject_Z a <= x)%Q -> (a <= z)%Z) /\
                  (forall b : Z, (x <= inject_Z b)%Q -> (z <= b)%Z)).
  { intros Hge. exists (Qfloor x + 1)%Z.
    rewrite inject_Z_plus. change (inject_Z 1) with 1%Q.
    split; [reflexivity |]. split; [lra |]. split; [lra |]. split.
    - intros a Ha. specialize (Hbelow a Ha). lia.
    - intros b Hb.
      assert (Hlt : (inject_Z (Qfloor x) < inject_Z b)%Q) by lra.
      rewrite <- Zlt_Qlt in Hlt. lia. }
  unfold Exact.rint.
  destruct (x - Q2Qc (inject_Z (Qfloor x)) ?= Q2Qc (1 # 2))%Qc eqn:E.
  - apply Qceq_alt in E.
    assert (Hhalf : (x - inject_Z (Qfloor x) == 1 # 2)%Q).
    { rewrite <- Hr, E. apply this_Q2Qc. }
    destruct (Z.even (Qfloor x)); [apply Hdown | apply Hup]; lra.
  - apply Qclt_alt in E. unfold Qclt in E. rewrite Hr, this_Q2Qc in E.
    apply Hdown. lra.
  - apply Qcgt_alt in E. unfold Qclt in E. rewrite Hr, this_Q2Qc in E.
    apply Hup. lra.
Qed.

(** Rounding to six decimals moves a rational by at most [5e-7] and
    keeps it between one and two. *)
Lemma np_round_6 (x : Qc) :
  (Qcabs (np_round x 6 - x) <= Q2Qc (1 # 2000000))%Qc /\
  ((1 <= x <= Q2Qc 2)%Qc -> (1 <= np_round x 6 <= Q2Qc 2)%Qc).
Proof.
  unfold np_round. cbn [fmul fdiv frint of_int Scalar_Qc].
  change (10 ^ Z.of_nat 6)%Z with 1000000%Z.
  destruct (rint_integer (x * Q2Qc (inject_Z 1000000))%Qc)
    as (z & -> & Hlo & Hhi & Hbelow & Habove).
  assert (Hy : (this (x * Q2Qc (inject_Z 1000000))%Qc == x * inject_Z 1000000)%Q).
  { unfold Qcmult. rewrite this_Q2Qc, this_Q2Qc. reflexivity. }
  rewrite Hy in Hlo, Hhi.
  assert (Hv : (this (Q2Qc (inject_Z z) / Q2Qc (inject_Z 1000000))%Qc
                == inject_Z z * (1 # 1000000))%Q).
  { unfold Qcdiv, Qcmult, Qcinv. rewrite !this_Q2Qc. reflexivity. }
  change (inject_Z 1000000) with (1000000 # 1)%Q in Hlo, Hhi.
  split.
  - apply Qcabs_Qcle_condition. unfold Qcle, Qcminus, Qcplus, Qcopp.
    rewrite !this_Q2Qc, Hv. split; lra.
  - intros [H1 H2]. unfold Qcle in H1, H2 |- *.
    change (this 1%Qc) with 1%Q in *. change (this (Q2Qc 2)) with 2%Q in *.
    rewrite Hv.
    assert (Hz1 : (1000000 <= z)%Z).
    { apply Hbelow. rewrite Hy. change (inject_Z 1000000) with (1000000 # 1)%Q. lra. }
    assert (Hz2 : (z <= 2000000)%Z).
    { apply Habove. rewrite Hy. change (inject_Z 1000000) with (1000000 # 1)%Q.
      change (inject_Z 2000000) with (2000000 # 1)%Q. lra. }
    rewrite Zle_Qle in Hz1, Hz2.
    change (inject_Z 1000000) with (1000000 # 1)%Q in Hz1.
    change (inject_Z 2000000) with (2000000 # 1)%Q in Hz2.
    split; lra.
Qed.

(** X10: in exact arithmetic, and when the uniform draws lie between their
    bounds, the true effect a dataset of either script carries is within
    [5e-7] of the treatment coefficient, the last entry of [theta4], and
    lies between one and two. *)
Theorem true_ate_near_coefficient (s : script) {G : Type} {SP : Special Qc}
    {RS : RandomState Qc G} (n d : nat) (use k : Z) (g g1 g2 g' : G)
    (u1 u2 u3 u4 theta1 theta2 theta3 theta4 theta5 theta6 : ndarray Qc)
    (data : dataset Qc) :
  uniform_law Qc G ->
  get_u_of s n d g = (inr (u1, u2, u3, u4), g1) ->
  get_theta_of s d use k g1
    = (inr (theta1, theta2, theta3, theta4, theta5, theta6), g2) ->
  get_train_test_data_of s n d use k g = (inr data, g') ->
  (Qcabs (true_ate data - entry theta4 (2 * d) 0) <= Q2Qc (1 # 2000000))%Qc /\
  (1 <= true_ate data <= Q2Qc 2)%Qc.
Proof.
  rewrite get_u_of_entner, get_theta_of_entner, get_train_test_data_of_entner.
  intros Hlaw Hu Ht Hrun.
  rewrite (true_ate_exact _ _ _ _ _ _ _ _ _ _ _ _ _ _ _ _ _ _ _ Hu Ht Hrun).
  destruct (np_round_6 (entry theta4 (2 * d) 0)) as [Hnear Hrange].
  split; [exact Hnear |]. apply Hrange.
  pose proof (get_theta_shapes _ _ _ _ _ _ _ _ _ _ _ Ht) as (_ & _ & _ & Hs4 & _).
  apply shape_inv in Hs4. destruct Hs4 as [Hr4 Hc4].
  pose proof (get_theta_ranges _ _ _ _ _ _ _ _ _ _ _ Hlaw Ht) as (_ & _ & _ & H4 & _).
  specialize (H4 (2 * d) 0 ltac:(lia) ltac:(lia)).
  unfold between, betweenb in H4. cbn [fleb of_int Scalar_Qc] in H4.
  apply orb_true_iff in H4. rewrite !andb_true_iff, !Qle_bool_iff in H4.
  unfold Qcle. change (this 1%Qc) with 1%Q. change (this (Q2Qc 2)) with 2%Q.
  change (this (Q2Qc (inject_Z 1))) with 1%Q in H4.
  change (this (Q2Qc (inject_Z 2))) with 2%Q in H4.
  destruct H4 as [[Ha Hb] | [Ha Hb]]; split; lra.
Qed.

(** Witness of X10: five observations and one dimension on the recorded
    stream. *)
Lemma true_ate_near_coefficient_run :
  exists (g1 g2 g' : tape Qc)
         (u1 u2 u3 u4 theta1 theta2 theta3 theta4 theta5 theta6 : ndarray Qc)
         (data : dataset Qc),
    get_u_of syn_entner 5 1 ExactRun.stream = (inr (u1, u2, u3, u4), g1) /\
    get_theta_of syn_entner 1 1%Z 3%Z g1
      = (inr (theta1, theta2, theta3, theta4, theta5, theta6), g2) /\
    get_train_test_data_of syn_entner (SP := equal_odds) 5 1 1%Z 3%Z ExactRun.stream
      = (inr data, g') /\
    (Qcabs (true_ate data - entry theta4 (2 * 1) 0) <= Q2Qc (1 # 2000000))%Qc /\
    (1 <= true_ate data <= Q2Qc 2)%Qc.
Proof.
  do 14 eexists.
  match goal with |- ?A /\ _ => assert (Hu : A) by (vm_compute; reflexivity) end.
  split; [exact Hu |].
  match goal with |- ?A /\ _ => assert (Ht : A) by (vm_compute; reflexivity) end.
  split; [exact Ht |].
  match goal with |- ?A /\ _ => assert (Hr : A) by (vm_compute; reflexivity) end.
  split; [exact Hr |].
  exact (true_ate_near_coefficient syn_entner (SP := equal_odds)
           _ _ _ _ _ _ _ _ _ _ _ _ _ _ _ _ _ _ _ tape_uniform_law Hu Ht Hr).
Defined.

(* ================================================================== *)
(** * The outcome of a runner is the outcome of its cells *)

Section Follows.
Context {G F V Acc : Type}.
Variable Q : V -> Acc -> Prop.

Lemma follows_ret (v : V) (acc : Acc) (w : world G F) :
  Q v acc -> follows Q (ret v (rng w)) (ret acc w).
Proof. intros HQ. split; [exists acc; split; [reflexivity | exact HQ] | reflexivity]. Qed.

Lemma follows_liftR {X : Type} (m : SE G X) (kc : X -> SE G V)
    (kb : X -> SE (world G F) Acc) (w : world G F) :
  (forall x w1, follows Q (kc x (rng w1)) (kb x w1)) ->
  follows Q (bind m kc (rng w)) (bind (liftR m) kb w).
Proof.
  intros Hk. unfold bind, liftR. destruct (m (rng w)) as [[e | x] g1].
  - split; reflexivity.
  - exact (Hk x (mk_world g1 (stdout w) (files w))).
Qed.

Lemma follows_print (o : output F) (c : SE G V) (kb : unit -> SE (world G F) Acc)
    (w : world G F) :
  (forall w1, follows Q (c (rng w1)) (kb tt w1)) ->
  follows Q (c (rng w)) (bind (print o) kb w).
Proof. intros Hk. exact (Hk (mk_world (rng w) (stdout w ++ [o]) (files w))). Qed.

Lemma follows_savetxt (name : string) (m : ndarray F) (delim : string) (c : SE G V)
    (kb : unit -> SE (world G F) Acc) (w : world G F) :
  (forall w1, follows Q (c (rng w1)) (kb tt w1)) ->
  follows Q (c (rng w)) (bind (np_savetxt name m delim) kb w).
Proof.
  intros Hk.
  exact (Hk (mk_world (rng w) (stdout w)
               (files w ++ [mk_saved_file name delim EmptyString m]))).
Qed.

Lemma follows_pure {X : Type} (r : result X) (x : X) (c : result V * G)
    (kb : X -> SE (world G F) Acc) (w : world G F) :
  r = inr x -> follows Q c (kb x w) -> follows Q c (bind (lift_result r) kb w).
Proof. intros ->. intros Hk. exact Hk. Qed.

Lemma follows_lift {X : Type} (r : result X) (kc : X -> SE G V)
    (kb : X -> SE (world G F) Acc) (w : world G F) :
  (forall x, follows Q (kc x (rng w)) (kb x w)) ->
  follows Q (bind (lift_result r) kc (rng w)) (bind (lift_result r) kb w).
Proof.
  intros Hk. destruct r as [e | x].
  - split; reflexivity.
  - exact (Hk x).
Qed.
End Follows.

Lemma setitem_ok {A : Type} `{Default A} (a : ndarray A) (R L r i : nat) (v : A) :
  shape a = (R, L) -> r < R -> i < L -> exists a', setitem a r i v = inr a'.
Proof.
  intros Hs Hr Hi. apply shape_inv in Hs. destruct Hs as [<- <-].
  unfold setitem. apply Nat.ltb_lt in Hr, Hi. rewrite Hr, Hi. eexists. reflexivity.
Qed.

(** ** The two nested loops, from the cells to the runner *)
Section GridFollows.
Context {G F V Acc : Type}.
Variable cell : nat -> SE G V.
Variable dims : list nat.
Variable R : nat.
Variable body : nat -> nat * nat -> Acc -> SE (world G F) Acc.
Variable Inv : list V -> Acc -> Prop.
Variable before : nat -> output F.
Variable after : output F.

Hypothesis Hstep :
  forall r i d acc w vals,
    r < R -> nth_error dims i = Some d ->
    length vals = r * length dims + i -> Inv vals acc ->
    follows (fun v acc' => Inv (vals ++ [v]) acc') (cell d (rng w)) (body r (i, d) acc w).

Lemma inner_follows (r : nat) (ds : list nat) :
  r < R ->
  forall i0 acc w vals,
    (forall j d, nth_error ds j = Some d -> nth_error dims (i0 + j) = Some d) ->
    length vals = r * length dims + i0 -> Inv vals acc ->
    follows (fun vals' acc' => Inv vals' acc' /\ length vals' = length vals + length ds)
      (for_each ds (fun d acc => v <- cell d ;; ret (acc ++ [v])) vals (rng w))
      (for_each (combine (seq i0 (length ds)) ds) (body r) acc w).
Proof.
  intros Hr. induction ds as [| d ds IH]; intros i0 acc w vals Hds Hlen Hinv.
  - cbn [length seq combine for_each]. apply follows_ret. split; [exact Hinv | lia].
  - cbn [length seq combine for_each].
    pose proof (Hstep r i0 d acc w vals Hr) as Hs.
    specialize (Hs ltac:(rewrite <- (Nat.add_0_r i0); apply Hds; reflexivity) Hlen Hinv).
    destruct (cell d (rng w)) as [[e | v] g1] eqn:Ec,
             (body r (i0, d) acc w) as [rb wb] eqn:Eb.
    + destruct Hs as [Hb Hg]. cbn [fst snd] in Hb, Hg. subst rb g1.
      rewrite (bind_run_inl _ _ _ _ _ (bind_run_inl _ _ _ _ _ Ec)).
      rewrite (bind_run_inl _ _ _ _ _ Eb).
      split; reflexivity.
    + destruct Hs as [(acc1 & Hb & Hinv1) Hg]. cbn [fst snd] in Hb, Hg. subst rb g1.
      assert (Ev : (v <- cell d ;; ret (vals ++ [v])) (rng w)
                   = (inr (vals ++ [v]), rng wb)).
      { rewrite (bind_run_inr _ _ _ _ _ Ec). reflexivity. }
      rewrite (bind_run_inr _ _ _ _ _ Ev), (bind_run_inr _ _ _ _ _ Eb).
      specialize (IH (S i0) acc1 wb (vals ++ [v])).
      destruct IH as [IHv IHg].
      * intros j d0 Hj. replace (S i0 + j) with (i0 + S j) by lia. apply Hds. exact Hj.
      * rewrite length_app. simpl. lia.
      * exact Hinv1.
      * split; [| exact IHg].
        destruct (fst (for_each ds _ (vals ++ [v]) (rng wb))) as [e | vals'];
          [exact IHv |].
        destruct IHv as (acc' & Hb' & Hinv' & Hl'). exists acc'.
        split; [exact Hb' | split; [exact Hinv' |]].
        rewrite Hl', length_app. simpl. lia.
Qed.

Lemma outer_follows (cnt : nat) :
  forall r0 acc w vals,
    r0 + cnt <= R ->
    length vals = r0 * length dims -> Inv vals acc ->
    follows (fun vals' acc' => Inv vals' acc' /\ length vals' = (r0 + cnt) * length dims)
      (for_each (flat_map (fun _ => dims) (seq r0 cnt))
         (fun d acc => v <- cell d ;; ret (acc ++ [v])) vals (rng w))
      (for_each (seq r0 cnt)
         (fun r acc =>
            print (before r) ;;;
            acc <- for_each (enumerate dims) (body r) acc ;;
            print after ;;; ret acc) acc w).
Proof.
  induction cnt as [| cnt IH]; intros r0 acc w vals HR Hlen Hinv.
  - cbn [seq flat_map for_each]. apply follows_ret. split; [exact Hinv | lia].
  - cbn [seq flat_map for_each]. rewrite for_each_app.
    pose proof (inner_follows r0 dims ltac:(lia) 0 acc
                  (mk_world (rng w) (stdout w ++ [before r0]) (files w)) vals) as Hin.
    specialize (Hin ltac:(intros j d Hj; exact Hj) ltac:(lia) Hinv).
    cbn [rng] in Hin. fold (enumerate dims) in Hin.
    match goal with
    | |- follows _ _ (bind ?m ?k w) =>
        assert (Em : m w = (let (rb, wb) :=
                              for_each (enumerate dims) (body r0) acc
                                (mk_world (rng w) (stdout w ++ [before r0]) (files w)) in
                            match rb with
                            | inl e => (inl e, wb)
                            | inr a => (inr a, mk_world (rng wb) (stdout wb ++ [after])
                                                 (files wb))
                            end))
          by reflexivity
    end.
    destruct (for_each dims _ vals (rng w)) as [[e | vals1] g1] eqn:Ec,
             (for_each (enumerate dims) (body r0) acc _) as [rb wb].
    + destruct Hin as [Hb Hg]. cbn [fst snd] in Hb, Hg. subst rb g1.
      cbv beta iota in Em.
      rewrite (bind_run_inl _ _ _ _ _ Ec), (bind_run_inl _ _ _ _ _ Em).
      split; reflexivity.
    + destruct Hin as [(acc1 & Hb & Hinv1 & Hl1) Hg]. cbn [fst snd] in Hb, Hg.
      subst rb g1. cbv beta iota in Em.
      rewrite (bind_run_inr _ _ _ _ _ Ec), (bind_run_inr _ _ _ _ _ Em).
      replace (r0 + S cnt) with (S r0 + cnt) by lia.
      apply (IH (S r0) acc1 (mk_world (rng wb) (stdout wb ++ [after]) (files wb)) vals1);
        [lia | rewrite Hl1, Hlen; simpl; lia | exact Hinv1].
Qed.
End GridFollows.

(** One step of a cell and of the body of the loop that runs it. *)
Ltac follow :=
  lazymatch goal with
  | |- follows _ (?c (rng ?w)) (bind (print _) _ ?w) =>
      let w1 := fresh "w" in
      apply (follows_print _ _ c); intros w1
  | |- follows _ (?c (rng ?w)) (bind (np_savetxt _ _ _) _ ?w) =>
      let w1 := fresh "w" in
      apply (follows_savetxt _ _ _ _ c); intros w1
  | |- follows _ (bind ?m _ (rng ?w)) (bind (liftR ?m) _ ?w) =>
      let x := fresh "x" in
      let w1 := fresh "w" in
      apply follows_liftR; intros x w1; destruct_tuple x
  | |- follows _ (bind (lift_result ?r) _ _) (bind (lift_result ?r) _ _) =>
      let x := fresh "x" in
      apply follows_lift; intros x
  | Hf : filled _ _ _ _ ?a, Hr : ?r < _, Hi : ?i < _
    |- follows _ _ (bind (lift_result (setitem ?a ?r ?i ?v)) _ _) =>
      let a' := fresh "m" in
      let Ha := fresh "Hset" in
      destruct (setitem_ok a _ _ r i v (proj1 Hf) Hr Hi) as (a' & Ha);
      apply (follows_pure _ _ _ _ _ _ Ha)
  end; cbv beta iota zeta.

Section EntnerFollows.
Context {F G : Type} {SF : Scalar F} {SP : Special F} {SQ : Sqrt F}
        {RS : RandomState F G} {IT : IndependenceTest F G}.

Lemma entner_step (args : SynEntner.Args) (r i d : nat)
    (acc : ndarray F * ndarray F * ndarray F) (w : world G F) (vals : list (F * F * F)) :
  length vals = r * 3 + i -> i < 3 -> r < SynEntner.nr args ->
  entner_inv (SynEntner.nr args) vals acc ->
  follows (fun v acc' => entner_inv (SynEntner.nr args) (vals ++ [v]) acc')
    (SynEntner.cell args d (rng w))
    ((let '(pvalue_empty, pvalue_x3, pvalue_x2x3) := acc in
      print (OutInt (Z.of_nat (2 * d + 1))) ;;;
      data <- liftR (SynEntner.get_train_test_data (SynEntner.no args) d
                       (SynEntner.use_t_in_e args) (SynEntner.ne args)) ;;
      x2_n <- liftR (StandardScaler_fit_transform
                       (values (select (x_train data) ["x2"%string]))) ;;
      x3_n <- liftR (StandardScaler_fit_transform
                       (values (select (x_train data) ["x3"%string]))) ;;
      y_n <- liftR (StandardScaler_fit_transform (reshape_column (y_train data))) ;;
      v <- liftR (RCoT (reshape_column (e_train data)) y_n
                    (astype_float (reshape_column (t_train data)))) ;;
      pvalue_empty <- lift_result (setitem pvalue_empty r i v) ;;
      c <- lift_result (concatenate1 [x3_n; astype_float (reshape_column (t_train data))]) ;;
      v <- liftR (RCoT (reshape_column (e_train data)) y_n c) ;;
      pvalue_x3 <- lift_result (setitem pvalue_x3 r i v) ;;
      c <- lift_result (concatenate1 [x2_n; x3_n;
                                      astype_float (reshape_column (t_train data))]) ;;
      v <- liftR (RCoT (reshape_column (e_train data)) y_n c) ;;
      pvalue_x2x3 <- lift_result (setitem pvalue_x2x3 r i v) ;;
      ret (pvalue_empty, pvalue_x3, pvalue_x2x3)) w).
Proof.
  intros Hlen Hi Hr (H1 & H2 & H3). destruct acc as [[pe p3] p23]. cbn [fst snd] in *.
  unfold SynEntner.cell. repeat follow.
  apply follows_ret. unfold entner_inv. cbn [fst snd].
  split; [| split].
  - eapply (filled_setitem _ _ (fun v => fst (fst v)));
      [exact H1 | exact Hi | exact Hlen | cbn [fst snd]; eassumption].
  - eapply (filled_setitem _ _ (fun v => snd (fst v)));
      [exact H2 | exact Hi | exact Hlen | cbn [fst snd]; eassumption].
  - eapply (filled_setitem _ _ (fun v => snd v));
      [exact H3 | exact Hi | exact Hlen | cbn [fst snd]; eassumption].
Qed.

Lemma entner_follows (args : SynEntner.Args) (w : world G F) :
  follows (fun _ _ => True)
    (run_cells (SynEntner.cell args) (SynEntner.nr args) SynEntner.number_dimensions_list
       (rng w))
    (SynEntner.main args w).
Proof.
  unfold SynEntner.main, run_cells.
  match goal with
  | |- follows _ ?c (bind ?loop _ w) =>
      assert (Hloop : follows
                (fun vals' acc' =>
                   entner_inv (SynEntner.nr args) vals' acc' /\
                   length vals' = (0 + SynEntner.nr args)
                                  * length SynEntner.number_dimensions_list)
                c (loop w))
  end.
  { eapply (outer_follows (SynEntner.cell args) SynEntner.number_dimensions_list
              (SynEntner.nr args) _ (entner_inv (SynEntner.nr args))).
    - intros r i d acc wa vals Hr Hd Hlen Hinv.
      cbv beta zeta. cbn [fst snd].
      change (length SynEntner.number_dimensions_list) with 3 in Hlen.
      apply entner_step; try assumption.
      change 3 with (length SynEntner.number_dimensions_list).
      apply nth_error_Some. rewrite Hd. discriminate.
    - lia.
    - reflexivity.
    - unfold entner_inv. cbn [fst snd].
      change (length SynEntner.number_dimensions_list) with 3.
      split; [| split]; apply filled_zeros. }
  match goal with
  | |- follows _ ?c (bind ?loop _ w) =>
      destruct c as [[e | vals] g1], (loop w) as [rb w1] eqn:Eloop
  end.
  - destruct Hloop as [Hb Hg]. cbn [fst snd] in Hb, Hg. subst rb g1.
    rewrite (bind_run_inl _ _ _ _ _ Eloop). split; reflexivity.
  - destruct Hloop as [(acc & Hb & ([H1 _] & [H2 _] & [H3 _]) & _) Hg].
    cbn [fst snd] in Hb, Hg. subst rb g1.
    rewrite (bind_run_inr _ _ _ _ _ Eloop).
    destruct acc as [[pe p3] p23]. cbn [fst snd] in H1, H2, H3. cbv beta iota.
    apply shape_inv in H1, H2, H3.
    destruct H1 as [_ H1], H2 as [_ H2], H3 as [_ H3].
    change (inr vals, rng w1) with (ret (S := G) vals (rng w1)).
    change (length SynEntner.number_dimensions_list) with 3.
    repeat first
      [ follow
      | eapply follows_pure;
        [ apply reshape_row_ok;
          first [rewrite length_np_mean_axis0 | rewrite length_np_std_axis0];
          assumption |] ].
    apply follows_ret. exact I.
Qed.
End EntnerFollows.

Section HighDimensionFollows.
Context {F G : Type} {SF : Scalar F} {SP : Special F} {SQ : Sqrt F}
        {RS : RandomState F G} {CL : Causallib F G}
        {IR : IRM F G SyntheticHighDimension.Args}.

Lemma high_dimension_step (args : SyntheticHighDimension.Args) (r i d : nat)
    (acc : ndarray F * ndarray F * ndarray F * ndarray F * ndarray F)
    (w : world G F) (vals : list (F * F * F * F * F)) :
  length vals = r * 3 + i -> i < 3 -> r < SyntheticHighDimension.nr args ->
  high_dimension_inv (SyntheticHighDimension.nr args) vals acc ->
  follows
    (fun v acc' => high_dimension_inv (SyntheticHighDimension.nr args) (vals ++ [v]) acc')
    (SyntheticHighDimension.cell args d (rng w))
    ((let '(effect_true, effect_oracle, effect_baseline,
            effect_irm_control, effect_irm_treatment) := acc in
     print (OutInt (Z.of_nat (2 * d + 1))) ;;;
     data <- liftR (SyntheticHighDimension.get_train_test_data
                      (SyntheticHighDimension.no args) d
                      (SyntheticHighDimension.use_t_in_e args)
                      (SyntheticHighDimension.ne args)) ;;
     effect_true <- lift_result (setitem effect_true r i (true_ate data)) ;;
     v <- liftR (SyntheticHighDimension.get_effect
                   (select (x_train data) ["x2"%string]) (t_train data)
                   (y_train data) (select (x_test data) ["x2"%string]) (t_test data)) ;;
     effect_oracle <- lift_result (setitem effect_oracle r i v) ;;
     v <- liftR (SyntheticHighDimension.get_effect
                   (select (x_train data) ["x1"%string; "x2"%string; "x3"%string])
                   (t_train data) (y_train data)
                   (select (x_test data) ["x1"%string; "x2"%string; "x3"%string])
                   (t_test data)) ;;
     effect_baseline <- lift_result (setitem effect_baseline r i v) ;;
     ' (irm_features_control, _) <-
         liftR (get_irm_features (select (x_train data) ["x2"%string; "x3"%string])
                  (t_train data) (y_train data) (e_train data)
                  (SyntheticHighDimension.ne args) 0%Z
                  (map (hd EmptyString) (tl (droplevel (columns (x_train data))))) args) ;;
     ' (irm_features_treatment, _) <-
         liftR (get_irm_features (select (x_train data) ["x2"%string; "x3"%string])
                  (t_train data) (y_train data) (e_train data)
                  (SyntheticHighDimension.ne args) 1%Z
                  (map (hd EmptyString) (tl (droplevel (columns (x_train data))))) args) ;;
     v <- liftR (SyntheticHighDimension.get_effect
                   (select (mk_DataFrame (droplevel (columns (x_train data)))
                              (values (x_train data))) irm_features_control)
                   (t_train data) (y_train data)
                   (select (mk_DataFrame (droplevel (columns (x_test data)))
                              (values (x_test data))) irm_features_control)
                   (t_test data)) ;;
     effect_irm_control <- lift_result (setitem effect_irm_control r i v) ;;
     v <- liftR (SyntheticHighDimension.get_effect
                   (select (mk_DataFrame (droplevel (columns (x_train data)))
                              (values (x_train data))) irm_features_treatment)
                   (t_train data) (y_train data)
                   (select (mk_DataFrame (droplevel (columns (x_test data)))
                              (values (x_test data))) irm_features_treatment)
                   (t_test data)) ;;
     effect_irm_treatment <- lift_result (setitem effect_irm_treatment r i v) ;;
     ret (effect_true, effect_oracle, effect_baseline,
          effect_irm_control, effect_irm_treatment)) w).
Proof.
  intros Hlen Hi Hr (H1 & H2 & H3 & H4 & H5).
  destruct acc as [[[[et eo] eb] ec] etr]. cbn [fst snd] in *.
  unfold SyntheticHighDimension.cell. repeat follow.
  apply follows_ret. unfold high_dimension_inv. cbn [fst snd].
  split; [| split; [| split; [| split]]].
  - eapply (filled_setitem _ _ (fun v => fst (fst (fst (fst v)))));
      [exact H1 | exact Hi | exact Hlen | cbn [fst snd]; eassumption].
  - eapply (filled_setitem _ _ (fun v => snd (fst (fst (fst v)))));
      [exact H2 | exact Hi | exact Hlen | cbn [fst snd]; eassumption].
  - eapply (filled_setitem _ _ (fun v => snd (fst (fst v))));
      [exact H3 | exact Hi | exact Hlen | cbn [fst snd]; eassumption].
  - eapply (filled_setitem _ _ (fun v => snd (fst v)));
      [exact H4 | exact Hi | exact Hlen | cbn [fst snd]; eassumption].
  - eapply (filled_setitem _ _ (fun v => snd v));
      [exact H5 | exact Hi | exact Hlen | cbn [fst snd]; eassumption].
Qed.

Lemma high_dimension_follows (args : SyntheticHighDimension.Args) (w : world G F) :
  follows (fun _ _ => True)
    (run_cells (SyntheticHighDimension.cell args) (SyntheticHighDimension.nr args)
       SyntheticHighDimension.number_dimensions_list (rng w))
    (SyntheticHighDimension.main args w).
Proof.
  unfold SyntheticHighDimension.main, run_cells.
  match goal with
  | |- follows _ ?c (bind ?loop _ w) =>
      assert (Hloop : follows
                (fun vals' acc' =>
                   high_dimension_inv (SyntheticHighDimension.nr args) vals' acc' /\
                   length vals' = (0 + SyntheticHighDimension.nr args)
                                  * length SyntheticHighDimension.number_dimensions_list)
                c (loop w))
  end.
  { eapply (outer_follows (SyntheticHighDimension.cell args)
              SyntheticHighDimension.number_dimensions_list
              (SyntheticHighDimension.nr args) _
              (high_dimension_inv (SyntheticHighDimension.nr args))).
    - intros r i d acc wa vals Hr Hd Hlen Hinv.
      cbv beta zeta. cbn [fst snd].
      change (length SyntheticHighDimension.number_dimensions_list) with 3 in Hlen.
      apply high_dimension_step; try assumption.
      change 3 with (length SyntheticHighDimension.number_dimensions_list).
      apply nth_error_Some. rewrite Hd. discriminate.
    - lia.
    - reflexivity.
    - unfold high_dimension_inv. cbn [fst snd].
      change (length SyntheticHighDimension.number_dimensions_list) with 3.
      split; [| split; [| split; [| split]]]; apply filled_zeros. }
  match goal with
  | |- follows _ ?c (bind ?loop _ w) =>
      destruct c as [[e | vals] g1], (loop w) as [rb w1] eqn:Eloop
  end.
  - destruct Hloop as [Hb Hg]. cbn [fst snd] in Hb, Hg. subst rb g1.
    rewrite (bind_run_inl _ _ _ _ _ Eloop). split; reflexivity.
  - destruct Hloop as [(acc & Hb & ([H1 _] & [H2 _] & [H3 _] & [H4 _] & [H5 _]) & _) Hg].
    cbn [fst snd] in Hb, Hg. subst rb g1.
    rewrite (bind_run_inr _ _ _ _ _ Eloop).
    destruct acc as [[[[et eo] eb] ec] etr]. cbn [fst snd] in H1, H2, H3, H4, H5.
    cbv beta iota.
    change (length SyntheticHighDimension.number_dimensions_list) with 3.
    destruct (avg_ate_error_ok eb et _ _ H3 H1) as (a1 & Ea1 & Ha1).
    destruct (avg_ate_error_ok ec et _ _ H4 H1) as (a2 & Ea2 & Ha2).
    destruct (avg_ate_error_ok etr et _ _ H5 H1) as (a3 & Ea3 & Ha3).
    destruct (avg_ate_error_ok eo et _ _ H2 H1) as (a4 & Ea4 & Ha4).
    destruct (std_ate_error_ok eb et _ _ (SyntheticHighDimension.nr args) H3 H1)
      as (s1 & Es1 & Hs1).
    destruct (std_ate_error_ok ec et _ _ (SyntheticHighDimension.nr args) H4 H1)
      as (s2 & Es2 & Hs2).
    destruct (std_ate_error_ok etr et _ _ (SyntheticHighDimension.nr args) H5 H1)
      as (s3 & Es3 & Hs3).
    destruct (std_ate_error_ok eo et _ _ (SyntheticHighDimension.nr args) H2 H1)
      as (s4 & Es4 & Hs4).
    destruct (concatenate0_ok a1 a4 a2 a3 3 Ha1 Ha4 Ha2 Ha3) as (avg & Eavg).
    destruct (concatenate0_ok s1 s4 s2 s3 3 Hs1 Hs4 Hs2 Hs3) as (std & Estd).
    change (inr vals, rng w1) with (ret (S := G) vals (rng w1)).
    repeat first [follow | eapply follows_pure; [eassumption |]; cbv beta iota zeta].
    apply follows_ret. exact I.
Qed.
End HighDimensionFollows.

(** X11: the outcome of a trial runner is the outcome of its cells.  On
    every argument, random stream and estimators, when the cells of the
    grid, run one after the other on the stream, all return, the runner
    returns; when one of them raises, the runner raises this error.  Both
    ways the runner leaves the stream where the cells leave it: it draws
    nothing of its own, and with the saving and the printing taken to
    succeed nothing outside the cells raises. *)
Theorem runner_follows_cells {F G : Type} {SF : Scalar F} {SP : Special F} {SQ : Sqrt F}
    {RS : RandomState F G} {IT : IndependenceTest F G} {CL : Causallib F G}
    {IR : IRM F G SyntheticHighDimension.Args} :
  (forall (args : SynEntner.Args) (w : world G F),
      follows (fun _ _ => True)
        (run_cells (SynEntner.cell args) (SynEntner.nr args)
           SynEntner.number_dimensions_list (rng w))
        (SynEntner.main args w)) /\
  (forall (args : SyntheticHighDimension.Args) (w : world G F),
      follows (fun _ _ => True)
        (run_cells (SyntheticHighDimension.cell args) (SyntheticHighDimension.nr args)
           SyntheticHighDimension.number_dimensions_list (rng w))
        (SyntheticHighDimension.main args w)).
Proof.
  split.
  - apply entner_follows.
  - apply high_dimension_follows.
Qed.
